(** * lets-eat: venue scoring and filtering, verified against the source

    A shallow embedding of [js/hours-parser.js] (HoursParser), of the Places
    module ([PlacesService]: formatPlace, estimateCongestion, the filter and
    sort stages of searchNearby, extractAtmosphereFromReviews) and of the
    weekday lookup of [updateModalWithDetails].

    Conventions of the embedding.
    - A JavaScript string is a Rocq [string] holding its UTF-8 encoding.
      UTF-8 is self-synchronising, so [String.prototype.includes] and the
      literal regular expressions of the source, whose metacharacters only
      range over ASCII digits, agree with their byte-level counterparts on
      every well-formed text.
    - [null] and [undefined] are [None].
    - A JavaScript number that is an integer by construction (hours, array
      indices, rating counts, price levels) is a [Z]; ratings and distances are
      exact rationals [Q].  Ratings are decimals with one fractional digit, on
      which binary64 comparison and the sign of a difference agree with the
      exact ones.
    - [new Date()] reads the ambient clock: functions that call it live in the
      state monad [IO] over a [World] that records the clock and the number of
      readings taken so far. *)

From Stdlib Require Import ZArith QArith List String Ascii Bool Lia Lqa.
From Stdlib Require Import Permutation Sorted.
Import ListNotations.

Local Open Scope Z_scope.

(* ------------------------------------------------------------------ *)
(** ** The ambient clock *)

(** The three local-time fields of a [Date] the source reads. *)
Record Date := mkDate {
  getDay : Z;      (* 0 = Sunday, 1 = Monday, ..., 6 = Saturday *)
  getHours : Z;    (* 0 .. 23 *)
  getMinutes : Z   (* 0 .. 59 *)
}.

(** [clock w n] is what the n-th call of [new Date()] returns. *)
Record World := mkWorld {
  clock : nat -> Date;
  ticks : nat
}.

Definition IO (A : Type) : Type := World -> A * World.

Definition ret {A : Type} (a : A) : IO A := fun w => (a, w).

Definition bind {A B : Type} (m : IO A) (k : A -> IO B) : IO B :=
  fun w => let (a, w') := m w in k a w'.

Notation "x <- m ;; k" := (bind m (fun x => k))
  (at level 61, m at next level, right associativity).

Definition new_Date : IO Date :=
  fun w => (clock w (ticks w), mkWorld (clock w) (S (ticks w))).

(** A clock stopped at the instant [d]. *)
Definition frozen (d : Date) (n : nat) : World := mkWorld (fun _ => d) n.

(** [xs.map(f)] for an effectful callback, left to right. *)
Fixpoint mapM {A B : Type} (f : A -> IO B) (xs : list A) : IO (list B) :=
  match xs with
  | [] => ret []
  | x :: rest => y <- f x ;; ys <- mapM f rest ;; ret (y :: ys)
  end.

(* ------------------------------------------------------------------ *)
(** ** JavaScript values and built-ins used by the source *)

Module Js.

(** [v || d] for an optional string: the empty string is falsy. *)
Definition truthy_string (v : option string) : bool :=
  match v with
  | Some EmptyString | None => false
  | Some _ => true
  end.

Definition or_string (v : option string) (d : string) : string :=
  match v with
  | Some s => if truthy_string v then s else d
  | None => d
  end.

(** [v || d] for an optional integer: 0 is falsy. *)
Definition or_int (v : option Z) (d : Z) : Z :=
  match v with
  | Some n => if n =? 0 then d else n
  | None => d
  end.

(** [v || d] for an optional rational number. *)
Definition or_num (v : option Q) (d : Q) : Q :=
  match v with
  | Some r => if Qeq_bool r 0 then d else r
  | None => d
  end.

(** [arr[i]]: out of range (or a negative index) reads [undefined]. *)
Definition index {A : Type} (arr : list A) (i : Z) : option A :=
  if i <? 0 then None else nth_error arr (Z.to_nat i).

(** [arr.slice(0, n)]. *)
Definition slice0 {A : Type} (n : nat) (arr : list A) : list A := firstn n arr.

Fixpoint strip_prefix (p s : string) : option string :=
  match p with
  | EmptyString => Some s
  | String a p' =>
      match s with
      | String b s' => if Ascii.eqb a b then strip_prefix p' s' else None
      | EmptyString => None
      end
  end.

(** [s.includes(pat)]. *)
Fixpoint includes (s pat : string) : bool :=
  match strip_prefix pat s with
  | Some _ => true
  | None =>
      match s with
      | EmptyString => false
      | String _ s' => includes s' pat
      end
  end.

Definition code (c : ascii) : Z := Z.of_N (N_of_ascii c).

Definition is_digit (c : ascii) : bool := (48 <=? code c) && (code c <=? 57).

(** Canonicalisation of a code unit under the [i] flag (no [u] flag): only
    the ASCII letters have a case counterpart among the characters of the
    patterns of this program. *)
Definition canonicalize (c : ascii) : ascii :=
  if (97 <=? code c) && (code c <=? 122)
  then ascii_of_N (Z.to_N (code c - 32)) else c.

Fixpoint canonical (s : string) : string :=
  match s with
  | EmptyString => EmptyString
  | String c s' => String (canonicalize c) (canonical s')
  end.

(** [/a|b|.../i.test(s)] for literal alternatives. *)
Definition test_alternatives_i (alts : list string) (s : string) : bool :=
  existsb (fun a => includes (canonical s) (canonical a)) alts.

(** *** parseInt *)

Definition digit_value (c : ascii) : option Z :=
  let n := code c in
  if (48 <=? n) && (n <=? 57) then Some (n - 48)
  else if (97 <=? n) && (n <=? 122) then Some (n - 87)
  else if (65 <=? n) && (n <=? 90) then Some (n - 55)
  else None.

Definition radix_digit (R : Z) (c : ascii) : option Z :=
  match digit_value c with
  | Some d => if d <? R then Some d else None
  | None => None
  end.

(** The longest prefix of radix-[R] digits, as a number; [acc] is [None]
    until a first digit has been read. *)
Fixpoint parse_digits (R : Z) (acc : option Z) (s : string) : option Z :=
  match s with
  | String c s' =>
      match radix_digit R c with
      | Some d =>
          parse_digits R (Some (match acc with Some a => a * R + d | None => d end)) s'
      | None => acc
      end
  | EmptyString => acc
  end.

Definition ascii_white_space (c : ascii) : bool :=
  let n := code c in ((9 <=? n) && (n <=? 13)) || (n =? 32).

(** White space and line terminators outside ASCII, in UTF-8:
    U+00A0; U+1680; U+2000..U+200A, U+2028, U+2029, U+202F; U+205F;
    U+3000; U+FEFF. *)
Definition white_space2 (a b : Z) : bool := (a =? 194) && (b =? 160).

Definition white_space3 (a b c : Z) : bool :=
  ((a =? 225) && (b =? 154) && (c =? 128))
  || ((a =? 226) && (b =? 128)
      && (((128 <=? c) && (c <=? 138)) || (c =? 168) || (c =? 169) || (c =? 175)))
  || ((a =? 226) && (b =? 129) && (c =? 159))
  || ((a =? 227) && (b =? 128) && (c =? 128))
  || ((a =? 239) && (b =? 187) && (c =? 191)).

Fixpoint trimStart (s : string) : string :=
  match s with
  | EmptyString => s
  | String a s1 =>
      if ascii_white_space a then trimStart s1
      else match s1 with
           | EmptyString => s
           | String b s2 =>
               if white_space2 (code a) (code b) then trimStart s2
               else match s2 with
                    | EmptyString => s
                    | String c s3 =>
                        if white_space3 (code a) (code b) (code c)
                        then trimStart s3 else s
                    end
           end
  end.

(** [parseInt(s)] without a radix; [None] is [NaN]. *)
Definition parseInt (s : string) : option Z :=
  let s0 := trimStart s in
  let '(sign, s1) :=
    match s0 with
    | String "-" r => (-1, r)
    | String "+" r => (1, r)
    | _ => (1, s0)
    end in
  let '(R, s2) :=
    match s1 with
    | String "0" (String "x" r) | String "0" (String "X" r) => (16, r)
    | _ => (10, s1)
    end in
  option_map (Z.mul sign) (parse_digits R None s2).

(** [parseInt(s) || d]: [NaN] and 0 are falsy. *)
Definition parseInt_or (s : option string) (d : Z) : Z :=
  match s with
  | Some s => or_int (parseInt s) d
  | None => d      (* parseInt(undefined) is NaN *)
  end.

(** *** Array.prototype.sort

    ECMAScript requires [sort] to be stable and, for a consistent comparator,
    to return the elements in ascending order of the comparator; that
    array is unique, and a stable insertion sort computes it.  The
    comparator returns a number, of which only the sign is used. *)
Section Sort.
Context {A : Type} (comparefn : A -> A -> Q).

Fixpoint insert (x : A) (sorted : list A) : list A :=
  match sorted with
  | [] => [x]
  | y :: rest =>
      if Qle_bool (comparefn x y) 0 then x :: y :: rest
      else y :: insert x rest
  end.

Fixpoint sort (arr : list A) : list A :=
  match arr with
  | [] => []
  | x :: rest => insert x (sort rest)
  end.
End Sort.

End Js.

(* ------------------------------------------------------------------ *)
(** ** Backtracking matcher for the literal regular expressions *)

Module Regex.

(** A matcher lists its ways to match a prefix of the input, in the order
    in which a backtracking engine tries them, each with the rest of the
    input. *)
Definition matcher (A : Type) : Type := string -> list (A * string).

Definition unit_ {A : Type} (a : A) : matcher A := fun s => [(a, s)].

Definition seq {A B : Type} (m : matcher A) (k : A -> matcher B) : matcher B :=
  fun s => flat_map (fun ar => k (fst ar) (snd ar)) (m s).

Definition alt {A : Type} (m1 m2 : matcher A) : matcher A :=
  fun s => (m1 s ++ m2 s)%list.

Definition lit (p : string) : matcher unit :=
  fun s => match Js.strip_prefix p s with
           | Some r => [(tt, r)]
           | None => []
           end.

(** [x?] is greedy: the engine first tries to consume [x]. *)
Definition opt (m : matcher unit) : matcher unit := alt m (unit_ tt).

(** [\d] *)
Definition digit : matcher ascii :=
  fun s => match s with
           | String c r => if Js.is_digit c then [(c, r)] else []
           | EmptyString => []
           end.

(** [\d{2}] *)
Definition digits2 : matcher string :=
  seq digit (fun a => seq digit (fun b => unit_ (String a (String b EmptyString)))).

(** [\d{1,2}] is greedy: two digits are tried before one. *)
Definition digits1_2 : matcher string :=
  alt digits2 (seq digit (fun a => unit_ (String a EmptyString))).

(** [s.match(re)] for a non-global expression: the first way to match at the
    leftmost position that has one. *)
Fixpoint exec {A : Type} (re : matcher A) (s : string) : option A :=
  match re s with
  | (a, _) :: _ => Some a
  | [] =>
      match s with
      | EmptyString => None
      | String _ s' => exec re s'
      end
  end.

End Regex.

(* ------------------------------------------------------------------ *)
(** ** Records of the Places API responses *)

Module Api.

(** A review of the Place Details response; [text] may be missing. *)
Record review := mkReview { text : option string }.

(** What [place.opening_hours.isOpen()] does: it returns [true], [false] or
    [undefined], or it throws. *)
Inductive isOpenCall := Returns (v : option bool) | Throws.

(** A raw result of [nearbySearch], with the fields [formatPlace] reads
    (photo and icon, which only feed the display, are left out). *)
Record place := mkPlace {
  place_id : string;
  name : string;
  rating : option Q;
  user_ratings_total : option Z;
  price_level : option Z;
  vicinity : option string;
  opening_hours : option isOpenCall;
  types : option (list string);
  geometry_lat : Q;
  geometry_lng : Q
}.

End Api.

(* ------------------------------------------------------------------ *)
(** ** js/hours-parser.js *)

Module HoursParser.

Local Open Scope string_scope.
Local Open Scope Z_scope.

(** The four capture groups of
    [/(\d{1,2})時(\d{2})分?[～〜~-](\d{1,2})時(\d{2})分?/]. *)
Record captures := mkCaptures {
  group1 : string; group2 : string; group3 : string; group4 : string
}.

(** [[～〜~-]]: U+FF5E, U+301C, tilde, hyphen. *)
Definition separator : Regex.matcher unit :=
  Regex.alt (Regex.lit "～")
    (Regex.alt (Regex.lit "〜") (Regex.alt (Regex.lit "~") (Regex.lit "-"))).

Definition timeRangePattern : Regex.matcher captures :=
  Regex.seq Regex.digits1_2 (fun g1 =>
  Regex.seq (Regex.lit "時") (fun _ =>
  Regex.seq Regex.digits2 (fun g2 =>
  Regex.seq (Regex.opt (Regex.lit "分")) (fun _ =>
  Regex.seq separator (fun _ =>
  Regex.seq Regex.digits1_2 (fun g3 =>
  Regex.seq (Regex.lit "時") (fun _ =>
  Regex.seq Regex.digits2 (fun g4 =>
  Regex.seq (Regex.opt (Regex.lit "分")) (fun _ =>
  Regex.unit_ (mkCaptures g1 g2 g3 g4)))))))))).

(** [parseInt] of a capture group; the groups hold one or two ASCII digits,
    on which [parseInt] is never [NaN]. *)
Definition parseGroup (g : string) : Z :=
  match Js.parseInt g with Some n => n | None => 0 end.

(** Lines 43-62: the verdict once the expression has matched. *)
Definition rangeVerdict (m : captures) (currentTimeInMinutes : Z) : bool :=
  let openHour := parseGroup (group1 m) in
  let openMinute := parseGroup (group2 m) in
  let closeHour := parseGroup (group3 m) in
  let closeMinute := parseGroup (group4 m) in
  let openTimeInMinutes := openHour * 60 + openMinute in
  let closeTimeInMinutes := closeHour * 60 + closeMinute in
  if closeTimeInMinutes <? openTimeInMinutes then
    let closeTimeInMinutes := closeTimeInMinutes + 24 * 60 in
    if currentTimeInMinutes <? openTimeInMinutes then
      currentTimeInMinutes <=? closeTimeInMinutes - 24 * 60
    else
      (currentTimeInMinutes >=? openTimeInMinutes)
      && (currentTimeInMinutes <=? closeTimeInMinutes)
  else
    (currentTimeInMinutes >=? openTimeInMinutes)
    && (currentTimeInMinutes <=? closeTimeInMinutes).

(** Lines 26-65: the verdict on today's entry.  [Some true] is open,
    [Some false] closed and [None] ([null]) unknown. *)
Definition judgeToday (todayText : option string) (currentTimeInMinutes : Z)
  : option bool :=
  match todayText with
  | None => None
  | Some todayText =>
      if negb (Js.truthy_string (Some todayText)) then None
      else if Js.includes todayText "定休日" || Js.includes todayText "休業日"
      then Some false
      else if Js.includes todayText "24 時間営業" || Js.includes todayText "24時間営業"
      then Some true
      else
        match Regex.exec timeRangePattern todayText with
        | Some timeRangeMatch => Some (rangeVerdict timeRangeMatch currentTimeInMinutes)
        | None => None
        end
  end.

Definition googleDayIndex (dayOfWeek : Z) : Z :=
  if dayOfWeek =? 0 then 6 else dayOfWeek - 1.

(** [isCurrentlyOpen(weekdayText)]; the argument is an array of day texts
    (an entry may be missing) or is itself absent. *)
Definition isCurrentlyOpen (weekdayText : option (list (option string)))
  : IO (option bool) :=
  match weekdayText with
  | None => ret None
  | Some weekdayText =>
      if (List.length weekdayText =? 0)%nat then ret None
      else
        now <- new_Date ;;
        let dayOfWeek := getDay now in
        let currentHour := getHours now in
        let currentMinute := getMinutes now in
        let currentTimeInMinutes := currentHour * 60 + currentMinute in
        let todayText :=
          match Js.index weekdayText (googleDayIndex dayOfWeek) with
          | Some entry => entry
          | None => None
          end in
        ret (judgeToday todayText currentTimeInMinutes)
  end.

Definition crowded_keywords : list string :=
  ["行列"; "混雑"; "満席"; "待ち時間"; "並ぶ"; "人気"; "賑わ"].

Definition empty_keywords : list string :=
  ["空いて"; "すいて"; "ガラガラ"; "貸切"; "穴場"].

(** The inner loops of lines 89-101: the counter goes up at the first
    keyword found, and the loop is left. *)
Fixpoint countOnce (text : string) (keywords : list string) (count : Z) : Z :=
  match keywords with
  | [] => count
  | keyword :: rest =>
      if Js.includes text keyword then count + 1
      else countOnce text rest count
  end.

(** One turn of the loop over the reviews, on the pair
    (crowdedCount, emptyCount). *)
Definition reviewStep (counts : Z * Z) (r : Api.review) : Z * Z :=
  let text := Js.or_string (Api.text r) EmptyString in
  (countOnce text crowded_keywords (fst counts),
   countOnce text empty_keywords (snd counts)).

Definition reviewCounts (reviews : list Api.review) : Z * Z :=
  fold_left reviewStep (Js.slice0 5 reviews) (0, 0).

(** [estimateCongestionFromReviews(reviews)]: ["crowded"], ["empty"] or
    [null]. *)
Definition estimateCongestionFromReviews (reviews : option (list Api.review))
  : option string :=
  match reviews with
  | None => None
  | Some reviews =>
      if (List.length reviews =? 0)%nat then None
      else
        let '(crowdedCount, emptyCount) := reviewCounts reviews in
        if (crowdedCount >? emptyCount) && (crowdedCount >=? 2) then Some "crowded"
        else if (emptyCount >? crowdedCount) && (emptyCount >=? 2) then Some "empty"
        else None
  end.

End HoursParser.

(* ------------------------------------------------------------------ *)
(** ** The Places module (PlacesService) *)

Module PlacesService.

Local Open Scope string_scope.
Local Open Scope Z_scope.

Record priceRange := mkRange { min : Z; max : Z }.

(** A literal object used as a table: its own properties, in order.  The
    keys the application looks up are the data values of its filter buttons;
    the members an object literal inherits from [Object.prototype] are not
    among them and are not modelled. *)
Fixpoint lookup {V : Type} (table : list (string * V)) (key : string) : option V :=
  match table with
  | [] => None
  | (k, v) :: rest => if String.eqb k key then Some v else lookup rest key
  end.

Definition CATEGORY_TYPE_MAP : list (string * string) :=
  [("restaurant", "restaurant"); ("cafe", "cafe"); ("bar", "bar")].

Definition BUDGET_PRICE_MAP : list (string * priceRange) :=
  [("1000", mkRange 0 1);
   ("3000", mkRange 1 2);
   ("5000", mkRange 2 3);
   ("10000", mkRange 3 4);
   ("10001", mkRange 3 4)].

(** [AppState.filters]. *)
Record Filters := mkFilters {
  category : string;
  distance_ : string;
  budget : option string;
  smoking : string;
  cuisine : option string
}.

Record LatLng := mkLatLng { lat_ : Q; lng_ : Q }.

Record Congestion := mkCongestion { level : string; label : string; color : string }.

(** The object [formatPlace] builds (display-only fields left out). *)
Record Place := mkPlace {
  id : string;
  name : string;
  rating : option Q;
  ratingsTotal : option Z;
  priceLevel : option Z;
  address : string;
  isOpen : option bool;
  types : list string;
  lat : Q;
  lng : Q;
  distance : Q;
  congestion : Congestion
}.

(** [estimateCongestion(place)], lines 247-288. *)
Definition estimateCongestion (place : Api.place) : IO Congestion :=
  now <- new_Date ;;
  let hour := getHours now in
  let day := getDay now in
  let isWeekend := (day =? 0) || (day =? 6) in
  let reviewCount := Js.or_int (Api.user_ratings_total place) 0 in
  let rating := Js.or_num (Api.rating place) (3 # 1) in
  let timeScore :=
    if ((hour >=? 11) && (hour <=? 13)) || ((hour >=? 18) && (hour <=? 20)) then 3
    else if (hour >=? 14) && (hour <=? 17) then 1
    else 2 in
  let timeScore := if isWeekend then timeScore + 1 else timeScore in
  let popularityScore :=
    if reviewCount >? 500 then 3
    else if reviewCount >? 100 then 2
    else if reviewCount >? 30 then 1
    else 0 in
  let popularityScore :=
    if Qle_bool (43 # 10) rating then popularityScore + 1 else popularityScore in
  let totalScore := timeScore + popularityScore in
  ret (if totalScore >=? 6 then mkCongestion "high" "混雑" "#e57373"
       else if totalScore >=? 4 then mkCongestion "medium" "やや混雑" "#ffb74d"
       else if totalScore >=? 2 then mkCongestion "low" "普通" "#81c784"
       else mkCongestion "empty" "空いている" "#4fc3f7").

Section WithDistance.

(** [LocationService.calculateDistance]: the haversine formula, in
    floating-point trigonometry; nothing here depends on its values. *)
Variable calculateDistance : Q -> Q -> Q -> Q -> Q.

(** [formatPlace(place, userLocation)], lines 195-231. *)
Definition formatPlace (place : Api.place) (userLocation : LatLng) : IO Place :=
  let distance :=
    calculateDistance (lat_ userLocation) (lng_ userLocation)
      (Api.geometry_lat place) (Api.geometry_lng place) in
  let isOpen :=
    match Api.opening_hours place with
    | Some (Api.Returns v) => v
    | Some Api.Throws => None       (* caught *)
    | None => None
    end in
  congestion <- estimateCongestion place ;;
  ret (mkPlace
         (Api.place_id place)
         (Api.name place)
         (match Api.rating place with
          | Some r => if Qeq_bool r 0 then None else Some r
          | None => None
          end)
         (Some (Js.or_int (Api.user_ratings_total place) 0))
         (Api.price_level place)
         (Js.or_string (Api.vicinity place) EmptyString)
         isOpen
         (match Api.types place with Some t => t | None => [] end)
         (Api.geometry_lat place)
         (Api.geometry_lng place)
         distance
         congestion).

(** [parseInt(filters.distance) || 800] *)
Definition radius (filters : Filters) : Z :=
  Js.parseInt_or (Some (distance_ filters)) 800.

(** The range the budget filter uses, if it runs at all: lines 111-113. *)
Definition budgetRange (filters : Filters) : option priceRange :=
  if Js.truthy_string (budget filters)
  then match budget filters with
       | Some key => lookup BUDGET_PRICE_MAP key
       | None => None
       end
  else None.

Definition withinPrice (priceRange : priceRange) (p : Place) : bool :=
  match priceLevel p with
  | None => true
  | Some l => (l >=? min priceRange) && (l <=? max priceRange)
  end.

(** Lines 103-119: the three filters, one after the other. *)
Definition filterStage (filters : Filters) (places : list Place) : list Place :=
  let places :=
    filter (fun p => match isOpen p with Some true => true | _ => false end) places in
  let places :=
    filter (fun p => Qle_bool (distance p) (inject_Z (radius filters))) places in
  match budgetRange filters with
  | Some priceRange => filter (withinPrice priceRange) places
  | None => places
  end.

(** The comparator of lines 122-126. *)
Definition byRating (a b : Place) : Q :=
  let ratingDiff := (Js.or_num (rating b) 0 - Js.or_num (rating a) 0)%Q in
  if negb (Qeq_bool ratingDiff 0) then ratingDiff
  else inject_Z (Js.or_int (ratingsTotal b) 0 - Js.or_int (ratingsTotal a) 0).

Definition sortStage (places : list Place) : list Place := Js.sort byRating places.

(** The request sent to [nearbySearch]. *)
Record Request := mkRequest {
  location : LatLng;
  radius_ : Z;
  type_ : string;
  openNow : bool;
  language : string;
  keyword : option string
}.

Definition buildRequest (location : LatLng) (filters : Filters) : Request :=
  let type :=
    Js.or_string (lookup CATEGORY_TYPE_MAP (category filters)) "restaurant" in
  let keywords :=
    ((if Js.truthy_string (cuisine filters)
      then match cuisine filters with Some c => [c] | None => [] end
      else [])
     ++ (if String.eqb (smoking filters) "allowed" then ["喫煙可"]
         else if String.eqb (smoking filters) "no-smoking" then ["禁煙"]
         else []))%list in
  mkRequest location (radius filters) type true "ja"
    (match keywords with
     | [] => None
     | _ => Some (String.concat " " keywords)
     end).

(** How the promise of [searchNearby] settles. *)
Inductive Outcome := Resolve (places : list Place) | Reject (message : string).

(** The message of a failed search, lines 132-139. *)
Definition errorMessage (status : string) : string :=
  if String.eqb status "REQUEST_DENIED"
  then "APIキーが無効、または「Places API」が有効化されていません。Google Cloud Consoleで「Places API」（※ New ではない方）を有効にしてください。"
  else if String.eqb status "OVER_QUERY_LIMIT"
  then "API使用制限を超えました。しばらく待ってからお試しください。"
  else if String.eqb status "INVALID_REQUEST"
  then "リクエストが無効です。ページを再読み込みしてください。"
  else "お店の検索に失敗しました。".

(** Lines 101-128: format, filter, sort. *)
Definition rank (location : LatLng) (filters : Filters)
    (results : list Api.place) : IO (list Place) :=
  places <- mapM (fun place => formatPlace place location) results ;;
  ret (sortStage (filterStage filters places)).

(** The callback handed to [nearbySearch], lines 96-143; [results] is
    an array or [null]. *)
Definition onResults (location : LatLng) (filters : Filters)
    (results : option (list Api.place)) (status : string) : IO Outcome :=
  match (if String.eqb status "OK" then results else None) with
  | Some results =>
      places <- rank location filters results ;;
      ret (Resolve places)
  | None =>
      if String.eqb status "ZERO_RESULTS" then ret (Resolve [])
      else ret (Reject (errorMessage status))
  end.

(** [searchNearby(location, filters)]; [service] is the Places service once
    [init] has run, as the function from a request to what it calls the
    callback with. *)
Definition searchNearby
    (service : option (Request -> option (list Api.place) * string))
    (location : LatLng) (filters : Filters) : IO Outcome :=
  match service with
  | None => ret (Reject "Places APIが初期化されていません。ページを再読み込みしてください。")
  | Some nearbySearch =>
      let '(results, status) := nearbySearch (buildRequest location filters) in
      onResults location filters results status
  end.

End WithDistance.

(** The rules of [extractAtmosphereFromReviews]: the alternatives of the
    pattern (all literal, flag [i]) and the tag. *)
Definition keywords : list (list string * string) :=
  [ (["高層"; "眺め"; "景色"; "ビュー"; "夜景"; "view"], "🏙️ 眺望が良い");
    (["一軒家"; "隠れ家"; "古民家"], "🏠 一軒家・隠れ家");
    (["個室"; "プライベート"; "半個室"], "🚪 個室あり");
    (["テラス"; "屋上"; "オープン"], "🌿 テラス席");
    (["デート"; "記念日"; "誕生日"; "ロマンチック"], "💑 デート向き");
    (["おしゃれ"; "スタイリッシュ"; "モダン"], "✨ おしゃれ");
    (["落ち着"; "静か"; "大人"; "上品"], "🕯️ 落ち着いた雰囲気");
    (["広い"; "開放"; "ゆったり"], "🏛️ 開放的");
    (["カウンター"; "一人"; "ソロ"], "🍸 カウンター席");
    (["接客"; "サービス"; "ホスピタリティ"], "👤 サービス◎");
    (["コスパ"; "リーズナブル"; "お得"], "💰 コスパ良好") ].

(** A [Set] of strings keeps its elements in insertion order: a list
    without duplicates; [add] appends a new element, and does nothing for
    one that is there. *)
Definition set_has (found : list string) (tag : string) : bool :=
  existsb (String.eqb tag) found.

Definition set_add (found : list string) (tag : string) : list string :=
  if set_has found tag then found else (found ++ [tag])%list.

Definition set_size (found : list string) : Z := Z.of_nat (List.length found).

(** The body of the inner [forEach], line 327-329. *)
Definition ruleStep (text : string) (found : list string)
    (rule : list string * string) : list string :=
  if Js.test_alternatives_i (fst rule) text && (set_size found <? 4)
  then set_add found (snd rule) else found.

(** The body of the outer [forEach]. *)
Definition reviewStep (found : list string) (review : Api.review) : list string :=
  let text := Js.or_string (Api.text review) EmptyString in
  fold_left (ruleStep text) keywords found.

(** [extractAtmosphereFromReviews(reviews)], lines 308-334. *)
Definition extractAtmosphereFromReviews (reviews : list Api.review) : list string :=
  fold_left reviewStep reviews [].

End PlacesService.

(* ------------------------------------------------------------------ *)
(** ** The detail view (updateModalWithDetails) *)

Module UI.

(** Lines 351-361 of the detail view: the text put in the hours row, or
    [None] when the row stays hidden.  [weekday_text] is
    [details.openingHours.weekday_text], absent when either is. *)
Definition modalHoursText (weekday_text : option (list (option string)))
  : IO (option string) :=
  match weekday_text with
  | None => ret None
  | Some weekday_text =>
      now <- new_Date ;;
      let today := getDay now in
      let googleDayIndex := if today =? 0 then 6 else today - 1 in
      let todayText :=
        match Js.index weekday_text googleDayIndex with
        | Some entry => entry
        | None => None
        end in
      ret (if Js.truthy_string todayText then todayText else None)
  end.

End UI.


(* ------------------------------------------------------------------ *)
(** ** Reference definitions, in the words of the specification *)

Module Reference.

Local Open Scope string_scope.
Local Open Scope Z_scope.

Definition minuteOfDay (d : Date) : Z := getHours d * 60 + getMinutes d.

(** The instant the next call of [new Date()] returns. *)
Definition now (w : World) : Date := clock w (ticks w).

(** Open minute and close minute of the range a match holds. *)
Definition openMinute (m : HoursParser.captures) : Z :=
  HoursParser.parseGroup (HoursParser.group1 m) * 60
  + HoursParser.parseGroup (HoursParser.group2 m).

Definition closeMinute (m : HoursParser.captures) : Z :=
  HoursParser.parseGroup (HoursParser.group3 m) * 60
  + HoursParser.parseGroup (HoursParser.group4 m).

(** The midnight-spanning rule of the specification. *)
Definition rangeDecision (open_m close_m t : Z) : bool :=
  if close_m >=? open_m then (open_m <=? t) && (t <=? close_m)
  else if t <? open_m then t <=? close_m
  else (open_m <=? t) && (t <=? close_m + 1440).

Definition hasClosedMarker (text : string) : bool :=
  Js.includes text "定休日" || Js.includes text "休業日".

Definition has24hMarker (text : string) : bool :=
  Js.includes text "24 時間営業" || Js.includes text "24時間営業".

(** A table with the same text on each of the seven days. *)
Definition everyDay (text : string) : option (list (option string)) :=
  Some (repeat (Some text) 7).

(** A clock stopped on a Wednesday at [hh]:[mm]. *)
Definition at_ (hh mm : Z) : World := frozen (mkDate 3 hh mm) 0.

(** The entry of a Monday-first table for a day, flattened: a hole, a
    [null] entry and an index past the end all read as absent. *)
Definition entryAt (weekdayText : list (option string)) (i : nat) : option string :=
  match nth_error weekdayText i with
  | Some entry => entry
  | None => None
  end.

(** The text of a review, empty when missing. *)
Definition reviewText (r : Api.review) : string :=
  match Api.text r with Some s => s | None => EmptyString end.

(** Some keyword of the list occurs in the review. *)
Definition mentions (keywords : list string) (r : Api.review) : bool :=
  existsb (Js.includes (reviewText r)) keywords.

(** How many of the first five reviews mention a keyword of the list. *)
Definition mentionCount (keywords : list string) (reviews : list Api.review) : Z :=
  Z.of_nat (List.length (filter (mentions keywords) (firstn 5 reviews))).

(** *** Congestion, contract A *)

Definition timeScore (h d : Z) : Z :=
  (if ((11 <=? h) && (h <=? 13)) || ((18 <=? h) && (h <=? 20)) then 3
   else if (14 <=? h) && (h <=? 17) then 1
   else 2)
  + (if (d =? 6) || (d =? 0) then 1 else 0).

(** The highest threshold met, not their sum. *)
Definition countScore (c : Z) : Z :=
  if 500 <? c then 3 else if 100 <? c then 2 else if 30 <? c then 1 else 0.

Definition ratingBonus (r : Q) : Z := if Qle_bool (43 # 10) r then 1 else 0.

Definition popularityScore (c : Z) (r : Q) : Z := countScore c + ratingBonus r.

Definition high := PlacesService.mkCongestion "high" "混雑" "#e57373".
Definition medium := PlacesService.mkCongestion "medium" "やや混雑" "#ffb74d".
Definition low := PlacesService.mkCongestion "low" "普通" "#81c784".
Definition empty := PlacesService.mkCongestion "empty" "空いている" "#4fc3f7".

Definition verdictOf (total : Z) : PlacesService.Congestion :=
  if 6 <=? total then high
  else if 4 <=? total then medium
  else if 2 <=? total then low
  else empty.

Definition congestionVerdict (h d c : Z) (r : Q) : PlacesService.Congestion :=
  verdictOf (timeScore h d + popularityScore c r).

(** A raw place with another rating. *)
Definition rated (p : Api.place) (r : option Q) : Api.place :=
  Api.mkPlace (Api.place_id p) (Api.name p) r (Api.user_ratings_total p)
    (Api.price_level p) (Api.vicinity p) (Api.opening_hours p) (Api.types p)
    (Api.geometry_lat p) (Api.geometry_lng p).

(** A raw place with another rating count. *)
Definition counted (p : Api.place) (c : option Z) : Api.place :=
  Api.mkPlace (Api.place_id p) (Api.name p) (Api.rating p) c
    (Api.price_level p) (Api.vicinity p) (Api.opening_hours p) (Api.types p)
    (Api.geometry_lat p) (Api.geometry_lng p).

(** A formatted place with another rating, and with another count. *)
Definition withRating (p : PlacesService.Place) (r : option Q) : PlacesService.Place :=
  PlacesService.mkPlace (PlacesService.id p) (PlacesService.name p) r
    (PlacesService.ratingsTotal p) (PlacesService.priceLevel p)
    (PlacesService.address p) (PlacesService.isOpen p) (PlacesService.types p)
    (PlacesService.lat p) (PlacesService.lng p) (PlacesService.distance p)
    (PlacesService.congestion p).

Definition withRatingsTotal (p : PlacesService.Place) (c : option Z)
  : PlacesService.Place :=
  PlacesService.mkPlace (PlacesService.id p) (PlacesService.name p)
    (PlacesService.rating p) c (PlacesService.priceLevel p)
    (PlacesService.address p) (PlacesService.isOpen p) (PlacesService.types p)
    (PlacesService.lat p) (PlacesService.lng p) (PlacesService.distance p)
    (PlacesService.congestion p).

(** A venue known by its rating and rating count only. *)
Definition venue (r : option Q) (c : option Z) : Api.place :=
  Api.mkPlace "id" "venue" r c None None None None 0 0.

Definition candidate (name : string) (r : option Q) (c : option Z)
  : PlacesService.Place :=
  PlacesService.mkPlace name name r c None EmptyString (Some true) [] 0 0 0 low.

(** *** The sort stage *)

(** [x] may stand before [y]: the comparator does not put it after. *)
Definition notAfter {A : Type} (comparefn : A -> A -> Q) (x y : A) : bool :=
  Qle_bool (comparefn x y) 0.

(** Equal for the comparator. *)
Definition tied {A : Type} (comparefn : A -> A -> Q) (x y : A) : bool :=
  notAfter comparefn x y && notAfter comparefn y x.

(** The sort keys, an absent one being 0. *)
Definition ratingKey (p : PlacesService.Place) : Q :=
  match PlacesService.rating p with Some r => r | None => 0 end.

Definition countKey (p : PlacesService.Place) : Z :=
  match PlacesService.ratingsTotal p with Some c => c | None => 0 end.

(** Rating descending, then rating count descending. *)
Definition ranksBefore (a b : PlacesService.Place) : Prop :=
  (ratingKey b < ratingKey a)%Q
  \/ ((ratingKey a == ratingKey b)%Q /\ countKey b <= countKey a).

Definition sameKeys (a b : PlacesService.Place) : bool :=
  Qeq_bool (ratingKey a) (ratingKey b) && (countKey a =? countKey b).

(** *** The filter stage *)

(** The candidate passes all three predicates. *)
Definition keeps (filters : PlacesService.Filters) (p : PlacesService.Place) : bool :=
  match PlacesService.isOpen p with Some true => true | _ => false end
  && Qle_bool (PlacesService.distance p) (inject_Z (PlacesService.radius filters))
  && match PlacesService.budgetRange filters with
     | Some range =>
         match PlacesService.priceLevel p with
         | None => true
         | Some tier =>
             (PlacesService.min range <=? tier) && (tier <=? PlacesService.max range)
         end
     | None => true
     end.

(** *** Ambience tags *)

(** The tags in rule-list order. *)
Definition ruleTags : list string := map snd PlacesService.keywords.

(** The tags of the rules whose pattern matches the review, in rule-list
    order. *)
Definition matchedTags (r : Api.review) : list string :=
  map snd
    (filter (fun rule => Js.test_alternatives_i (fst rule) (reviewText r))
       PlacesService.keywords).

(** The first occurrences, in order. *)
Fixpoint distinct (l : list string) : list string :=
  match l with
  | [] => []
  | x :: rest => x :: filter (fun y => negb (String.eqb x y)) (distinct rest)
  end.

(** [l] can be read off [whole] from left to right. *)
Fixpoint subsequence (l whole : list string) : bool :=
  match whole with
  | [] => match l with [] => true | _ => false end
  | y :: whole' =>
      match l with
      | [] => true
      | x :: l' =>
          if String.eqb x y then subsequence l' whole' else subsequence l whole'
      end
  end.

(** The tags come in the order of the rule list. *)
Definition inRuleOrder (tags : list string) : bool := subsequence tags ruleTags.

(** Adding to the set while it holds fewer than four tags. *)
Definition addCapped (found : list string) (tag : string) : list string :=
  if PlacesService.set_size found <? 4 then PlacesService.set_add found tag else found.

(** *** The clock *)

(** The result is a function of the arguments alone, and the clock is
    left unread: what it means for the time to be an explicit input. *)
Definition clockFree {A B : Type} (f : A -> IO B) : Prop :=
  exists g : A -> B, forall a w, f a w = (g a, w).

(** A clock that shows [first] at the first reading and [later] from
    then on. *)
Definition ticking (first later : Date) : World :=
  mkWorld (fun n => match n with O => first | S _ => later end) 0.

(** An open venue at the user's position. *)
Definition openVenue (r : option Q) (c : option Z) : Api.place :=
  Api.mkPlace "id" "venue" r c None None (Some (Api.Returns (Some true))) None 0 0.

(** The filters the application starts with. *)
Definition initialFilters : PlacesService.Filters :=
  PlacesService.mkFilters "restaurant" "400" None "any" None.

Definition here : PlacesService.LatLng := PlacesService.mkLatLng 0 0.

Definition flatEarth (lat1 lng1 lat2 lng2 : Q) : Q := 0.

(** *** Day texts that hold a time range *)

Definition digitChar (d : Z) : ascii := ascii_of_N (Z.to_N (48 + d)).

(** Two decimal digits, as the minutes are written. *)
Definition twoDigits (n : Z) : string :=
  String (digitChar (n / 10)) (String (digitChar (n mod 10)) EmptyString).

(** One digit below ten and two from ten on, as the hours are written. *)
Definition hourDigits (n : Z) : string :=
  if n <? 10 then String (digitChar n) EmptyString else twoDigits n.

Fixpoint noDigit (s : string) : bool :=
  match s with
  | EmptyString => true
  | String c s' => negb (Js.is_digit c) && noDigit s'
  end.

(** The glyphs of the separator class. *)
Definition separators : list string := ["～"; "〜"; "~"; "-"].

(** A day text with the range [oh]:[om] - [ch]:[cm] between [pre] and
    [post], such as "月曜日: 7時00分～20時00分". *)
Definition rangeText (pre : string) (oh om : Z) (sep : string) (ch cm : Z)
    (post : string) : string :=
  (pre ++ hourDigits oh ++ "時" ++ twoDigits om ++ "分" ++ sep
   ++ hourDigits ch ++ "時" ++ twoDigits cm ++ "分" ++ post)%string.

(** A formatted candidate known by its open-now verdict, distance and
    price tier. *)
Definition offer (name : string) (isOpen : option bool) (distance : Q)
    (priceLevel : option Z) : PlacesService.Place :=
  PlacesService.mkPlace name name None None priceLevel EmptyString isOpen [] 0 0 distance low.

End Reference.

From Stdlib Require Import Qround.

(* ------------------------------------------------------------------ *)
(** ** The Places module: type tags and price labels *)

Module Places.

Local Open Scope string_scope.
Local Open Scope Z_scope.

(** Place types to ambience tags; own properties only, as for the budget
    table. *)
Definition ATMOSPHERE_TAGS : list (string * string) :=
  [("fine_dining_restaurant", "🌟 高級ダイニング");
   ("japanese_restaurant", "🏯 和の雰囲気");
   ("french_restaurant", "🇫🇷 フレンチ");
   ("italian_restaurant", "🇮🇹 イタリアン");
   ("steak_house", "🥩 ステーキハウス");
   ("sushi_restaurant", "🍣 寿司");
   ("seafood_restaurant", "🦞 シーフード");
   ("brunch_restaurant", "🥞 ブランチ");
   ("ramen_restaurant", "🍜 ラーメン");
   ("barbecue_restaurant", "🔥 焼肉・BBQ");
   ("bar", "🥂 バー");
   ("wine_bar", "🍷 ワインバー");
   ("cocktail_bar", "🍸 カクテルバー");
   ("cafe", "☕ カフェ");
   ("coffee_shop", "☕ コーヒーショップ")].

(** [getAtmosphereTags(types)], lines 293-303, on type names that are own
    keys of the table or no property of it at all. *)
Definition getAtmosphereTags (types : option (list string)) : list string :=
  match types with
  | None => []
  | Some types =>
      if Z.of_nat (List.length types) >? 0 then
        fold_left
          (fun tags type =>
             let tag := PlacesService.lookup ATMOSPHERE_TAGS type in
             if Js.truthy_string tag
             then match tag with Some t => (tags ++ [t])%list | None => tags end
             else tags)
          types []
      else []
  end.

Definition labels : list string := ["無料"; "~¥1,000"; "¥1,000~3,000"; "¥3,000~5,000"; "¥5,000~"].

(** [formatPriceLevel(level)], lines 339-343. *)
Definition formatPriceLevel (level : option Z) : string :=
  match level with
  | None => EmptyString
  | Some level => Js.or_string (Js.index labels level) EmptyString
  end.

End Places.

(* ------------------------------------------------------------------ *)
(** ** The detail view: stars, smoking information, appeal tags *)

Module Modal.

Local Open Scope string_scope.
Local Open Scope Z_scope.

(** The rules of [extractSmokingInfo]: alternatives (flag [i]) and label. *)
Definition keywords : list (list string * string) :=
  [(["喫煙可"; "喫煙室"; "喫煙席"], "喫煙可");
   (["分煙"], "分煙");
   (["完全禁煙"; "禁煙席"; "禁煙"], "禁煙")].



(** A string [n] times over; nothing for [n <= 0], as a counting loop
    does. *)
Definition times (s : string) (n : Z) : string :=
  String.concat EmptyString (repeat s (Z.to_nat n)).

(** [rating % 1]: the remainder has the sign of the dividend. *)
Definition rem1 (rating : Q) : Q :=
  (rating - inject_Z (if Qle_bool 0 rating then Qfloor rating else Qceiling rating))%Q.

(** [renderStars(rating)], lines 442-457. *)
Definition renderStars (rating : Q) : string :=
  let fullStars := Qfloor rating in
  let halfStar := Qle_bool (1 # 2) (rem1 rating) in
  let html := times "★" fullStars in
  let html := if halfStar then html ++ "★" else html in
  let totalStars := fullStars + (if halfStar then 1 else 0) in
  html ++ times "☆" (5 - totalStars).

(** What [getPlaceDetails] resolves with, as far as the tags need it. *)
Record Details := mkDetails {
  reviews : list Api.review;
  types : list string;
  editorialSummary : option string
}.

(** [if (!appealTags.includes(tag)) appealTags.push(tag)] *)
Definition pushNew (appealTags : list string) (tag : string) : list string :=
  if existsb (String.eqb tag) appealTags then appealTags
  else (appealTags ++ [tag])%list.

(** The appeal tags of [updateModalWithDetails], lines 362-382. *)
Definition appealTags (details : Details) : list string :=
  let typeTags := Places.getAtmosphereTags (Some (types details)) in
  let appealTags := typeTags in
  let appealTags :=
    if Z.of_nat (List.length (reviews details)) >? 0 then
      fold_left pushNew
        (PlacesService.extractAtmosphereFromReviews (reviews details)) appealTags
    else appealTags in
  if Js.truthy_string (editorialSummary details)
  then match editorialSummary details with
       | Some summary => ("📝 " ++ summary) :: appealTags
       | None => appealTags
       end
  else appealTags.


End Modal.

(* ------------------------------------------------------------------ *)
(** ** js/app.js: the filter buttons *)

Module App.

Local Open Scope string_scope.

(** An element that carries [data-type] and [data-value], with whether its
    class list holds [active].  The page is taken to give these attributes
    to its filter buttons only, each of which [setupFilters] wires. *)
Record button := mkButton {
  dataType : string;
  dataValue : string;
  active : bool
}.

(** [AppState.filters], the buttons of the page in document order, and the
    [display] style of the cuisine group. *)
Record State := mkState {
  filters : PlacesService.Filters;
  buttons : list button;
  cuisineGroupDisplay : string
}.

(** [querySelectorAll('[data-type="..."]').forEach(b => b.classList.remove('active'))] *)
Definition removeActive (type : string) (buttons : list button) : list button :=
  map (fun b =>
         if String.eqb (dataType b) type
         then mkButton (dataType b) (dataValue b) false else b)
    buttons.

(** [btn.classList.add('active')] for the button at position [i]. *)
Fixpoint addActive (i : nat) (buttons : list button) : list button :=
  match buttons, i with
  | [], _ => []
  | b :: rest, O => mkButton (dataType b) (dataValue b) true :: rest
  | b :: rest, S j => b :: addActive j rest
  end.

Definition setCategory (f : PlacesService.Filters) (v : string) :=
  PlacesService.mkFilters v (PlacesService.distance_ f) (PlacesService.budget f)
    (PlacesService.smoking f) (PlacesService.cuisine f).

Definition setDistance (f : PlacesService.Filters) (v : string) :=
  PlacesService.mkFilters (PlacesService.category f) v (PlacesService.budget f)
    (PlacesService.smoking f) (PlacesService.cuisine f).

Definition setBudget (f : PlacesService.Filters) (v : option string) :=
  PlacesService.mkFilters (PlacesService.category f) (PlacesService.distance_ f) v
    (PlacesService.smoking f) (PlacesService.cuisine f).

Definition setSmoking (f : PlacesService.Filters) (v : string) :=
  PlacesService.mkFilters (PlacesService.category f) (PlacesService.distance_ f)
    (PlacesService.budget f) v (PlacesService.cuisine f).

Definition setCuisine (f : PlacesService.Filters) (v : option string) :=
  PlacesService.mkFilters (PlacesService.category f) (PlacesService.distance_ f)
    (PlacesService.budget f) (PlacesService.smoking f) v.

(** The click listener of [setupFilters], lines 27-78, on the button at
    position [i] of the page. *)
Definition onClick (i : nat) (s : State) : State :=
  match nth_error (buttons s) i with
  | None => s
  | Some btn =>
      let type := dataType btn in
      let value := dataValue btn in
      if String.eqb type "category" then
        let bs := addActive i (removeActive "category" (buttons s)) in
        let f := setCategory (filters s) value in
        if String.eqb value "restaurant" then mkState f bs EmptyString
        else mkState (setCuisine f None) (removeActive "cuisine" bs) "none"
      else if String.eqb type "distance" then
        mkState (setDistance (filters s) value)
          (addActive i (removeActive "distance" (buttons s)))
          (cuisineGroupDisplay s)
      else if String.eqb type "budget" then
        let isActive := active btn in
        let bs := removeActive "budget" (buttons s) in
        if negb isActive
        then mkState (setBudget (filters s) (Some value)) (addActive i bs)
               (cuisineGroupDisplay s)
        else mkState (setBudget (filters s) None) bs (cuisineGroupDisplay s)
      else if String.eqb type "smoking" then
        mkState (setSmoking (filters s) value)
          (addActive i (removeActive "smoking" (buttons s)))
          (cuisineGroupDisplay s)
      else if String.eqb type "cuisine" then
        let isActive := active btn in
        let bs := removeActive "cuisine" (buttons s) in
        if negb isActive
        then mkState (setCuisine (filters s) (Some value)) (addActive i bs)
               (cuisineGroupDisplay s)
        else mkState (setCuisine (filters s) None) bs (cuisineGroupDisplay s)
      else s
  end.

End App.

(* ------------------------------------------------------------------ *)
(** ** Notions used to state further properties *)

Module Derived.

Local Open Scope string_scope.
Local Open Scope Z_scope.

(** How crowded a verdict is: empty 0, low 1, medium 2, high 3. *)
Definition severity (c : PlacesService.Congestion) : Z :=
  let l := PlacesService.level c in
  if String.eqb l "high" then 3
  else if String.eqb l "medium" then 2
  else if String.eqb l "low" then 1
  else 0.

(** The verdict of a place with the given count and rating at hour [h] of
    weekday [d]. *)
Definition congestionAt (h d : Z) (c : option Z) (r : option Q)
  : PlacesService.Congestion :=
  fst (PlacesService.estimateCongestion (Reference.venue r c) (frozen (mkDate d h 0) 0)).

(** [filled] full stars followed by empty ones up to five. *)
Definition stars (filled : Z) : string :=
  Modal.times "★" filled ++ Modal.times "☆" (5 - filled).

(** The values of the active buttons of a type, in document order. *)
Definition activeValues (type : string) (buttons : list App.button) : list string :=
  map App.dataValue
    (filter (fun b => String.eqb (App.dataType b) type && App.active b) buttons).

(** The active buttons of a type show the selection: the one selected
    value, or none. *)
Definition shows (type : string) (selection : option string)
    (buttons : list App.button) : Prop :=
  activeValues type buttons
  = match selection with Some v => [v] | None => [] end.

(** Filters and active buttons agree. *)
Definition consistent (s : App.State) : Prop :=
  let f := App.filters s in
  let bs := App.buttons s in
  shows "category" (Some (PlacesService.category f)) bs
  /\ shows "distance" (Some (PlacesService.distance_ f)) bs
  /\ shows "budget" (PlacesService.budget f) bs
  /\ shows "smoking" (Some (PlacesService.smoking f)) bs
  /\ shows "cuisine" (PlacesService.cuisine f) bs.


(** The day of the week (Sunday = 0) on which entry [i] of a Monday-first
    table is read. *)
Definition platformDay (i : Z) : Z := (i + 1) mod 7.

(** The ten characters [\d] matches. *)
Definition decimalDigits : list ascii :=
  ["0"; "1"; "2"; "3"; "4"; "5"; "6"; "7"; "8"; "9"]%char.

(** [parseInt] reads the group as a number from 0 to 99. *)
Definition parsesBelow100 (g : string) : bool :=
  match Js.parseInt g with
  | Some n => (0 <=? n) && (n <=? 99)
  | None => false
  end.

(** The tag of a place type, if the table has one. *)
Definition typeTag (type : string) : list string :=
  match PlacesService.lookup Places.ATMOSPHERE_TAGS type with
  | Some tag => [tag]
  | None => []
  end.

(** The line of the editorial summary, when there is a non-empty one. *)
Definition summaryLine (summary : option string) : list string :=
  match summary with
  | Some (String c rest) => [("📝 " ++ String c rest)%string]
  | _ => []
  end.

(** A page with a few filter buttons, in the state the application starts
    in. *)
Definition startState : App.State :=
  App.mkState Reference.initialFilters
    [App.mkButton "category" "restaurant" true;
     App.mkButton "category" "cafe" false;
     App.mkButton "distance" "400" true;
     App.mkButton "distance" "800" false;
     App.mkButton "budget" "1000" false;
     App.mkButton "budget" "3000" false;
     App.mkButton "smoking" "any" true;
     App.mkButton "smoking" "no-smoking" false;
     App.mkButton "cuisine" "ラーメン" false]
    EmptyString.

End Derived.

(* ------------------------------------------------------------------ *)
(** ** The inputs on which the embedding is exact *)

Module Domain.

Local Open Scope string_scope.
Local Open Scope Z_scope.

(** The members every object literal inherits from [Object.prototype],
    with those of Annex B that browsers have.  On one of these names
    [table[key]] finds the inherited member, not [undefined];
    [PlacesService.lookup] reads own properties only, so it is exact on
    every other key. *)
Definition inherited : list string :=
  ["constructor"; "hasOwnProperty"; "isPrototypeOf"; "propertyIsEnumerable";
   "toLocaleString"; "toString"; "valueOf"; "__proto__";
   "__defineGetter__"; "__defineSetter__"; "__lookupGetter__"; "__lookupSetter__"].

Definition plainKey (key : string) : bool :=
  negb (existsb (String.eqb key) inherited).


Definition plainTypes (types : list string) : bool := forallb plainKey types.



(** *** Decimal numerals *)



(** The number the digits [ds] denote. *)
Definition value (ds : list Z) : Z :=
  fold_left (fun a d => a * 10 + d) ds 0.

End Domain.

(* ------------------------------------------------------------------ *)
(** ** isCurrentlyOpen on a table of arbitrary values *)

(** [HoursParser.isCurrentlyOpen] above takes the table the JSDoc
    announces, an array of strings with possibly missing entries.  Here the
    entries are arbitrary values of a Places response, and each operation of
    the body that can throw a [TypeError] has that outcome. *)
Module Untyped.

Local Open Scope string_scope.
Local Open Scope Z_scope.

(** The values a JSON response holds, and [undefined]. *)
#[local] Unset Elimination Schemes.
Inductive value :=
| Undefined
| Null
| Boolean (b : bool)
| Number (n : Q)
| Text (s : string)
| Array (items : list value)
| Object_ (fields : list (string * value)).
#[local] Set Elimination Schemes.

(** How an expression completes: with a value, or by throwing. *)
Inductive completion (A : Type) :=
| Normal (a : A)
| Throw.

Arguments Normal {A} a.
Arguments Throw {A}.

(** ToBoolean. *)
Definition truthy (v : value) : bool :=
  match v with
  | Undefined | Null => false
  | Boolean b => b
  | Number n => negb (Qeq_bool n 0)
  | Text s => Js.truthy_string (Some s)
  | Array _ | Object_ _ => true
  end.

(** [v.includes(searchString)] for a string literal [searchString]: a
    string and an array have the method (an array holds the literal when one
    of its elements is that string); [undefined] and [null] have no
    properties, and for the other values [v.includes] is not a function. *)
Definition includes (v : value) (searchString : string) : completion bool :=
  match v with
  | Text s => Normal (Js.includes s searchString)
  | Array items =>
      Normal (existsb (fun x => match x with
                                | Text t => String.eqb t searchString
                                | _ => false
                                end) items)
  | _ => Throw
  end.

(** [v.match(re)] for the time-range expression: only a string has the
    method. *)
Definition match_ (v : value) : completion (option HoursParser.captures) :=
  match v with
  | Text s => Normal (Regex.exec HoursParser.timeRangePattern s)
  | _ => Throw
  end.

(** [a || b] on booleans: [b] is evaluated only when [a] is [false]. *)
Definition orElse (a b : completion bool) : completion bool :=
  match a with
  | Normal false => b
  | _ => a
  end.

(** Lines 26-65 on today's entry. *)
Definition judgeToday (todayText : value) (currentTimeInMinutes : Z)
  : completion (option bool) :=
  if negb (truthy todayText) then Normal None
  else
    match orElse (includes todayText "定休日") (includes todayText "休業日") with
    | Throw => Throw
    | Normal true => Normal (Some false)
    | Normal false =>
        match orElse (includes todayText "24 時間営業")
                (includes todayText "24時間営業") with
        | Throw => Throw
        | Normal true => Normal (Some true)
        | Normal false =>
            match match_ todayText with
            | Throw => Throw
            | Normal (Some timeRangeMatch) =>
                Normal (Some (HoursParser.rangeVerdict timeRangeMatch
                                currentTimeInMinutes))
            | Normal None => Normal None
            end
        end
    end.

(** [isCurrentlyOpen(weekdayText)]; the argument is an array or is absent. *)
Definition isCurrentlyOpen (weekdayText : option (list value))
  : IO (completion (option bool)) :=
  match weekdayText with
  | None => ret (Normal None)
  | Some weekdayText =>
      if (List.length weekdayText =? 0)%nat then ret (Normal None)
      else
        now <- new_Date ;;
        let dayOfWeek := getDay now in
        let currentHour := getHours now in
        let currentMinute := getMinutes now in
        let currentTimeInMinutes := currentHour * 60 + currentMinute in
        let todayText :=
          match Js.index weekdayText (HoursParser.googleDayIndex dayOfWeek) with
          | Some entry => entry
          | None => Undefined
          end in
        ret (judgeToday todayText currentTimeInMinutes)
  end.

(** *** Tables of day texts *)

(** The entry is a string or is missing. *)
Definition dayText (v : value) : bool :=
  match v with
  | Text _ | Undefined | Null => true
  | _ => false
  end.

(** A weekly-hours input: absent, or an array (of any length) of day
    texts. *)
Definition weeklyHours (weekdayText : option (list value)) : bool :=
  match weekdayText with
  | Some table => forallb dayText table
  | None => true
  end.

Definition asText (v : value) : option string :=
  match v with
  | Text s => Some s
  | _ => None
  end.

(** The same input as [HoursParser.isCurrentlyOpen] takes it. *)
Definition typed (weekdayText : option (list value))
  : option (list (option string)) :=
  option_map (map asText) weekdayText.

(** The entry passes the guard [!todayText] and has no [includes]
    method: a boolean, a number or an object. *)
Definition noMethod (v : value) : bool :=
  match v with
  | Boolean _ | Number _ | Object_ _ => truthy v
  | _ => false
  end.

End Untyped.

(* ------------------------------------------------------------------ *)
(** ** The open-now decision *)

(** *** What the time-range pattern finds *)

Lemma strip_prefix_app (p s : string) : Js.strip_prefix p (p ++ s)%string = Some s.
Proof.
  induction p as [|c p IH]; [reflexivity|].
  simpl. now rewrite Ascii.eqb_refl.
Qed.

Lemma lit_first (p s : string) : hd_error (Regex.lit p (p ++ s)%string) = Some (tt, s).
Proof. unfold Regex.lit. now rewrite strip_prefix_app. Qed.

Lemma opt_lit_first (p s : string) :
  hd_error (Regex.opt (Regex.lit p) (p ++ s)%string) = Some (tt, s).
Proof.
  unfold Regex.opt, Regex.alt, Regex.lit. now rewrite strip_prefix_app.
Qed.

(** The first way to match a sequence is the first way to match its tail
    after the first way to match its head, when there is one. *)
Lemma seq_first {A B : Type} (m : Regex.matcher A) (k : A -> Regex.matcher B)
    (s r r' : string) (a : A) (b : B) :
  hd_error (m s) = Some (a, r) ->
  hd_error (k a r) = Some (b, r') ->
  hd_error (Regex.seq m k s) = Some (b, r').
Proof.
  unfold Regex.seq. intros Hm Hk.
  destruct (m s) as [|[a0 r0] rest]; [discriminate|].
  cbn in Hm. inversion Hm; subst. cbn [flat_map fst snd].
  destruct (k a r) as [|br rest']; [discriminate|].
  cbn in Hk. inversion Hk; subst. reflexivity.
Qed.

Lemma exec_first {A : Type} (re : Regex.matcher A) (s r : string) (a : A) :
  hd_error (re s) = Some (a, r) -> Regex.exec re s = Some a.
Proof.
  intros H. destruct s as [|c s']; cbn [Regex.exec];
    (destruct (re _) as [|[x rx] rest]; [discriminate | cbn in H; congruence]).
Qed.

Lemma timeRangePattern_no_digit (c : ascii) (s : string) :
  Js.is_digit c = false -> HoursParser.timeRangePattern (String c s) = [].
Proof.
  intros H. unfold HoursParser.timeRangePattern.
  unfold Regex.seq at 1.
  unfold Regex.digits1_2, Regex.alt, Regex.digits2, Regex.seq, Regex.digit.
  rewrite H. reflexivity.
Qed.

Lemma exec_skips_no_digit (pre s : string) :
  Reference.noDigit pre = true ->
  Regex.exec HoursParser.timeRangePattern (pre ++ s)%string
  = Regex.exec HoursParser.timeRangePattern s.
Proof.
  induction pre as [|c pre IH]; [reflexivity|].
  cbn [Reference.noDigit]. intros H. apply andb_prop in H. destruct H as [Hc Hpre].
  apply negb_true_iff in Hc.
  change (String c pre ++ s)%string with (String c (pre ++ s)%string).
  cbn [Regex.exec]. rewrite timeRangePattern_no_digit by assumption.
  now apply IH.
Qed.

Lemma below_100 (P : Z -> Prop) :
  (forall k : nat, (k < 100)%nat -> P (Z.of_nat k)) ->
  forall z, 0 <= z <= 99 -> P z.
Proof.
  intros H z Hz. rewrite <- (Z2Nat.id z) by lia. apply H. lia.
Qed.

Ltac each_below_100 :=
  let z := fresh "z" in
  let Hz := fresh "Hz" in
  let k := fresh "k" in
  let Hk := fresh "Hk" in
  intros z Hz; pattern z; revert z Hz;
  match goal with
  | |- forall z, _ -> ?P z => refine (below_100 P _)
  end;
  intros k Hk;
  do 100 (destruct k as [|k]; [intros; reflexivity|]); exfalso; lia.

Lemma hourDigits_first :
  forall h, 0 <= h <= 99 -> forall s,
    hd_error (Regex.digits1_2 (Reference.hourDigits h ++ "時" ++ s)%string)
    = Some (Reference.hourDigits h, ("時" ++ s)%string).
Proof. each_below_100. Qed.

Lemma twoDigits_first :
  forall m, 0 <= m <= 99 -> forall s,
    hd_error (Regex.digits2 (Reference.twoDigits m ++ s)%string)
    = Some (Reference.twoDigits m, s).
Proof. each_below_100. Qed.

Lemma parseGroup_hourDigits :
  forall h, 0 <= h <= 99 -> HoursParser.parseGroup (Reference.hourDigits h) = h.
Proof. each_below_100. Qed.

Lemma parseGroup_twoDigits :
  forall m, 0 <= m <= 99 -> HoursParser.parseGroup (Reference.twoDigits m) = m.
Proof. each_below_100. Qed.

Lemma separator_first (sep s : string) :
  In sep Reference.separators ->
  hd_error (HoursParser.separator (sep ++ s)%string) = Some (tt, s).
Proof.
  intros [<- | [<- | [<- | [<- | []]]]]; reflexivity.
Qed.

Lemma timeRangePattern_rangeText (pre : string) (oh om : Z) (sep : string)
    (ch cm : Z) (post : string) :
  Reference.noDigit pre = true ->
  0 <= oh <= 99 -> 0 <= om <= 99 -> 0 <= ch <= 99 -> 0 <= cm <= 99 ->
  In sep Reference.separators ->
  Regex.exec HoursParser.timeRangePattern
    (Reference.rangeText pre oh om sep ch cm post)
  = Some (HoursParser.mkCaptures
            (Reference.hourDigits oh) (Reference.twoDigits om)
            (Reference.hourDigits ch) (Reference.twoDigits cm)).
Proof.
  intros Hpre Hoh Hom Hch Hcm Hsep. unfold Reference.rangeText.
  rewrite exec_skips_no_digit by assumption.
  eapply exec_first. unfold HoursParser.timeRangePattern.
  eapply seq_first; [now apply hourDigits_first|].
  eapply seq_first; [apply lit_first|].
  eapply seq_first; [now apply twoDigits_first|].
  eapply seq_first; [apply opt_lit_first|].
  eapply seq_first; [now apply separator_first|].
  eapply seq_first; [now apply hourDigits_first|].
  eapply seq_first; [apply lit_first|].
  eapply seq_first; [now apply twoDigits_first|].
  eapply seq_first; [apply opt_lit_first|].
  reflexivity.
Qed.

Lemma isCurrentlyOpen_nonempty (weekdayText : list (option string)) (w : World) :
  weekdayText <> [] ->
  HoursParser.isCurrentlyOpen (Some weekdayText) w =
  (HoursParser.judgeToday
     (match Js.index weekdayText
              (HoursParser.googleDayIndex (getDay (Reference.now w))) with
      | Some entry => entry
      | None => None
      end)
     (Reference.minuteOfDay (Reference.now w)),
   mkWorld (clock w) (S (ticks w))).
Proof.
  intros Hne. destruct weekdayText as [|e rest]; [congruence|].
  reflexivity.
Qed.

Lemma rangeVerdict_decision (m : HoursParser.captures) (t : Z) :
  HoursParser.rangeVerdict m t =
  Reference.rangeDecision (Reference.openMinute m) (Reference.closeMinute m) t.
Proof.
  unfold HoursParser.rangeVerdict, Reference.rangeDecision,
    Reference.openMinute, Reference.closeMinute.
  set (o := _ * 60 + HoursParser.parseGroup (HoursParser.group2 m)).
  set (c := _ * 60 + HoursParser.parseGroup (HoursParser.group4 m)).
  rewrite !Z.geb_leb.
  destruct (Z.ltb_spec c o), (Z.leb_spec o c); try lia.
  all: destruct (t <? o); f_equal; try reflexivity; f_equal; lia.
Qed.

(** C1. A day text without closed-day or 24-hour marker in which the
    time-range pattern finds the range open_m-close_m is judged, at minute
    of day t, open iff open_m <= t <= close_m when close_m >= open_m; for an
    overnight range (close_m < open_m) it is open iff t <= close_m when
    t < open_m, and iff open_m <= t <= close_m + 1440 otherwise.  The pattern
    finds the range of every text that writes it as H時MM分, a separator,
    H時MM分 after a digit-free prefix.  With "18時00分〜2時00分" the venue is
    open at 23:00 and 01:30 and closed at 10:00 and 03:00; with
    "7時00分〜20時00分" it is open at 07:00 and 20:00 and closed at 06:59 and
    20:01. *)
Theorem isCurrentlyOpen_time_range :
  (forall (weekdayText : list (option string)) (w : World)
          (todayText : string) (m : HoursParser.captures),
      Js.index weekdayText
        (HoursParser.googleDayIndex (getDay (Reference.now w))) = Some (Some todayText) ->
      Reference.hasClosedMarker todayText = false ->
      Reference.has24hMarker todayText = false ->
      Regex.exec HoursParser.timeRangePattern todayText = Some m ->
      fst (HoursParser.isCurrentlyOpen (Some weekdayText) w) =
      Some (Reference.rangeDecision (Reference.openMinute m) (Reference.closeMinute m)
              (Reference.minuteOfDay (Reference.now w))))
  /\ (forall (weekdayText : list (option string)) (w : World)
          (pre : string) (oh om : Z) (sep : string) (ch cm : Z) (post : string),
      let todayText := Reference.rangeText pre oh om sep ch cm post in
      Js.index weekdayText
        (HoursParser.googleDayIndex (getDay (Reference.now w))) = Some (Some todayText) ->
      Reference.hasClosedMarker todayText = false ->
      Reference.has24hMarker todayText = false ->
      Reference.noDigit pre = true ->
      In sep Reference.separators ->
      0 <= oh <= 99 -> 0 <= om <= 99 -> 0 <= ch <= 99 -> 0 <= cm <= 99 ->
      fst (HoursParser.isCurrentlyOpen (Some weekdayText) w) =
      Some (Reference.rangeDecision (oh * 60 + om) (ch * 60 + cm)
              (Reference.minuteOfDay (Reference.now w))))
  /\ (let overnight := Reference.everyDay "18時00分〜2時00分" in
      fst (HoursParser.isCurrentlyOpen overnight (Reference.at_ 23 0)) = Some true
      /\ fst (HoursParser.isCurrentlyOpen overnight (Reference.at_ 1 30)) = Some true
      /\ fst (HoursParser.isCurrentlyOpen overnight (Reference.at_ 10 0)) = Some false
      /\ fst (HoursParser.isCurrentlyOpen overnight (Reference.at_ 3 0)) = Some false)
  /\ (let standard := Reference.everyDay "7時00分〜20時00分" in
      fst (HoursParser.isCurrentlyOpen standard (Reference.at_ 7 0)) = Some true
      /\ fst (HoursParser.isCurrentlyOpen standard (Reference.at_ 20 0)) = Some true
      /\ fst (HoursParser.isCurrentlyOpen standard (Reference.at_ 6 59)) = Some false
      /\ fst (HoursParser.isCurrentlyOpen standard (Reference.at_ 20 1)) = Some false).
Proof.
  assert (Hmatch : forall (weekdayText : list (option string)) (w : World)
            (todayText : string) (m : HoursParser.captures),
      Js.index weekdayText
        (HoursParser.googleDayIndex (getDay (Reference.now w))) = Some (Some todayText) ->
      Reference.hasClosedMarker todayText = false ->
      Reference.has24hMarker todayText = false ->
      Regex.exec HoursParser.timeRangePattern todayText = Some m ->
      fst (HoursParser.isCurrentlyOpen (Some weekdayText) w) =
      Some (Reference.rangeDecision (Reference.openMinute m) (Reference.closeMinute m)
              (Reference.minuteOfDay (Reference.now w)))).
  { intros weekdayText w todayText m Hidx Hclosed H24 Hexec.
    rewrite isCurrentlyOpen_nonempty.
    2:{ intros ->. unfold Js.index in Hidx.
        destruct (_ <? 0); [discriminate|].
        destruct (Z.to_nat _); discriminate. }
    cbn [fst]. rewrite Hidx.
    unfold HoursParser.judgeToday.
    assert (Htruthy : Js.truthy_string (Some todayText) = true).
    { destruct todayText; [|reflexivity]. vm_compute in Hexec. discriminate. }
    rewrite Htruthy. cbn [negb].
    unfold Reference.hasClosedMarker in Hclosed.
    unfold Reference.has24hMarker in H24.
    rewrite Hclosed, H24, Hexec.
    now rewrite rangeVerdict_decision. }
  split; [exact Hmatch|].
  split; [|split; cbv zeta; repeat split; vm_compute; reflexivity].
  intros weekdayText w pre oh om sep ch cm post todayText
    Hidx Hclosed H24 Hpre Hsep Hoh Hom Hch Hcm.
  rewrite (Hmatch weekdayText w todayText _ Hidx Hclosed H24
             (timeRangePattern_rangeText pre oh om sep ch cm post
                Hpre Hoh Hom Hch Hcm Hsep)).
  unfold Reference.openMinute, Reference.closeMinute.
  cbn [HoursParser.group1 HoursParser.group2 HoursParser.group3 HoursParser.group4].
  now rewrite !parseGroup_hourDigits, !parseGroup_twoDigits by assumption.
Qed.

Lemma isCurrentlyOpen_time_range_witness :
  fst (HoursParser.isCurrentlyOpen (Reference.everyDay "18時00分〜2時00分")
         (Reference.at_ 1 30)) =
  Some (Reference.rangeDecision (18 * 60 + 0) (2 * 60 + 0) (1 * 60 + 30))
  /\ fst (HoursParser.isCurrentlyOpen
            (Reference.everyDay
               (Reference.rangeText "水曜日: " 7 0 "～" 20 0 EmptyString))
            (Reference.at_ 20 0)) =
     Some (Reference.rangeDecision (7 * 60 + 0) (20 * 60 + 0) (20 * 60 + 0)).
Proof.
  split.
  - exact (proj1 isCurrentlyOpen_time_range
             (repeat (Some "18時00分〜2時00分"%string) 7)
             (Reference.at_ 1 30)
             "18時00分〜2時00分"%string
             (HoursParser.mkCaptures "18" "00" "2" "00")
             eq_refl eq_refl eq_refl eq_refl).
  - refine (proj1 (proj2 isCurrentlyOpen_time_range)
              (repeat (Some (Reference.rangeText "水曜日: " 7 0 "～" 20 0 EmptyString)) 7)
              (Reference.at_ 20 0)
              "水曜日: "%string 7 0 "～"%string 20 0 EmptyString
              eq_refl eq_refl eq_refl eq_refl _ _ _ _ _).
    + simpl. tauto.
    + lia.
    + lia.
    + lia.
    + lia.
Defined.

Lemma index_nat {A : Type} (arr : list A) (i : Z) :
  0 <= i -> Js.index arr i = nth_error arr (Z.to_nat i).
Proof.
  intros Hi. unfold Js.index.
  destruct (Z.ltb_spec i 0); [lia | reflexivity].
Qed.

(** C5. The entry isCurrentlyOpen consults is the one at index
    platformDay - 1 of the Monday-first table when the platform day
    (Sunday = 0) is not 0, and the one at index 6 on a Sunday: Sunday maps to
    6 and Monday to 0.  The detail view looks today's text up the same way. *)
Theorem isCurrentlyOpen_weekday_index :
  forall (weekdayText : list (option string)) (w : World),
    weekdayText <> [] ->
    0 <= getDay (Reference.now w) <= 6 ->
    let day := getDay (Reference.now w) in
    let t := Reference.minuteOfDay (Reference.now w) in
    (day = 0 ->
       fst (HoursParser.isCurrentlyOpen (Some weekdayText) w)
       = HoursParser.judgeToday (Reference.entryAt weekdayText 6) t)
    /\ (day <> 0 ->
       fst (HoursParser.isCurrentlyOpen (Some weekdayText) w)
       = HoursParser.judgeToday (Reference.entryAt weekdayText (Z.to_nat (day - 1))) t)
    /\ HoursParser.googleDayIndex 0 = 6
    /\ HoursParser.googleDayIndex 1 = 0
    /\ (day = 0 ->
        fst (UI.modalHoursText (Some weekdayText) w)
        = (if Js.truthy_string (Reference.entryAt weekdayText 6)
           then Reference.entryAt weekdayText 6 else None))
    /\ (day <> 0 ->
        fst (UI.modalHoursText (Some weekdayText) w)
        = (if Js.truthy_string (Reference.entryAt weekdayText (Z.to_nat (day - 1)))
           then Reference.entryAt weekdayText (Z.to_nat (day - 1)) else None)).
Proof.
  intros weekdayText w Hne Hday day t.
  rewrite isCurrentlyOpen_nonempty by assumption.
  unfold UI.modalHoursText, bind, new_Date, ret, HoursParser.googleDayIndex, Reference.entryAt.
  fold (Reference.now w). fold day. cbn [fst].
  repeat split; intros Hd.
  - rewrite Hd. reflexivity.
  - destruct (Z.eqb_spec day 0); [contradiction|].
    rewrite index_nat by (subst day; lia). reflexivity.
  - rewrite Hd. reflexivity.
  - destruct (Z.eqb_spec day 0); [contradiction|].
    rewrite index_nat by (subst day; lia). reflexivity.
Qed.

Lemma isCurrentlyOpen_weekday_index_witness :
  fst (HoursParser.isCurrentlyOpen
         (Some [Some "定休日"; None; None; None; None; None; Some "24時間営業"]%string)
         (frozen (mkDate 0 12 0) 0))
  = HoursParser.judgeToday (Some "24時間営業"%string) (12 * 60 + 0).
Proof.
  refine (proj1 (isCurrentlyOpen_weekday_index
            [Some "定休日"; None; None; None; None; None; Some "24時間営業"]%string
            (frozen (mkDate 0 12 0) 0) _ _) eq_refl).
  - discriminate.
  - simpl. lia.
Defined.

Lemma index_map {A B : Type} (f : A -> B) (arr : list A) (i : Z) :
  Js.index (map f arr) i = option_map f (Js.index arr i).
Proof.
  unfold Js.index. destruct (i <? 0); [reflexivity|]. apply nth_error_map.
Qed.

Lemma orElse_Normal (a b : bool) :
  Untyped.orElse (Untyped.Normal a) (Untyped.Normal b) = Untyped.Normal (a || b).
Proof. destruct a; reflexivity. Qed.

(** On a day text the body takes the path of the typed function, and no
    operation on that path throws. *)
Lemma judgeToday_dayText (todayText : Untyped.value) (t : Z) :
  Untyped.dayText todayText = true ->
  Untyped.judgeToday todayText t
  = Untyped.Normal (HoursParser.judgeToday (Untyped.asText todayText) t).
Proof.
  destruct todayText as [| |b|n|s|items|fields]; try discriminate; intros _;
    try reflexivity.
  unfold Untyped.judgeToday, HoursParser.judgeToday.
  cbn [Untyped.truthy Untyped.asText Untyped.includes Untyped.match_].
  destruct (negb (Js.truthy_string (Some s))); [reflexivity|].
  rewrite !orElse_Normal.
  destruct (Js.includes s "定休日" || Js.includes s "休業日"); [reflexivity|].
  destruct (Js.includes s "24 時間営業" || Js.includes s "24時間営業");
    [reflexivity|].
  destruct (Regex.exec HoursParser.timeRangePattern s); reflexivity.
Qed.

Lemma todayText_dayText (table : list Untyped.value) (i : Z) :
  forallb Untyped.dayText table = true ->
  Untyped.dayText
    (match Js.index table i with Some entry => entry | None => Untyped.Undefined end)
  = true.
Proof.
  intros Hall. destruct (Js.index table i) as [entry|] eqn:E; [|reflexivity].
  rewrite forallb_forall in Hall. apply Hall.
  unfold Js.index in E. destruct (i <? 0); [discriminate|].
  eapply nth_error_In. exact E.
Qed.

Lemma isCurrentlyOpen_typed (weekdayText : option (list Untyped.value)) (w : World) :
  Untyped.weeklyHours weekdayText = true ->
  Untyped.isCurrentlyOpen weekdayText w
  = (Untyped.Normal (fst (HoursParser.isCurrentlyOpen (Untyped.typed weekdayText) w)),
     snd (HoursParser.isCurrentlyOpen (Untyped.typed weekdayText) w)).
Proof.
  destruct weekdayText as [table|]; [|reflexivity].
  cbn [Untyped.weeklyHours Untyped.typed option_map]. intros Hall.
  unfold Untyped.isCurrentlyOpen, HoursParser.isCurrentlyOpen.
  rewrite length_map.
  destruct (List.length table =? 0)%nat; [reflexivity|].
  unfold bind, new_Date, ret. cbn [fst snd].
  rewrite judgeToday_dayText by (apply todayText_dayText; exact Hall).
  rewrite index_map.
  destruct (Js.index table _) as [entry|]; reflexivity.
Qed.

(** C8. On every weekly-hours input (absent, empty, of any length, with
    arbitrary day texts and missing entries) and at every instant,
    isCurrentlyOpen does not throw: it completes normally, with open, closed
    or unknown, the value the typed function computes.  It returns unknown
    when the table is absent or empty, when today's entry is absent, and
    when today's text has no marker and does not match the time-range
    pattern. *)
Theorem isCurrentlyOpen_never_throws :
  forall (weekdayText : option (list Untyped.value)) (w : World),
    Untyped.weeklyHours weekdayText = true ->
    fst (Untyped.isCurrentlyOpen weekdayText w) <> Untyped.Throw
    /\ (exists v, fst (Untyped.isCurrentlyOpen weekdayText w) = Untyped.Normal v
                  /\ (v = Some true \/ v = Some false \/ v = None)
                  /\ v = fst (HoursParser.isCurrentlyOpen (Untyped.typed weekdayText) w))
    /\ (weekdayText = None \/ weekdayText = Some [] ->
        fst (Untyped.isCurrentlyOpen weekdayText w) = Untyped.Normal None)
    /\ (forall table,
          weekdayText = Some table ->
          match Js.index table
                  (HoursParser.googleDayIndex (getDay (Reference.now w))) with
          | None | Some Untyped.Undefined | Some Untyped.Null
          | Some (Untyped.Text EmptyString) => True
          | Some _ => False
          end ->
          fst (Untyped.isCurrentlyOpen weekdayText w) = Untyped.Normal None)
    /\ (forall table todayText,
          weekdayText = Some table ->
          Js.index table
            (HoursParser.googleDayIndex (getDay (Reference.now w)))
          = Some (Untyped.Text todayText) ->
          Reference.hasClosedMarker todayText = false ->
          Reference.has24hMarker todayText = false ->
          Regex.exec HoursParser.timeRangePattern todayText = None ->
          fst (Untyped.isCurrentlyOpen weekdayText w) = Untyped.Normal None).
Proof.
  intros weekdayText w Htexts.
  split; [|split; [|split; [|split]]].
  - rewrite isCurrentlyOpen_typed by exact Htexts. discriminate.
  - rewrite isCurrentlyOpen_typed by exact Htexts. cbn [fst].
    exists (fst (HoursParser.isCurrentlyOpen (Untyped.typed weekdayText) w)).
    split; [reflexivity|]. split; [|reflexivity].
    destruct (fst _) as [[|]|]; auto.
  - intros [-> | ->]; reflexivity.
  - intros table -> Hentry.
    destruct table as [|e rest]; [reflexivity|].
    unfold Untyped.isCurrentlyOpen, bind, new_Date, ret.
    cbn [List.length Nat.eqb fst]. fold (Reference.now w).
    destruct (Js.index _ _) as [[| |b|n|[|c s]|items|fields]|];
      try reflexivity; contradiction.
  - intros table todayText -> Hidx Hclosed H24 Hexec.
    destruct table as [|e rest]; [reflexivity|].
    unfold Untyped.isCurrentlyOpen, bind, new_Date, ret.
    cbn [List.length Nat.eqb fst]. fold (Reference.now w).
    rewrite Hidx. unfold Untyped.judgeToday.
    cbn [Untyped.truthy Untyped.includes Untyped.match_].
    rewrite !orElse_Normal.
    unfold Reference.hasClosedMarker in Hclosed.
    unfold Reference.has24hMarker in H24.
    rewrite Hclosed, H24, Hexec.
    destruct (negb _); reflexivity.
Qed.

Lemma isCurrentlyOpen_never_throws_witness :
  fst (Untyped.isCurrentlyOpen
         (Some [Untyped.Text "月曜日: 不明"; Untyped.Null; Untyped.Text "水曜日: 定休日"]%string)
         (frozen (mkDate 1 9 15) 0)) = Untyped.Normal None
  /\ fst (Untyped.isCurrentlyOpen
         (Some [Untyped.Text "月曜日: 不明"; Untyped.Null; Untyped.Text "水曜日: 定休日"]%string)
         (frozen (mkDate 2 9 15) 0)) = Untyped.Normal None
  /\ fst (Untyped.isCurrentlyOpen
         (Some [Untyped.Text "月曜日: 不明"; Untyped.Null; Untyped.Text "水曜日: 定休日"]%string)
         (frozen (mkDate 3 9 15) 0)) <> Untyped.Throw
  /\ fst (Untyped.isCurrentlyOpen (Some []) (frozen (mkDate 0 9 15) 0))
     = Untyped.Normal None.
Proof.
  split; [|split; [|split]].
  - exact (proj2 (proj2 (proj2 (proj2 (isCurrentlyOpen_never_throws
             (Some [Untyped.Text "月曜日: 不明"; Untyped.Null; Untyped.Text "水曜日: 定休日"]%string)
             (frozen (mkDate 1 9 15) 0) eq_refl))))
             [Untyped.Text "月曜日: 不明"; Untyped.Null; Untyped.Text "水曜日: 定休日"]%string
             "月曜日: 不明"%string eq_refl eq_refl eq_refl eq_refl eq_refl).
  - exact (proj1 (proj2 (proj2 (proj2 (isCurrentlyOpen_never_throws
             (Some [Untyped.Text "月曜日: 不明"; Untyped.Null; Untyped.Text "水曜日: 定休日"]%string)
             (frozen (mkDate 2 9 15) 0) eq_refl))))
             [Untyped.Text "月曜日: 不明"; Untyped.Null; Untyped.Text "水曜日: 定休日"]%string
             eq_refl I).
  - exact (proj1 (isCurrentlyOpen_never_throws
             (Some [Untyped.Text "月曜日: 不明"; Untyped.Null; Untyped.Text "水曜日: 定休日"]%string)
             (frozen (mkDate 3 9 15) 0) eq_refl)).
  - exact (proj1 (proj2 (proj2 (isCurrentlyOpen_never_throws (Some [])
             (frozen (mkDate 0 9 15) 0) eq_refl)))
             (or_intror eq_refl)).
Defined.

(** The texts are what keeps the call from throwing: when today's entry is
    a boolean, a number or an object that passes the guard, the first
    [includes] is not a function. *)
Lemma isCurrentlyOpen_throws_without_method :
  forall (table : list Untyped.value) (entry : Untyped.value) (w : World),
    Js.index table (HoursParser.googleDayIndex (getDay (Reference.now w)))
    = Some entry ->
    Untyped.noMethod entry = true ->
    fst (Untyped.isCurrentlyOpen (Some table) w) = Untyped.Throw.
Proof.
  intros table entry w Hidx Hentry.
  destruct table as [|e rest].
  { unfold Js.index in Hidx. destruct (_ <? 0); [discriminate|].
    destruct (Z.to_nat _); discriminate. }
  unfold Untyped.isCurrentlyOpen, bind, new_Date, ret.
  cbn [List.length Nat.eqb fst]. fold (Reference.now w).
  rewrite Hidx. unfold Untyped.judgeToday.
  destruct entry as [| |b|n|s|items|fields]; try discriminate;
    cbn [Untyped.noMethod] in Hentry; rewrite Hentry; reflexivity.
Qed.

(* ------------------------------------------------------------------ *)
(** ** The review-based crowd estimate *)

Lemma or_string_reviewText (r : Api.review) :
  Js.or_string (Api.text r) EmptyString = Reference.reviewText r.
Proof.
  unfold Js.or_string, Reference.reviewText.
  destruct (Api.text r) as [[|c s]|]; reflexivity.
Qed.

Lemma countOnce_existsb (text : string) (keywords : list string) (count : Z) :
  HoursParser.countOnce text keywords count
  = count + (if existsb (Js.includes text) keywords then 1 else 0).
Proof.
  induction keywords as [|k rest IH]; simpl.
  - lia.
  - destruct (Js.includes text k); simpl; [reflexivity | exact IH].
Qed.

Lemma reviewStep_fold (reviews : list Api.review) (c e : Z) :
  fold_left HoursParser.reviewStep reviews (c, e)
  = (c + Z.of_nat (List.length
                     (filter (Reference.mentions HoursParser.crowded_keywords) reviews)),
     e + Z.of_nat (List.length
                     (filter (Reference.mentions HoursParser.empty_keywords) reviews))).
Proof.
  revert c e. induction reviews as [|r rest IH]; intros c e.
  - simpl. f_equal; lia.
  - cbn [fold_left filter]. unfold HoursParser.reviewStep at 2. cbn [fst snd].
    rewrite IH, or_string_reviewText, !countOnce_existsb.
    change (existsb (Js.includes (Reference.reviewText r)) HoursParser.crowded_keywords)
      with (Reference.mentions HoursParser.crowded_keywords r).
    change (existsb (Js.includes (Reference.reviewText r)) HoursParser.empty_keywords)
      with (Reference.mentions HoursParser.empty_keywords r).
    destruct (Reference.mentions HoursParser.crowded_keywords r),
             (Reference.mentions HoursParser.empty_keywords r);
      cbn [List.length]; f_equal; lia.
Qed.

Lemma reviewCounts_mentionCount (reviews : list Api.review) :
  HoursParser.reviewCounts reviews
  = (Reference.mentionCount HoursParser.crowded_keywords reviews,
     Reference.mentionCount HoursParser.empty_keywords reviews).
Proof.
  unfold HoursParser.reviewCounts, Js.slice0. now rewrite reviewStep_fold.
Qed.

Lemma mentionCount_bounds (keywords : list string) (reviews : list Api.review) :
  0 <= Reference.mentionCount keywords reviews <= 5.
Proof.
  unfold Reference.mentionCount. split; [lia|].
  pose proof (filter_length_le (Reference.mentions keywords) (firstn 5 reviews)).
  pose proof (firstn_le_length 5 reviews). lia.
Qed.

(** C6. estimateCongestionFromReviews looks at the first five reviews only;
    each review raises the crowded counter by one when it holds some crowded
    keyword, and the empty counter likewise, never by more; the result is
    crowded iff crowded > empty and crowded >= 2, empty iff empty > crowded
    and empty >= 2, and unknown otherwise. *)
Theorem estimateCongestionFromReviews_spec :
  forall reviews : list Api.review,
    let crowded := Reference.mentionCount HoursParser.crowded_keywords reviews in
    let empty := Reference.mentionCount HoursParser.empty_keywords reviews in
    let result := HoursParser.estimateCongestionFromReviews (Some reviews) in
    HoursParser.reviewCounts reviews = (crowded, empty)
    /\ 0 <= crowded <= 5 /\ 0 <= empty <= 5
    /\ result = HoursParser.estimateCongestionFromReviews (Some (firstn 5 reviews))
    /\ (result = Some "crowded"%string <-> crowded > empty /\ crowded >= 2)
    /\ (result = Some "empty"%string <-> empty > crowded /\ empty >= 2)
    /\ (result = None <->
        ~ (crowded > empty /\ crowded >= 2) /\ ~ (empty > crowded /\ empty >= 2))
    /\ HoursParser.estimateCongestionFromReviews None = None.
Proof.
  intros reviews crowded empty result.
  pose proof (mentionCount_bounds HoursParser.crowded_keywords reviews) as Hc.
  pose proof (mentionCount_bounds HoursParser.empty_keywords reviews) as He.
  fold crowded in Hc. fold empty in He.
  assert (Hresult : result =
            if (crowded >? empty) && (crowded >=? 2) then Some "crowded"%string
            else if (empty >? crowded) && (empty >=? 2) then Some "empty"%string
            else None).
  { unfold result, HoursParser.estimateCongestionFromReviews.
    rewrite reviewCounts_mentionCount. fold crowded empty.
    destruct reviews as [|r rest]; [|reflexivity].
    reflexivity. }
  split; [apply reviewCounts_mentionCount|].
  split; [exact Hc|]. split; [exact He|].
  split.
  { unfold result, HoursParser.estimateCongestionFromReviews.
    unfold HoursParser.reviewCounts, Js.slice0.
    rewrite firstn_firstn. change (Init.Nat.min 5 5) with 5%nat.
    destruct reviews as [|r rest]; reflexivity. }
  rewrite Hresult.
  rewrite Z.gtb_ltb, (Z.gtb_ltb empty), !Z.geb_leb.
  destruct (Z.ltb_spec empty crowded), (Z.leb_spec 2 crowded),
           (Z.ltb_spec crowded empty), (Z.leb_spec 2 empty);
    cbn [andb]; repeat split; intros; try discriminate; try lia;
    try reflexivity; try (exfalso; intuition lia).
Qed.

(* ------------------------------------------------------------------ *)
(** ** The congestion heuristic *)

Lemma or_int_zero (c : Z) : Js.or_int (Some c) 0 = c.
Proof.
  unfold Js.or_int. destruct (Z.eqb_spec c 0); congruence.
Qed.

Lemma bonus_or_num (r : Q) :
  Qle_bool (43 # 10) (Js.or_num (Some r) (3 # 1)) = Qle_bool (43 # 10) r.
Proof.
  unfold Js.or_num. destruct (Qeq_bool r 0) eqn:E; [|reflexivity].
  apply Qeq_bool_iff in E.
  transitivity false; [reflexivity|].
  symmetry. apply not_true_is_false. intros H.
  apply Qle_bool_iff in H. rewrite E in H. revert H. apply Qlt_not_le. reflexivity.
Qed.

(** [estimateCongestion] reads the clock once and scores the place at that
    instant. *)
Lemma estimateCongestion_eq (place : Api.place) (w : World) :
  PlacesService.estimateCongestion place w =
  (Reference.verdictOf
     (Reference.timeScore (getHours (Reference.now w)) (getDay (Reference.now w))
      + (Reference.countScore (Js.or_int (Api.user_ratings_total place) 0)
         + (if Qle_bool (43 # 10) (Js.or_num (Api.rating place) (3 # 1))
            then 1 else 0))),
   mkWorld (clock w) (S (ticks w))).
Proof.
  unfold PlacesService.estimateCongestion, bind, new_Date, ret.
  fold (Reference.now w).
  set (h := getHours (Reference.now w)). set (d := getDay (Reference.now w)).
  set (c := Js.or_int _ 0). set (b := Qle_bool _ _).
  f_equal.
  unfold Reference.verdictOf, Reference.timeScore, Reference.countScore.
  rewrite !Z.geb_leb, !Z.gtb_ltb, (orb_comm (d =? 6) (d =? 0)).
  destruct ((11 <=? h) && (h <=? 13) || (18 <=? h) && (h <=? 20)),
           ((14 <=? h) && (h <=? 17)), ((d =? 0) || (d =? 6)),
           (500 <? c), (100 <? c), (30 <? c), b; reflexivity.
Qed.

(** C2. For a place whose rating count c and rating r are present, the
    verdict computed at hour h of weekday d is the reference one: time score
    3 for h in [11,13] or [18,20], 1 for h in [14,17], 2 otherwise, plus 1 on
    Saturday and Sunday; popularity score 3 if c > 500, else 2 if c > 100,
    else 1 if c > 30, else 0, plus 1 if r >= 4.3; a total of 6 or more is
    high, of 4 or more medium, of 2 or more low, and below that empty, each
    level with its label and colour. *)
Theorem estimateCongestion_reference :
  forall (place : Api.place) (w : World) (c : Z) (r : Q),
    Api.user_ratings_total place = Some c ->
    Api.rating place = Some r ->
    fst (PlacesService.estimateCongestion place w)
    = Reference.congestionVerdict
        (getHours (Reference.now w)) (getDay (Reference.now w)) c r
    /\ (forall total,
          (6 <= total ->
           Reference.verdictOf total = PlacesService.mkCongestion "high" "混雑" "#e57373")
          /\ (4 <= total < 6 ->
           Reference.verdictOf total
           = PlacesService.mkCongestion "medium" "やや混雑" "#ffb74d")
          /\ (2 <= total < 4 ->
           Reference.verdictOf total = PlacesService.mkCongestion "low" "普通" "#81c784")
          /\ (total < 2 ->
           Reference.verdictOf total
           = PlacesService.mkCongestion "empty" "空いている" "#4fc3f7")).
Proof.
  intros place w c r Hc Hr. split.
  - rewrite estimateCongestion_eq, Hc, Hr, or_int_zero, bonus_or_num.
    reflexivity.
  - intros total. unfold Reference.verdictOf.
    destruct (Z.leb_spec 6 total), (Z.leb_spec 4 total), (Z.leb_spec 2 total);
      repeat split; intros; try lia; reflexivity.
Qed.

Lemma estimateCongestion_reference_witness :
  fst (PlacesService.estimateCongestion
         (Reference.venue (Some (45 # 10)) (Some 600)) (frozen (mkDate 6 12 0) 0))
  = Reference.congestionVerdict 12 6 600 (45 # 10)
  /\ Reference.congestionVerdict 12 6 600 (45 # 10) = Reference.high
  /\ fst (PlacesService.estimateCongestion
         (Reference.venue (Some (3 # 1)) (Some 10)) (frozen (mkDate 2 15 0) 0))
  = Reference.empty.
Proof.
  split; [|split].
  - exact (proj1 (estimateCongestion_reference
                    (Reference.venue (Some (45 # 10)) (Some 600))
                    (frozen (mkDate 6 12 0) 0) 600 (45 # 10) eq_refl eq_refl)).
  - reflexivity.
  - exact (proj1 (estimateCongestion_reference
                    (Reference.venue (Some (3 # 1)) (Some 10))
                    (frozen (mkDate 2 15 0) 0) 10 (3 # 1) eq_refl eq_refl)).
Defined.

(* ------------------------------------------------------------------ *)
(** ** Array.prototype.sort with a consistent comparator *)

Section SortFacts.

Context {A : Type} (comparefn : A -> A -> Q).

Local Abbreviation before := (Reference.notAfter comparefn).
Local Abbreviation tied := (Reference.tied comparefn).

Lemma insert_perm (x : A) (l : list A) :
  Permutation (Js.insert comparefn x l) (x :: l).
Proof.
  induction l as [|y rest IH]; simpl.
  - apply Permutation_refl.
  - destruct (Qle_bool (comparefn x y) 0).
    + apply Permutation_refl.
    + eapply perm_trans; [apply perm_skip, IH | apply perm_swap].
Qed.

Lemma sort_perm (l : list A) : Permutation (Js.sort comparefn l) l.
Proof.
  induction l as [|x rest IH]; simpl.
  - constructor.
  - eapply perm_trans; [apply insert_perm | apply perm_skip, IH].
Qed.

(** The comparator is consistent: it orders the elements totally. *)
Hypothesis before_total : forall x y, before x y = true \/ before y x = true.
Hypothesis before_trans :
  forall x y z, before x y = true -> before y z = true -> before x z = true.

Lemma insert_sorted (x : A) (l : list A) :
  StronglySorted (fun a b => before a b = true) l ->
  StronglySorted (fun a b => before a b = true) (Js.insert comparefn x l).
Proof.
  induction 1 as [|y rest Hsorted IH Hall]; simpl.
  - repeat constructor.
  - fold (before x y). destruct (before x y) eqn:Hxy.
    + constructor; [constructor; assumption|].
      constructor; [assumption|].
      eapply Forall_impl; [|exact Hall].
      intros z Hyz. now apply before_trans with y.
    + constructor; [exact IH|].
      eapply Permutation_Forall; [apply Permutation_sym, insert_perm|].
      constructor; [|exact Hall].
      destruct (before_total x y) as [H|H]; [congruence | exact H].
Qed.

Lemma sort_sorted (l : list A) :
  StronglySorted (fun a b => before a b = true) (Js.sort comparefn l).
Proof.
  induction l as [|x rest IH]; simpl.
  - constructor.
  - now apply insert_sorted.
Qed.

Lemma insert_stable (z x : A) (l : list A) :
  filter (tied z) (Js.insert comparefn x l) = filter (tied z) (x :: l).
Proof.
  induction l as [|y rest IH]; [reflexivity|].
  cbn [Js.insert]. fold (before x y). destruct (before x y) eqn:Hxy; [reflexivity|].
  cbn [filter] in *. rewrite IH.
  destruct (tied z x) eqn:Hzx, (tied z y) eqn:Hzy; try reflexivity.
  exfalso. unfold Reference.tied in Hzx, Hzy.
  apply andb_prop in Hzx, Hzy. destruct Hzx as [_ Hxz], Hzy as [Hzy _].
  rewrite (before_trans x z y Hxz Hzy) in Hxy. discriminate.
Qed.

Lemma sort_stable (z : A) (l : list A) :
  filter (tied z) (Js.sort comparefn l) = filter (tied z) l.
Proof.
  induction l as [|x rest IH]; [reflexivity|].
  cbn [Js.sort]. rewrite insert_stable. cbn [filter]. now rewrite IH.
Qed.

End SortFacts.

(* ------------------------------------------------------------------ *)
(** ** The sort stage of searchNearby *)

Lemma or_num_ratingKey (p : PlacesService.Place) :
  (Js.or_num (PlacesService.rating p) 0 == Reference.ratingKey p)%Q.
Proof.
  unfold Js.or_num, Reference.ratingKey.
  destruct (PlacesService.rating p) as [r|]; [|reflexivity].
  destruct (Qeq_bool r 0) eqn:E; [|reflexivity].
  apply Qeq_bool_iff in E. now rewrite E.
Qed.

Lemma or_int_countKey (p : PlacesService.Place) :
  Js.or_int (PlacesService.ratingsTotal p) 0 = Reference.countKey p.
Proof.
  unfold Reference.countKey.
  destruct (PlacesService.ratingsTotal p) as [c|]; [apply or_int_zero | reflexivity].
Qed.

Lemma inject_Z_nonpos (z : Z) : Qle_bool (inject_Z z) 0 = true <-> z <= 0.
Proof.
  rewrite Qle_bool_iff. change 0%Q with (inject_Z 0). now rewrite <- Zle_Qle.
Qed.

Lemma byRating_notAfter (a b : PlacesService.Place) :
  Reference.notAfter PlacesService.byRating a b = true <-> Reference.ranksBefore a b.
Proof.
  unfold Reference.notAfter, PlacesService.byRating, Reference.ranksBefore.
  rewrite !or_int_countKey.
  pose proof (or_num_ratingKey a) as Ha. pose proof (or_num_ratingKey b) as Hb.
  set (ra := Js.or_num (PlacesService.rating a) 0) in *.
  set (rb := Js.or_num (PlacesService.rating b) 0) in *.
  rewrite <- Ha, <- Hb.
  destruct (Qeq_bool (rb - ra) 0) eqn:E; cbn [negb].
  - apply Qeq_bool_iff in E. rewrite inject_Z_nonpos.
    split.
    + intros H. right. split; [lra | lia].
    + intros [H | [_ H]]; [lra | lia].
  - apply Qeq_bool_neq in E. rewrite Qle_bool_iff.
    split.
    + intros H. left. apply Qle_lt_or_eq in H. destruct H as [H | H]; [lra|].
      contradiction.
    + intros [H | [H _]]; [lra|]. exfalso. apply E. lra.
Qed.

Lemma ranksBefore_total (a b : PlacesService.Place) :
  Reference.ranksBefore a b \/ Reference.ranksBefore b a.
Proof.
  unfold Reference.ranksBefore.
  destruct (Q_dec (Reference.ratingKey a) (Reference.ratingKey b)) as [[H | H] | H].
  - right. now left.
  - left. now left.
  - destruct (Z.le_ge_cases (Reference.countKey a) (Reference.countKey b)).
    + right. right. split; [now symmetry | assumption].
    + left. right. split; assumption.
Qed.

Lemma ranksBefore_trans (a b c : PlacesService.Place) :
  Reference.ranksBefore a b -> Reference.ranksBefore b c -> Reference.ranksBefore a c.
Proof.
  unfold Reference.ranksBefore.
  intros [H1 | [H1 H1']] [H2 | [H2 H2']].
  - left. lra.
  - left. lra.
  - left. lra.
  - right. split; [lra | lia].
Qed.

Lemma byRating_tied (a b : PlacesService.Place) :
  Reference.tied PlacesService.byRating a b = Reference.sameKeys a b.
Proof.
  apply eq_true_iff_eq. unfold Reference.tied, Reference.sameKeys.
  rewrite !andb_true_iff, !byRating_notAfter, Qeq_bool_iff, Z.eqb_eq.
  unfold Reference.ranksBefore. split.
  - intros [[H1 | [H1 H1']] [H2 | [H2 H2']]]; try lra. split; [assumption | lia].
  - intros [H1 H2]. split; right; (split; [lra | lia]).
Qed.

Lemma StronglySorted_weaken {A : Type} (R S : A -> A -> Prop) (l : list A) :
  (forall x y, R x y -> S x y) -> StronglySorted R l -> StronglySorted S l.
Proof.
  intros HRS. induction 1 as [|x rest Hsorted IH Hall]; constructor.
  - exact IH.
  - eapply Forall_impl; [|exact Hall]. intros y. apply HRS.
Qed.

(** C4. The sort stage returns the candidates ordered by rating descending,
    an absent rating counting as 0, ties broken by rating count descending,
    an absent count counting as 0; it is stable: the candidates that agree
    on both keys keep their relative order.  Ratings [4.5, 4.5, 3.0] with
    counts [10, 50, 999] come out as 4.5/50, 4.5/10, 3.0/999. *)
Theorem sortStage_ordered_stable :
  forall places : list PlacesService.Place,
    Permutation (PlacesService.sortStage places) places
    /\ StronglySorted Reference.ranksBefore (PlacesService.sortStage places)
    /\ (forall x,
          filter (Reference.sameKeys x) (PlacesService.sortStage places)
          = filter (Reference.sameKeys x) places)
    /\ PlacesService.sortStage
         [Reference.candidate "A" (Some (45 # 10)) (Some 10);
          Reference.candidate "B" (Some (45 # 10)) (Some 50);
          Reference.candidate "C" (Some (3 # 1)) (Some 999)]
       = [Reference.candidate "B" (Some (45 # 10)) (Some 50);
          Reference.candidate "A" (Some (45 # 10)) (Some 10);
          Reference.candidate "C" (Some (3 # 1)) (Some 999)]
    /\ PlacesService.sortStage
         [Reference.candidate "C" None (Some 7);
          Reference.candidate "B" (Some (4 # 1)) None;
          Reference.candidate "A" (Some (4 # 1)) (Some 0)]
       = [Reference.candidate "B" (Some (4 # 1)) None;
          Reference.candidate "A" (Some (4 # 1)) (Some 0);
          Reference.candidate "C" None (Some 7)].
Proof.
  intros places. unfold PlacesService.sortStage.
  split; [apply sort_perm|].
  split.
  { eapply StronglySorted_weaken; [|apply sort_sorted].
    - intros x y. apply byRating_notAfter.
    - intros x y. rewrite !byRating_notAfter. apply ranksBefore_total.
    - intros x y z. rewrite !byRating_notAfter. apply ranksBefore_trans. }
  split.
  { intros x.
    rewrite <- (filter_ext _ _ (byRating_tied x)).
    rewrite <- (filter_ext _ _ (byRating_tied x) places).
    apply sort_stable.
    intros a b c. rewrite !byRating_notAfter. apply ranksBefore_trans. }
  split; vm_compute; reflexivity.
Qed.

(* ------------------------------------------------------------------ *)
(** ** The filter stage of searchNearby *)

Lemma filter_twice {A : Type} (f g : A -> bool) (l : list A) :
  filter g (filter f l) = filter (fun x => f x && g x) l.
Proof.
  induction l as [|x rest IH]; [reflexivity|].
  simpl. destruct (f x); simpl; [destruct (g x)|]; now rewrite IH.
Qed.

(** *** The maximum distance read from [filters.distance] *)









(* ------------------------------------------------------------------ *)
(** ** Absent ratings and counts *)

Lemma or_num_absent (v : option Q) (d : Q) :
  v = None \/ (exists r, v = Some r /\ (r == 0)%Q) -> Js.or_num v d = d.
Proof.
  intros [-> | (r & -> & Hr)]; [reflexivity|].
  unfold Js.or_num. apply Qeq_bool_iff in Hr. now rewrite Hr.
Qed.

(** C10. The congestion estimate scores a place whose rating is absent (or
    0) as if its rating were 3.0, so without the bonus of a rating of 4.3 or
    more, and an absent rating count as 0; the comparator of the sort stage
    takes an absent rating for 0 (and an absent count for 0): an unrated
    candidate sorts after one rated 2.0. *)
Theorem absent_rating_defaults :
  (forall (place : Api.place) (w : World),
      Api.rating place = None
      \/ (exists r, Api.rating place = Some r /\ (r == 0)%Q) ->
      PlacesService.estimateCongestion place w
      = PlacesService.estimateCongestion (Reference.rated place (Some (3 # 1))) w
      /\ fst (PlacesService.estimateCongestion place w)
         = Reference.verdictOf
             (Reference.timeScore (getHours (Reference.now w)) (getDay (Reference.now w))
              + Reference.countScore (Js.or_int (Api.user_ratings_total place) 0)))
  /\ (forall (place : Api.place) (w : World),
      Api.user_ratings_total place = None ->
      PlacesService.estimateCongestion place w
      = PlacesService.estimateCongestion (Reference.counted place (Some 0)) w)
  /\ (forall a b : PlacesService.Place,
      PlacesService.rating a = None ->
      PlacesService.byRating a b
      = PlacesService.byRating (Reference.withRating a (Some 0%Q)) b
      /\ PlacesService.byRating b a
         = PlacesService.byRating b (Reference.withRating a (Some 0%Q)))
  /\ (forall a b : PlacesService.Place,
      PlacesService.ratingsTotal a = None ->
      PlacesService.byRating a b
      = PlacesService.byRating (Reference.withRatingsTotal a (Some 0)) b
      /\ PlacesService.byRating b a
         = PlacesService.byRating b (Reference.withRatingsTotal a (Some 0)))
  /\ PlacesService.sortStage
       [Reference.candidate "unrated" None (Some 900);
        Reference.candidate "rated" (Some (2 # 1)) (Some 5)]
     = [Reference.candidate "rated" (Some (2 # 1)) (Some 5);
        Reference.candidate "unrated" None (Some 900)].
Proof.
  split; [|split; [|split; [|split]]].
  - intros place w Habsent.
    rewrite !estimateCongestion_eq.
    rewrite (or_num_absent _ _ Habsent).
    destruct place; cbn [Reference.rated Api.rating Api.user_ratings_total fst].
    split; [reflexivity|].
    change (Qle_bool (43 # 10) (3 # 1)) with false.
    now rewrite Z.add_0_r.
  - intros place w Hcount.
    rewrite !estimateCongestion_eq.
    destruct place; cbn [Api.user_ratings_total] in Hcount; subst.
    reflexivity.
  - intros a b Hrating. unfold PlacesService.byRating.
    destruct a; cbn [PlacesService.rating] in Hrating; subst. split; reflexivity.
  - intros a b Hcount. unfold PlacesService.byRating.
    destruct a; cbn [PlacesService.ratingsTotal] in Hcount; subst. split; reflexivity.
  - vm_compute. reflexivity.
Qed.

Lemma absent_rating_defaults_witness :
  PlacesService.estimateCongestion (Reference.venue None (Some 600))
    (frozen (mkDate 6 12 0) 0)
  = PlacesService.estimateCongestion (Reference.venue (Some (3 # 1)) (Some 600))
      (frozen (mkDate 6 12 0) 0)
  /\ PlacesService.byRating
       (Reference.candidate "unrated" None (Some 900))
       (Reference.candidate "rated" (Some (2 # 1)) (Some 5))
     = PlacesService.byRating
         (Reference.candidate "unrated" (Some 0%Q) (Some 900))
         (Reference.candidate "rated" (Some (2 # 1)) (Some 5)).
Proof.
  split.
  - exact (proj1 (proj1 absent_rating_defaults
                    (Reference.venue None (Some 600)) (frozen (mkDate 6 12 0) 0)
                    (or_introl eq_refl))).
  - exact (proj1 (proj1 (proj2 (proj2 absent_rating_defaults))
                    (Reference.candidate "unrated" None (Some 900))
                    (Reference.candidate "rated" (Some (2 # 1)) (Some 5))
                    eq_refl)).
Defined.

(* ------------------------------------------------------------------ *)
(** ** Ambience tags from reviews *)

Lemma ruleStep_addCapped (text : string) (found : list string)
    (rule : list string * string) :
  PlacesService.ruleStep text found rule
  = if Js.test_alternatives_i (fst rule) text
    then Reference.addCapped found (snd rule) else found.
Proof.
  unfold PlacesService.ruleStep, Reference.addCapped.
  destruct (Js.test_alternatives_i _ _), (_ <? 4); reflexivity.
Qed.

Lemma rules_fold (text : string) (rules : list (list string * string))
    (found : list string) :
  fold_left (PlacesService.ruleStep text) rules found
  = fold_left Reference.addCapped
      (map snd (filter (fun rule => Js.test_alternatives_i (fst rule) text) rules))
      found.
Proof.
  revert found. induction rules as [|rule rest IH]; intros found; [reflexivity|].
  cbn [fold_left filter]. rewrite IH, ruleStep_addCapped.
  destruct (Js.test_alternatives_i (fst rule) text); reflexivity.
Qed.

Lemma reviewStep_addCapped (found : list string) (r : Api.review) :
  PlacesService.reviewStep found r
  = fold_left Reference.addCapped (Reference.matchedTags r) found.
Proof.
  unfold PlacesService.reviewStep. now rewrite rules_fold, or_string_reviewText.
Qed.

Lemma reviews_fold (reviews : list Api.review) (found : list string) :
  fold_left PlacesService.reviewStep reviews found
  = fold_left Reference.addCapped (flat_map Reference.matchedTags reviews) found.
Proof.
  revert found. induction reviews as [|r rest IH]; intros found; [reflexivity|].
  cbn [fold_left flat_map]. now rewrite fold_left_app, IH, reviewStep_addCapped.
Qed.

Lemma set_add_length (found : list string) (tag : string) :
  (List.length found <= List.length (PlacesService.set_add found tag)
   <= S (List.length found))%nat.
Proof.
  unfold PlacesService.set_add. destruct (PlacesService.set_has found tag).
  - lia.
  - rewrite length_app. simpl. lia.
Qed.

Lemma set_add_extends (tags found : list string) :
  exists more, fold_left PlacesService.set_add tags found = (found ++ more)%list.
Proof.
  revert found. induction tags as [|t rest IH]; intros found.
  - exists []. now rewrite app_nil_r.
  - cbn [fold_left]. destruct (IH (PlacesService.set_add found t)) as [more ->].
    unfold PlacesService.set_add. destruct (PlacesService.set_has found t).
    + now exists more.
    + exists (t :: more). now rewrite <- app_assoc.
Qed.

Lemma firstn_full_prefix (found more : list string) :
  List.length found = 4%nat -> firstn 4 (found ++ more) = found.
Proof.
  intros Hlen. rewrite <- Hlen, firstn_app, Nat.sub_diag, firstn_O, app_nil_r.
  apply firstn_all.
Qed.

Lemma addCapped_firstn (tags found : list string) :
  (List.length found <= 4)%nat ->
  fold_left Reference.addCapped tags found
  = firstn 4 (fold_left PlacesService.set_add tags found).
Proof.
  revert found. induction tags as [|t rest IH]; intros found Hlen.
  - cbn [fold_left]. symmetry. now apply firstn_all2.
  - cbn [fold_left]. unfold Reference.addCapped at 2, PlacesService.set_size.
    destruct (Z.ltb_spec (Z.of_nat (List.length found)) 4) as [Hlt | Hge].
    + apply IH. pose proof (set_add_length found t). lia.
    + assert (Hfull : List.length found = 4%nat) by lia.
      rewrite IH by assumption.
      destruct (set_add_extends rest found) as [more ->].
      destruct (set_add_extends rest (PlacesService.set_add found t)) as [more' ->].
      rewrite firstn_full_prefix by assumption.
      unfold PlacesService.set_add. destruct (PlacesService.set_has found t).
      * now rewrite firstn_full_prefix.
      * now rewrite <- app_assoc, firstn_full_prefix.
Qed.

Lemma set_has_app (found : list string) (t y : string) :
  PlacesService.set_has (found ++ [t]) y
  = PlacesService.set_has found y || String.eqb t y.
Proof.
  unfold PlacesService.set_has. rewrite existsb_app. simpl.
  now rewrite orb_false_r, String.eqb_sym.
Qed.

Lemma set_add_distinct (tags found : list string) :
  fold_left PlacesService.set_add tags found
  = (found ++ filter (fun y => negb (PlacesService.set_has found y))
                (Reference.distinct tags))%list.
Proof.
  revert found. induction tags as [|t rest IH]; intros found.
  - simpl. now rewrite app_nil_r.
  - cbn [fold_left Reference.distinct filter]. rewrite IH.
    unfold PlacesService.set_add.
    destruct (PlacesService.set_has found t) eqn:Hin; cbn [negb].
    + f_equal. rewrite filter_twice. apply filter_ext. intros y.
      destruct (String.eqb_spec t y) as [<- | Hty]; cbn [negb andb].
      * now rewrite Hin.
      * reflexivity.
    + rewrite <- app_assoc. cbn [app]. do 2 f_equal.
      rewrite filter_twice. apply filter_ext. intros y.
      rewrite set_has_app, negb_orb. apply andb_comm.
Qed.

Lemma distinct_NoDup (l : list string) : NoDup (Reference.distinct l).
Proof.
  induction l as [|x rest IH]; simpl; constructor.
  - rewrite filter_In, String.eqb_refl. intros [_ H]. discriminate.
  - now apply NoDup_filter.
Qed.

Lemma distinct_In (l : list string) (x : string) :
  In x (Reference.distinct l) <-> In x l.
Proof.
  induction l as [|y rest IH]; [reflexivity|].
  simpl. rewrite filter_In, IH.
  destruct (String.eqb_spec y x) as [-> | Hne]; cbn [negb]; intuition congruence.
Qed.

Lemma firstn_NoDup {A : Type} (n : nat) (l : list A) : NoDup l -> NoDup (firstn n l).
Proof.
  intros H. rewrite <- (firstn_skipn n l) in H. now apply NoDup_app_remove_r in H.
Qed.

Lemma firstn_In {A : Type} (n : nat) (l : list A) (x : A) :
  In x (firstn n l) -> In x l.
Proof.
  intros H. rewrite <- (firstn_skipn n l). apply in_or_app. now left.
Qed.

Lemma extract_eq (reviews : list Api.review) :
  PlacesService.extractAtmosphereFromReviews reviews
  = firstn 4 (Reference.distinct (flat_map Reference.matchedTags reviews)).
Proof.
  unfold PlacesService.extractAtmosphereFromReviews.
  rewrite reviews_fold, addCapped_firstn by (simpl; lia).
  rewrite set_add_distinct. cbn [app]. f_equal.
  generalize (Reference.distinct (flat_map Reference.matchedTags reviews)).
  intros l. induction l as [|x rest IH]; [reflexivity|].
  cbn [filter]. change (negb (PlacesService.set_has [] x)) with true.
  cbn iota. now f_equal.
Qed.

Lemma addCapped_full (tags found : list string) :
  List.length found = 4%nat -> fold_left Reference.addCapped tags found = found.
Proof.
  intros Hfull. induction tags as [|t rest IH]; [reflexivity|].
  cbn [fold_left]. unfold Reference.addCapped at 2, PlacesService.set_size.
  rewrite Hfull. exact IH.
Qed.

Lemma distinct_id (l : list string) : NoDup l -> Reference.distinct l = l.
Proof.
  induction 1 as [|x rest Hnotin Hnodup IH]; [reflexivity|].
  simpl. rewrite IH. f_equal.
  apply forallb_filter_id, forallb_forall. intros y Hy.
  destruct (String.eqb_spec x y) as [-> | _]; [contradiction | reflexivity].
Qed.

Lemma ruleTags_NoDup : NoDup Reference.ruleTags.
Proof.
  replace Reference.ruleTags with (Reference.distinct Reference.ruleTags)
    by (vm_compute; reflexivity).
  apply distinct_NoDup.
Qed.

Lemma filtered_tags_NoDup (f : list string * string -> bool)
    (rules : list (list string * string)) :
  NoDup (map snd rules) -> NoDup (map snd (filter f rules)).
Proof.
  induction rules as [|rule rest IH]; [trivial|].
  cbn [map filter]. intros Hnodup. inversion Hnodup as [|? ? Hnotin Hrest]; subst.
  destruct (f rule); [|now apply IH].
  cbn [map]. constructor; [|now apply IH].
  intros Hin. apply Hnotin.
  apply in_map_iff in Hin. destruct Hin as (rule' & Heq & Hin).
  apply filter_In in Hin. apply in_map_iff. exists rule'. tauto.
Qed.

Lemma subsequence_nil (whole : list string) : Reference.subsequence [] whole = true.
Proof. destruct whole; reflexivity. Qed.

Lemma subsequence_filtered (f : list string * string -> bool)
    (rules : list (list string * string)) :
  NoDup (map snd rules) ->
  Reference.subsequence (map snd (filter f rules)) (map snd rules) = true.
Proof.
  induction rules as [|rule rest IH]; [reflexivity|].
  cbn [map filter]. intros Hnodup. inversion Hnodup as [|? ? Hnotin Hrest]; subst.
  destruct (f rule).
  - cbn [map Reference.subsequence]. rewrite String.eqb_refl. now apply IH.
  - specialize (IH Hrest).
    destruct (map snd (filter f rest)) as [|x l'] eqn:E; [reflexivity|].
    cbn [Reference.subsequence].
    destruct (String.eqb_spec x (snd rule)) as [Heq | _]; [|exact IH].
    exfalso. apply Hnotin. rewrite <- Heq.
    assert (Hin : In x (map snd (filter f rest))) by (rewrite E; now left).
    apply in_map_iff in Hin. destruct Hin as (rule' & Hsnd & Hin).
    apply filter_In in Hin. apply in_map_iff. exists rule'. tauto.
Qed.

Lemma subsequence_firstn (n : nat) (l whole : list string) :
  Reference.subsequence l whole = true ->
  Reference.subsequence (firstn n l) whole = true.
Proof.
  revert n l. induction whole as [|y whole' IH]; intros n l H.
  - destruct l; [|discriminate]. now rewrite firstn_nil.
  - destruct l as [|x l']; [now rewrite firstn_nil|].
    destruct n as [|n']; [reflexivity|].
    cbn [firstn Reference.subsequence] in *.
    destruct (String.eqb x y).
    + now apply IH.
    + now apply (IH (S n') (x :: l')).
Qed.

(** C7, as the code has it.  The tags returned are the first four distinct
    tags met when the reviews are scanned in the order given and, within a
    review, the rules in rule-list order: at most four tags, all distinct,
    each the tag of a rule whose pattern matches some review; once four tags
    are there, further reviews change nothing.  For a single review the tags
    come in rule-list order. *)
Theorem extractAtmosphere_first_four :
  forall reviews : list Api.review,
    let tags := PlacesService.extractAtmosphereFromReviews reviews in
    tags = firstn 4 (Reference.distinct (flat_map Reference.matchedTags reviews))
    /\ (List.length tags <= 4)%nat
    /\ NoDup tags
    /\ (forall tag, In tag tags ->
          exists r, In r reviews /\ In tag (Reference.matchedTags r))
    /\ (forall more, List.length tags = 4%nat ->
          PlacesService.extractAtmosphereFromReviews (reviews ++ more) = tags)
    /\ (forall r,
          PlacesService.extractAtmosphereFromReviews [r]
          = firstn 4 (Reference.matchedTags r)
          /\ Reference.inRuleOrder (PlacesService.extractAtmosphereFromReviews [r]) = true).
Proof.
  intros reviews tags. subst tags. rewrite extract_eq.
  split; [reflexivity|]. split; [|split; [|split; [|split]]].
  - rewrite length_firstn. lia.
  - apply firstn_NoDup, distinct_NoDup.
  - intros tag Hin. apply firstn_In, distinct_In, in_flat_map in Hin. exact Hin.
  - intros more Hfull. rewrite <- extract_eq in *.
    unfold PlacesService.extractAtmosphereFromReviews in *.
    rewrite fold_left_app, reviews_fold. now apply addCapped_full.
  - intros r. rewrite extract_eq. cbn [flat_map]. rewrite app_nil_r.
    rewrite distinct_id by (apply filtered_tags_NoDup, ruleTags_NoDup).
    split; [reflexivity|].
    apply subsequence_firstn, subsequence_filtered, ruleTags_NoDup.
Qed.

Lemma extractAtmosphere_first_four_witness :
  let crowd := [Api.mkReview (Some "夜景と個室とテラス、デートにおしゃれで静か"%string)] in
  PlacesService.extractAtmosphereFromReviews
    (crowd ++ [Api.mkReview (Some "コスパ"%string); Api.mkReview None])
  = ["🏙️ 眺望が良い"; "🚪 個室あり"; "🌿 テラス席"; "💑 デート向き"]%string.
Proof.
  cbv zeta.
  rewrite (proj1 (proj2 (proj2 (proj2 (proj2
             (extractAtmosphere_first_four
                [Api.mkReview (Some "夜景と個室とテラス、デートにおしゃれで静か"%string)])))))
             [Api.mkReview (Some "コスパ"%string); Api.mkReview None]);
    vm_compute; reflexivity.
Defined.

(** C7, as stated, fails on the order: with a first review that matches the
    fifth rule and a second that matches the first rule, the tag of the
    fifth rule is returned before the tag of the first. *)
Lemma extractAtmosphere_not_in_rule_order :
  let reviews := [Api.mkReview (Some "デートにぴったり"%string);
                  Api.mkReview (Some "夜景が最高"%string)] in
  PlacesService.extractAtmosphereFromReviews reviews
  = ["💑 デート向き"; "🏙️ 眺望が良い"]%string
  /\ Reference.inRuleOrder (PlacesService.extractAtmosphereFromReviews reviews) = false
  /\ Reference.inRuleOrder ["🏙️ 眺望が良い"; "💑 デート向き"]%string = true.
Proof.
  cbv zeta. repeat split; vm_compute; reflexivity.
Qed.

(* ------------------------------------------------------------------ *)
(** ** Time: the clock is read inside the functions *)

Lemma estimateCongestion_frozen (place : Api.place) (d : Date) (n : nat) :
  PlacesService.estimateCongestion place (frozen d n)
  = (fst (PlacesService.estimateCongestion place (frozen d 0)), frozen d (S n)).
Proof. now rewrite !estimateCongestion_eq. Qed.

Section Frozen.

Variable calculateDistance : Q -> Q -> Q -> Q -> Q.
Variable location : PlacesService.LatLng.
Variable filters : PlacesService.Filters.
Variable d : Date.

Lemma formatPlace_frozen (place : Api.place) (n : nat) :
  PlacesService.formatPlace calculateDistance place location (frozen d n)
  = (fst (PlacesService.formatPlace calculateDistance place location (frozen d 0)),
     frozen d (S n)).
Proof.
  unfold PlacesService.formatPlace, bind, ret.
  rewrite estimateCongestion_frozen.
  destruct (PlacesService.estimateCongestion place (frozen d 0)) as [c w] eqn:E.
  rewrite estimateCongestion_frozen in E. now inversion E.
Qed.

Lemma mapM_formatPlace_frozen (results : list Api.place) (n : nat) :
  mapM (fun place => PlacesService.formatPlace calculateDistance place location)
    results (frozen d n)
  = (fst (mapM (fun place => PlacesService.formatPlace calculateDistance place location)
            results (frozen d 0)),
     frozen d (List.length results + n)).
Proof.
  revert n. induction results as [|place rest IH]; intros n; [reflexivity|].
  cbn [mapM]. unfold bind at 1 3. rewrite formatPlace_frozen.
  rewrite (formatPlace_frozen place 0). cbn [fst].
  unfold bind. rewrite IH, (IH 1%nat). cbn [fst ret List.length].
  unfold ret. do 2 f_equal. lia.
Qed.

Lemma rank_frozen (results : list Api.place) (n : nat) :
  PlacesService.rank calculateDistance location filters results (frozen d n)
  = (fst (PlacesService.rank calculateDistance location filters results (frozen d 0)),
     frozen d (List.length results + n)).
Proof.
  unfold PlacesService.rank, bind, ret.
  rewrite mapM_formatPlace_frozen.
  destruct (mapM _ results (frozen d 0)) as [places w] eqn:E.
  rewrite mapM_formatPlace_frozen in E. inversion E. reflexivity.
Qed.

Lemma searchNearby_frozen
    (service : option (PlacesService.Request -> option (list Api.place) * string))
    (n : nat) :
  exists k,
    PlacesService.searchNearby calculateDistance service location filters (frozen d n)
    = (fst (PlacesService.searchNearby calculateDistance service location filters
              (frozen d 0)),
       frozen d (k + n)).
Proof.
  unfold PlacesService.searchNearby.
  destruct service as [nearbySearch|]; [|now exists 0%nat].
  destruct (nearbySearch _) as [results status].
  unfold PlacesService.onResults.
  destruct (if (status =? "OK")%string then results else None) as [results'|].
  - exists (List.length results'). unfold bind, ret.
    rewrite rank_frozen.
    destruct (PlacesService.rank _ _ _ results' (frozen d 0)) as [places w] eqn:E.
    rewrite rank_frozen in E. inversion E. reflexivity.
  - exists 0%nat. destruct (status =? "ZERO_RESULTS")%string; reflexivity.
Qed.

End Frozen.

(** C9, as the code has it.  estimateCongestion and isCurrentlyOpen read the
    clock themselves (the first once, the second at most once) and their
    result is a function of their argument and of that reading: two runs on
    the same input at the same instant agree.  Under a stopped clock a search
    returns the same ordered outcome however often it is run, also when it
    is run again after itself. *)
Theorem same_instant_same_result :
  (forall (place : Api.place) (w1 w2 : World),
      Reference.now w1 = Reference.now w2 ->
      fst (PlacesService.estimateCongestion place w1)
      = fst (PlacesService.estimateCongestion place w2))
  /\ (forall (weekdayText : option (list (option string))) (w1 w2 : World),
      Reference.now w1 = Reference.now w2 ->
      fst (HoursParser.isCurrentlyOpen weekdayText w1)
      = fst (HoursParser.isCurrentlyOpen weekdayText w2))
  /\ (forall (place : Api.place) (w : World),
      ticks (snd (PlacesService.estimateCongestion place w)) = S (ticks w))
  /\ (forall (weekdayText : option (list (option string))) (w : World),
      (ticks (snd (HoursParser.isCurrentlyOpen weekdayText w)) <= S (ticks w))%nat)
  /\ (forall calculateDistance service location filters (d : Date) (n m : nat),
      fst (PlacesService.searchNearby calculateDistance service location filters
             (frozen d n))
      = fst (PlacesService.searchNearby calculateDistance service location filters
               (frozen d m)))
  /\ (forall calculateDistance service location filters (d : Date) (n : nat),
      let first :=
        PlacesService.searchNearby calculateDistance service location filters
          (frozen d n) in
      fst (PlacesService.searchNearby calculateDistance service location filters
             (snd first))
      = fst first).
Proof.
  split; [|split; [|split; [|split; [|split]]]].
  - intros place w1 w2 Hnow. rewrite !estimateCongestion_eq, Hnow. reflexivity.
  - intros [[|e rest]|] w1 w2 Hnow; try reflexivity.
    rewrite !isCurrentlyOpen_nonempty by discriminate. now rewrite Hnow.
  - intros place w. now rewrite estimateCongestion_eq.
  - intros [[|e rest]|] w; cbn; lia.
  - intros calc service location filters d n m.
    destruct (searchNearby_frozen calc location filters d service n) as [k ->].
    destruct (searchNearby_frozen calc location filters d service m) as [k' ->].
    reflexivity.
  - intros calc service location filters d n first. subst first.
    destruct (searchNearby_frozen calc location filters d service n) as [k ->].
    cbn [fst snd].
    destruct (searchNearby_frozen calc location filters d service (k + n)) as [k' ->].
    reflexivity.
Qed.

Lemma same_instant_same_result_witness :
  fst (PlacesService.estimateCongestion (Reference.venue (Some (45 # 10)) (Some 600))
         (frozen (mkDate 6 12 0) 0))
  = fst (PlacesService.estimateCongestion (Reference.venue (Some (45 # 10)) (Some 600))
           (Reference.ticking (mkDate 6 12 0) (mkDate 2 15 0)))
  /\ fst (HoursParser.isCurrentlyOpen (Reference.everyDay "18時00分〜2時00分")
            (frozen (mkDate 3 23 0) 5))
     = fst (HoursParser.isCurrentlyOpen (Reference.everyDay "18時00分〜2時00分")
              (Reference.ticking (mkDate 3 23 0) (mkDate 3 10 0))).
Proof.
  split.
  - exact (proj1 same_instant_same_result
             (Reference.venue (Some (45 # 10)) (Some 600))
             (frozen (mkDate 6 12 0) 0)
             (Reference.ticking (mkDate 6 12 0) (mkDate 2 15 0)) eq_refl).
  - exact (proj1 (proj2 same_instant_same_result)
             (Reference.everyDay "18時00分〜2時00分")
             (frozen (mkDate 3 23 0) 5)
             (Reference.ticking (mkDate 3 23 0) (mkDate 3 10 0)) eq_refl).
Defined.

(** C9, as stated, fails: the time is not an argument.  The same venue is
    judged differently under two clocks, the same table likewise, and within
    one search each candidate is scored at a reading of its own: two equal
    venues come out with different verdicts when the hour turns between
    the readings. *)
Lemma time_is_read_from_the_clock :
  fst (PlacesService.estimateCongestion (Reference.venue (Some (45 # 10)) (Some 600))
         (frozen (mkDate 6 12 0) 0)) = Reference.high
  /\ fst (PlacesService.estimateCongestion (Reference.venue (Some (45 # 10)) (Some 600))
            (frozen (mkDate 2 15 0) 0)) = Reference.medium
  /\ fst (HoursParser.isCurrentlyOpen (Reference.everyDay "18時00分〜2時00分")
            (Reference.at_ 23 0)) = Some true
  /\ fst (HoursParser.isCurrentlyOpen (Reference.everyDay "18時00分〜2時00分")
            (Reference.at_ 10 0)) = Some false
  /\ map PlacesService.congestion
       (fst (PlacesService.rank Reference.flatEarth Reference.here
               Reference.initialFilters
               [Reference.openVenue (Some (4 # 1)) (Some 50);
                Reference.openVenue (Some (4 # 1)) (Some 50)]
               (Reference.ticking (mkDate 2 13 59) (mkDate 2 14 0))))
     = [Reference.medium; Reference.low]
  /\ ~ Reference.clockFree PlacesService.estimateCongestion
  /\ ~ Reference.clockFree HoursParser.isCurrentlyOpen.
Proof.
  do 5 (split; [vm_compute; reflexivity|]).
  split.
  - intros [g Hg].
    pose proof (Hg (Reference.venue None None) (frozen (mkDate 6 12 0) 0)) as H.
    apply (f_equal (fun r => ticks (snd r))) in H. cbn in H. discriminate.
  - intros [g Hg].
    pose proof (Hg (Reference.everyDay "定休日") (frozen (mkDate 6 12 0) 0)) as H.
    apply (f_equal (fun r => ticks (snd r))) in H. cbn in H. discriminate.
Qed.

(* ------------------------------------------------------------------ *)
(** ** Further properties of the open-now decision *)

Lemma judgeToday_closed (todayText : string) (t : Z) :
  Reference.hasClosedMarker todayText = true ->
  HoursParser.judgeToday (Some todayText) t = Some false.
Proof.
  unfold Reference.hasClosedMarker, HoursParser.judgeToday. intros H.
  destruct todayText as [|c rest]; [vm_compute in H; discriminate|].
  cbn [Js.truthy_string negb]. now rewrite H.
Qed.

Lemma judgeToday_24h (todayText : string) (t : Z) :
  Reference.hasClosedMarker todayText = false ->
  Reference.has24hMarker todayText = true ->
  HoursParser.judgeToday (Some todayText) t = Some true.
Proof.
  unfold Reference.hasClosedMarker, Reference.has24hMarker, HoursParser.judgeToday.
  intros Hc H.
  destruct todayText as [|c rest]; [vm_compute in H; discriminate|].
  cbn [Js.truthy_string negb]. now rewrite Hc, H.
Qed.

Lemma judgeToday_range (todayText : string) (m : HoursParser.captures) (t : Z) :
  Reference.hasClosedMarker todayText = false ->
  Reference.has24hMarker todayText = false ->
  Regex.exec HoursParser.timeRangePattern todayText = Some m ->
  HoursParser.judgeToday (Some todayText) t
  = Some (Reference.rangeDecision (Reference.openMinute m) (Reference.closeMinute m) t).
Proof.
  unfold Reference.hasClosedMarker, Reference.has24hMarker, HoursParser.judgeToday.
  intros Hc H24 Hexec.
  destruct todayText as [|c rest]; [vm_compute in Hexec; discriminate|].
  cbn [Js.truthy_string negb]. now rewrite Hc, H24, Hexec, rangeVerdict_decision.
Qed.

Lemma isCurrentlyOpen_entry (weekdayText : list (option string)) (w : World)
    (todayText : string) :
  Js.index weekdayText
    (HoursParser.googleDayIndex (getDay (Reference.now w))) = Some (Some todayText) ->
  fst (HoursParser.isCurrentlyOpen (Some weekdayText) w)
  = HoursParser.judgeToday (Some todayText) (Reference.minuteOfDay (Reference.now w)).
Proof.
  intros Hidx. rewrite isCurrentlyOpen_nonempty.
  - cbn [fst]. now rewrite Hidx.
  - intros ->. unfold Js.index in Hidx.
    destruct (_ <? 0); [discriminate|]. destruct (Z.to_nat _); discriminate.
Qed.

(** X1. A closed-day marker anywhere in today's text makes the venue closed at
    every time of day, also when the text holds a 24-hour marker or a time
    range as well; without one, a 24-hour marker makes it open at every time
    of day, whatever range the text also holds. *)
Theorem markers_take_precedence :
  forall (weekdayText : list (option string)) (w : World) (todayText : string),
    Js.index weekdayText
      (HoursParser.googleDayIndex (getDay (Reference.now w))) = Some (Some todayText) ->
    (Reference.hasClosedMarker todayText = true ->
     fst (HoursParser.isCurrentlyOpen (Some weekdayText) w) = Some false)
    /\ (Reference.hasClosedMarker todayText = false ->
        Reference.has24hMarker todayText = true ->
        fst (HoursParser.isCurrentlyOpen (Some weekdayText) w) = Some true).
Proof.
  intros weekdayText w todayText Hidx.
  rewrite (isCurrentlyOpen_entry _ _ _ Hidx). split.
  - apply judgeToday_closed.
  - apply judgeToday_24h.
Qed.

Lemma markers_take_precedence_witness :
  fst (HoursParser.isCurrentlyOpen
         (Reference.everyDay "24時間営業（定休日を除く）") (Reference.at_ 12 0))
  = Some false
  /\ fst (HoursParser.isCurrentlyOpen
            (Reference.everyDay "24時間営業 9時00分〜10時00分") (Reference.at_ 23 0))
     = Some true.
Proof.
  split.
  - exact (proj1 (markers_take_precedence
                    (repeat (Some "24時間営業（定休日を除く）"%string) 7)
                    (Reference.at_ 12 0) "24時間営業（定休日を除く）"%string eq_refl)
             eq_refl).
  - exact (proj2 (markers_take_precedence
                    (repeat (Some "24時間営業 9時00分〜10時00分"%string) 7)
                    (Reference.at_ 23 0) "24時間営業 9時00分〜10時00分"%string eq_refl)
             eq_refl eq_refl).
Defined.

Lemma string_app_empty (s : string) : (s ++ EmptyString)%string = s.
Proof. induction s as [|c s IH]; [reflexivity|]. simpl. now rewrite IH. Qed.

Lemma exec_no_digit (text : string) :
  Reference.noDigit text = true ->
  Regex.exec HoursParser.timeRangePattern text = None.
Proof.
  intros H. rewrite <- (string_app_empty text).
  now rewrite exec_skips_no_digit.
Qed.

(** X2. A day text without any ASCII digit and without marker is never taken
    for open or closed: the verdict is unknown at every time. *)
Theorem no_digit_is_unknown :
  forall (weekdayText : list (option string)) (w : World) (todayText : string),
    Js.index weekdayText
      (HoursParser.googleDayIndex (getDay (Reference.now w))) = Some (Some todayText) ->
    Reference.hasClosedMarker todayText = false ->
    Reference.has24hMarker todayText = false ->
    Reference.noDigit todayText = true ->
    fst (HoursParser.isCurrentlyOpen (Some weekdayText) w) = None.
Proof.
  intros weekdayText w todayText Hidx Hc H24 Hnd.
  rewrite (isCurrentlyOpen_entry _ _ _ Hidx).
  unfold HoursParser.judgeToday.
  unfold Reference.hasClosedMarker in Hc. unfold Reference.has24hMarker in H24.
  rewrite Hc, H24, (exec_no_digit _ Hnd).
  destruct (negb _); reflexivity.
Qed.

Lemma no_digit_is_unknown_witness :
  fst (HoursParser.isCurrentlyOpen
         (Reference.everyDay "月曜日: 午前七時から午後八時まで") (Reference.at_ 12 0))
  = None.
Proof.
  exact (no_digit_is_unknown
           (repeat (Some "月曜日: 午前七時から午後八時まで"%string) 7)
           (Reference.at_ 12 0) "月曜日: 午前七時から午後八時まで"%string
           eq_refl eq_refl eq_refl eq_refl).
Defined.

(** X3. Only the first range of a text counts: whatever follows it, a second
    session included, leaves the verdict as it is. *)
Theorem later_ranges_are_ignored :
  forall (pre : string) (oh om : Z) (sep : string) (ch cm : Z)
         (post post' : string) (t : Z),
    Reference.noDigit pre = true ->
    In sep Reference.separators ->
    0 <= oh <= 99 -> 0 <= om <= 99 -> 0 <= ch <= 99 -> 0 <= cm <= 99 ->
    Reference.hasClosedMarker (Reference.rangeText pre oh om sep ch cm post) = false ->
    Reference.has24hMarker (Reference.rangeText pre oh om sep ch cm post) = false ->
    Reference.hasClosedMarker (Reference.rangeText pre oh om sep ch cm post') = false ->
    Reference.has24hMarker (Reference.rangeText pre oh om sep ch cm post') = false ->
    HoursParser.judgeToday (Some (Reference.rangeText pre oh om sep ch cm post)) t
    = HoursParser.judgeToday (Some (Reference.rangeText pre oh om sep ch cm post')) t.
Proof.
  intros pre oh om sep ch cm post post' t Hpre Hsep Hoh Hom Hch Hcm Hc H24 Hc' H24'.
  rewrite (judgeToday_range _ _ t Hc H24
             (timeRangePattern_rangeText pre oh om sep ch cm post
                Hpre Hoh Hom Hch Hcm Hsep)).
  rewrite (judgeToday_range _ _ t Hc' H24'
             (timeRangePattern_rangeText pre oh om sep ch cm post'
                Hpre Hoh Hom Hch Hcm Hsep)).
  reflexivity.
Qed.

Lemma later_ranges_are_ignored_witness :
  HoursParser.judgeToday
    (Some (Reference.rangeText "火曜日: " 11 0 "～" 14 0 ", 17時00分～22時00分"))
    (18 * 60)
  = HoursParser.judgeToday
      (Some (Reference.rangeText "火曜日: " 11 0 "～" 14 0 EmptyString)) (18 * 60)
  /\ HoursParser.judgeToday
       (Some (Reference.rangeText "火曜日: " 11 0 "～" 14 0 ", 17時00分～22時00分"))
       (18 * 60)
     = Some false.
Proof.
  split; [|vm_compute; reflexivity].
  apply later_ranges_are_ignored; try reflexivity; try lia.
  simpl. tauto.
Defined.

(** X4. The weekday remap is one-to-one: each platform day 0..6 reads an index
    0..6 of the Monday-first table, and each index is read on exactly one
    day, the day (index + 1) mod 7. *)
Theorem googleDayIndex_bijection :
  (forall d, 0 <= d <= 6 ->
     0 <= HoursParser.googleDayIndex d <= 6
     /\ Derived.platformDay (HoursParser.googleDayIndex d) = d)
  /\ (forall i, 0 <= i <= 6 ->
     0 <= Derived.platformDay i <= 6
     /\ HoursParser.googleDayIndex (Derived.platformDay i) = i)
  /\ (forall d d', 0 <= d <= 6 -> 0 <= d' <= 6 ->
     HoursParser.googleDayIndex d = HoursParser.googleDayIndex d' -> d = d').
Proof.
  unfold HoursParser.googleDayIndex, Derived.platformDay.
  split; [|split].
  - intros d Hd. assert (d = 0 \/ d = 1 \/ d = 2 \/ d = 3 \/ d = 4 \/ d = 5 \/ d = 6)
      as Hcases by lia.
    destruct Hcases as [-> | [-> | [-> | [-> | [-> | [-> | ->]]]]]];
      (split; [cbv; split; discriminate | reflexivity]).
  - intros i Hi. assert (i = 0 \/ i = 1 \/ i = 2 \/ i = 3 \/ i = 4 \/ i = 5 \/ i = 6)
      as Hcases by lia.
    destruct Hcases as [-> | [-> | [-> | [-> | [-> | [-> | ->]]]]]];
      (split; [cbv; split; discriminate | reflexivity]).
  - intros d d' Hd Hd'.
    destruct (Z.eqb_spec d 0), (Z.eqb_spec d' 0); lia.
Qed.

Lemma googleDayIndex_bijection_witness :
  Derived.platformDay (HoursParser.googleDayIndex 0) = 0
  /\ HoursParser.googleDayIndex (Derived.platformDay 6) = 6.
Proof.
  split.
  - exact (proj2 (proj1 googleDayIndex_bijection 0 ltac:(lia))).
  - exact (proj2 (proj1 (proj2 googleDayIndex_bijection) 6 ltac:(lia))).
Defined.

(* ------------------------------------------------------------------ *)
(** ** What the time-range pattern captures *)

Lemma is_digit_cases (a : ascii) :
  Js.is_digit a = true -> In a Derived.decimalDigits.
Proof.
  destruct a as [b0 b1 b2 b3 b4 b5 b6 b7].
  destruct b0, b1, b2, b3, b4, b5, b6, b7; intros H; vm_compute in H;
    try discriminate H; simpl; tauto.
Qed.

Lemma one_digit_parses (a : ascii) :
  Js.is_digit a = true -> Derived.parsesBelow100 (String a EmptyString) = true.
Proof.
  intros Ha. apply is_digit_cases in Ha.
  assert (Hall : forallb (fun a => Derived.parsesBelow100 (String a EmptyString))
                   Derived.decimalDigits = true) by (vm_compute; reflexivity).
  rewrite forallb_forall in Hall. now apply Hall.
Qed.

Lemma two_digits_parse (a b : ascii) :
  Js.is_digit a = true -> Js.is_digit b = true ->
  Derived.parsesBelow100 (String a (String b EmptyString)) = true.
Proof.
  intros Ha Hb. apply is_digit_cases in Ha, Hb.
  assert (Hall : forallb (fun a =>
                   forallb (fun b =>
                     Derived.parsesBelow100 (String a (String b EmptyString)))
                     Derived.decimalDigits)
                   Derived.decimalDigits = true) by (vm_compute; reflexivity).
  rewrite forallb_forall in Hall. specialize (Hall a Ha).
  rewrite forallb_forall in Hall. now apply Hall.
Qed.

Lemma seq_In {A B : Type} (m : Regex.matcher A) (k : A -> Regex.matcher B)
    (s r' : string) (b : B) :
  In (b, r') (Regex.seq m k s) ->
  exists a r, In (a, r) (m s) /\ In (b, r') (k a r).
Proof.
  unfold Regex.seq. intros H. apply in_flat_map in H.
  destruct H as ([a r] & Hin & Hk). now exists a, r.
Qed.

Lemma digit_In (s r : string) (a : ascii) :
  In (a, r) (Regex.digit s) -> Js.is_digit a = true.
Proof.
  unfold Regex.digit. destruct s as [|c s']; [contradiction|].
  destruct (Js.is_digit c) eqn:E; [|contradiction].
  intros [H | []]. now inversion H; subst.
Qed.

Lemma digits2_In (s r g : string) :
  In (g, r) (Regex.digits2 s) -> Derived.parsesBelow100 g = true.
Proof.
  unfold Regex.digits2. intros H.
  apply seq_In in H. destruct H as (a & r1 & Ha & H).
  apply seq_In in H. destruct H as (b & r2 & Hb & H).
  destruct H as [H | []]. inversion H; subst.
  apply two_digits_parse; eapply digit_In; eassumption.
Qed.

Lemma digits1_2_In (s r g : string) :
  In (g, r) (Regex.digits1_2 s) -> Derived.parsesBelow100 g = true.
Proof.
  unfold Regex.digits1_2, Regex.alt. intros H. apply in_app_or in H.
  destruct H as [H | H]; [now apply digits2_In in H|].
  apply seq_In in H. destruct H as (a & r1 & Ha & H).
  destruct H as [H | []]. inversion H; subst.
  apply one_digit_parses. eapply digit_In; eassumption.
Qed.

Lemma exec_In {A : Type} (re : Regex.matcher A) (s : string) (a : A) :
  Regex.exec re s = Some a -> exists s' r, In (a, r) (re s').
Proof.
  induction s as [|c s IH]; cbn [Regex.exec].
  - destruct (re EmptyString) as [|[x r] rest] eqn:E; [discriminate|].
    intros H. inversion H; subst. exists EmptyString, r. rewrite E. now left.
  - destruct (re (String c s)) as [|[x r] rest] eqn:E; [exact IH|].
    intros H. inversion H; subst. exists (String c s), r. rewrite E. now left.
Qed.

Lemma timeRangePattern_In (s r : string) (m : HoursParser.captures) :
  In (m, r) (HoursParser.timeRangePattern s) ->
  Derived.parsesBelow100 (HoursParser.group1 m) = true
  /\ Derived.parsesBelow100 (HoursParser.group2 m) = true
  /\ Derived.parsesBelow100 (HoursParser.group3 m) = true
  /\ Derived.parsesBelow100 (HoursParser.group4 m) = true.
Proof.
  unfold HoursParser.timeRangePattern. intros H.
  apply seq_In in H. destruct H as (g1 & r1 & H1 & H).
  apply seq_In in H. destruct H as (u2 & r2 & _ & H).
  apply seq_In in H. destruct H as (g2 & r3 & H2 & H).
  apply seq_In in H. destruct H as (u4 & r4 & _ & H).
  apply seq_In in H. destruct H as (u5 & r5 & _ & H).
  apply seq_In in H. destruct H as (g3 & r6 & H3 & H).
  apply seq_In in H. destruct H as (u7 & r7 & _ & H).
  apply seq_In in H. destruct H as (g4 & r8 & H4 & H).
  apply seq_In in H. destruct H as (u9 & r9 & _ & H).
  destruct H as [H | []]. inversion H; subst. cbn.
  apply digits1_2_In in H1, H3. apply digits2_In in H2, H4. tauto.
Qed.

Lemma parsesBelow100_value (g : string) :
  Derived.parsesBelow100 g = true ->
  exists n, Js.parseInt g = Some n /\ HoursParser.parseGroup g = n /\ 0 <= n <= 99.
Proof.
  unfold Derived.parsesBelow100, HoursParser.parseGroup.
  destruct (Js.parseInt g) as [n|]; [|discriminate].
  intros H. apply andb_prop in H. destruct H as [H1 H2].
  exists n. repeat split; lia.
Qed.

(** X5. Whenever the pattern matches, [parseInt] of each capture group is a
    number (never NaN): hours and minutes from 0 to 99, so that open and
    close minute lie between 0 and 6039. *)
Theorem captures_always_parse :
  forall (text : string) (m : HoursParser.captures),
    Regex.exec HoursParser.timeRangePattern text = Some m ->
    (exists oh om ch cm,
        Js.parseInt (HoursParser.group1 m) = Some oh
        /\ Js.parseInt (HoursParser.group2 m) = Some om
        /\ Js.parseInt (HoursParser.group3 m) = Some ch
        /\ Js.parseInt (HoursParser.group4 m) = Some cm
        /\ 0 <= oh <= 99 /\ 0 <= om <= 99 /\ 0 <= ch <= 99 /\ 0 <= cm <= 99)
    /\ 0 <= Reference.openMinute m <= 6039
    /\ 0 <= Reference.closeMinute m <= 6039.
Proof.
  intros text m Hexec. apply exec_In in Hexec. destruct Hexec as (s' & r & Hin).
  apply timeRangePattern_In in Hin. destruct Hin as (H1 & H2 & H3 & H4).
  apply parsesBelow100_value in H1, H2, H3, H4.
  destruct H1 as (oh & Poh & Goh & Hoh), H2 as (om & Pom & Gom & Hom),
           H3 as (ch & Pch & Gch & Hch), H4 as (cm & Pcm & Gcm & Hcm).
  split.
  - exists oh, om, ch, cm. tauto.
  - unfold Reference.openMinute, Reference.closeMinute.
    rewrite Goh, Gom, Gch, Gcm. lia.
Qed.

Lemma captures_always_parse_witness :
  0 <= Reference.openMinute (HoursParser.mkCaptures "18" "00" "2" "00") <= 6039
  /\ 0 <= Reference.closeMinute (HoursParser.mkCaptures "18" "00" "2" "00") <= 6039.
Proof.
  exact (proj2 (captures_always_parse "月曜日: 18時00分〜2時00分"
                  (HoursParser.mkCaptures "18" "00" "2" "00") eq_refl)).
Defined.

(* ------------------------------------------------------------------ *)
(** ** Further properties of the congestion heuristic *)

Lemma timeScore_facts (h d : Z) :
  1 <= Reference.timeScore h d <= 4
  /\ (Reference.timeScore h d = 1 <-> 14 <= h <= 17 /\ d <> 0 /\ d <> 6)
  /\ ((11 <= h <= 13 \/ 18 <= h <= 20) /\ (d = 0 \/ d = 6) ->
      Reference.timeScore h d = 4).
Proof.
  unfold Reference.timeScore.
  destruct (Z.leb_spec 11 h), (Z.leb_spec h 13), (Z.leb_spec 18 h), (Z.leb_spec h 20),
           (Z.leb_spec 14 h), (Z.leb_spec h 17), (Z.eqb_spec d 6), (Z.eqb_spec d 0);
    cbn [andb orb]; repeat split; intros; lia.
Qed.

Lemma countScore_facts (c : Z) :
  0 <= Reference.countScore c <= 3
  /\ (Reference.countScore c = 0 <-> c <= 30)
  /\ (100 < c -> 2 <= Reference.countScore c).
Proof.
  unfold Reference.countScore.
  destruct (Z.ltb_spec 500 c), (Z.ltb_spec 100 c), (Z.ltb_spec 30 c);
    repeat split; intros; lia.
Qed.

Lemma countScore_mono (c c' : Z) :
  c <= c' -> Reference.countScore c <= Reference.countScore c'.
Proof.
  unfold Reference.countScore. intros H.
  destruct (Z.ltb_spec 500 c), (Z.ltb_spec 100 c), (Z.ltb_spec 30 c),
           (Z.ltb_spec 500 c'), (Z.ltb_spec 100 c'), (Z.ltb_spec 30 c'); lia.
Qed.

Lemma severity_verdictOf (total : Z) :
  Derived.severity (Reference.verdictOf total)
  = if 6 <=? total then 3 else if 4 <=? total then 2 else if 2 <=? total then 1 else 0.
Proof.
  unfold Reference.verdictOf.
  destruct (6 <=? total), (4 <=? total), (2 <=? total); reflexivity.
Qed.

Lemma level_verdictOf_empty (total : Z) :
  PlacesService.level (Reference.verdictOf total) = "empty"%string <-> total < 2.
Proof.
  unfold Reference.verdictOf.
  destruct (Z.leb_spec 6 total), (Z.leb_spec 4 total), (Z.leb_spec 2 total);
    cbn; split; intros; try lia; try discriminate; reflexivity.
Qed.

(** X7. The verdict is "empty" exactly at an off-peak hour (14 to 17) of a
    weekday for a place with at most 30 ratings whose rating, 3.0 when
    absent, is below 4.3; it is never "high" for a place with at most 30
    ratings and a rating below 4.3, and always "high" at a peak hour of a
    weekend day for a place with more than 100 ratings. *)
Theorem congestion_extremes :
  forall (place : Api.place) (w : World),
    let h := getHours (Reference.now w) in
    let d := getDay (Reference.now w) in
    let c := Js.or_int (Api.user_ratings_total place) 0 in
    let r := Js.or_num (Api.rating place) (3 # 1) in
    let verdict := fst (PlacesService.estimateCongestion place w) in
    (PlacesService.level verdict = "empty"%string <->
     14 <= h <= 17 /\ d <> 0 /\ d <> 6 /\ c <= 30 /\ (r < 43 # 10)%Q)
    /\ (c <= 30 -> (r < 43 # 10)%Q -> Derived.severity verdict <= 2)
    /\ ((11 <= h <= 13 \/ 18 <= h <= 20) -> (d = 0 \/ d = 6) -> 100 < c ->
        verdict = Reference.high).
Proof.
  intros place w h d c r verdict. subst verdict.
  rewrite estimateCongestion_eq. cbn [fst]. fold h d c r.
  pose proof (timeScore_facts h d) as (Ht & Ht1 & Ht4).
  pose proof (countScore_facts c) as (Hc & Hc0 & Hc2).
  assert (Hr : Qle_bool (43 # 10) r = false <-> (r < 43 # 10)%Q).
  { split.
    - intros H. apply Qnot_le_lt. intros Hle. apply Qle_bool_iff in Hle. congruence.
    - intros H. apply not_true_is_false. intros Hle. apply Qle_bool_iff in Hle.
      revert Hle. now apply Qlt_not_le. }
  split; [|split].
  - rewrite level_verdictOf_empty.
    destruct (Qle_bool (43 # 10) r); split.
    + intros H. lia.
    + intros (_ & _ & _ & _ & H). apply Hr in H. discriminate.
    + intros H. assert (Reference.timeScore h d = 1) as E1 by lia.
      assert (Reference.countScore c = 0) as E0 by lia.
      apply Ht1 in E1. apply Hc0 in E0. destruct Hr as [Hr _]. intuition.
    + intros (Hh & Hd0 & Hd6 & Hc30 & _).
      assert (Reference.timeScore h d = 1) as E1 by (apply Ht1; tauto).
      assert (Reference.countScore c = 0) as E0 by (now apply Hc0).
      lia.
  - intros Hc30 Hlt. apply Hr in Hlt. rewrite Hlt, severity_verdictOf.
    apply Hc0 in Hc30.
    set (total := Reference.timeScore h d + (Reference.countScore c + 0)).
    destruct (Z.leb_spec 6 total); [subst total; lia|].
    destruct (4 <=? total), (2 <=? total); lia.
  - intros Hh Hd H100. specialize (Ht4 (conj Hh Hd)). specialize (Hc2 H100).
    unfold Reference.verdictOf.
    destruct (Z.leb_spec 6 (Reference.timeScore h d
                + (Reference.countScore c + (if Qle_bool (43 # 10) r then 1 else 0))));
      [reflexivity|].
    destruct (Qle_bool (43 # 10) r); lia.
Qed.

Lemma congestion_extremes_witness :
  fst (PlacesService.estimateCongestion (Reference.venue None (Some 101))
         (frozen (mkDate 0 19 30) 0)) = Reference.high
  /\ Derived.severity
       (fst (PlacesService.estimateCongestion (Reference.venue (Some (42 # 10)) (Some 30))
               (frozen (mkDate 6 12 0) 0))) <= 2.
Proof.
  split.
  - refine (proj2 (proj2 (congestion_extremes (Reference.venue None (Some 101))
                            (frozen (mkDate 0 19 30) 0))) _ _ _); simpl; lia.
  - refine (proj1 (proj2 (congestion_extremes (Reference.venue (Some (42 # 10)) (Some 30))
                            (frozen (mkDate 6 12 0) 0))) _ _).
    + simpl. lia.
    + reflexivity.
Defined.

(** X8. At one instant, a place with at least as many ratings and at least as
    high a rating (3.0 standing for an absent one) is never judged less
    crowded. *)
Theorem congestion_monotone :
  forall (place place' : Api.place) (w : World),
    Js.or_int (Api.user_ratings_total place) 0
    <= Js.or_int (Api.user_ratings_total place') 0 ->
    (Js.or_num (Api.rating place) (3 # 1) <= Js.or_num (Api.rating place') (3 # 1))%Q ->
    Derived.severity (fst (PlacesService.estimateCongestion place w))
    <= Derived.severity (fst (PlacesService.estimateCongestion place' w)).
Proof.
  intros place place' w Hc Hr.
  rewrite !estimateCongestion_eq. cbn [fst]. rewrite !severity_verdictOf.
  apply countScore_mono in Hc.
  set (t := Reference.timeScore _ _).
  set (s := Reference.countScore (Js.or_int (Api.user_ratings_total place) 0)) in *.
  set (s' := Reference.countScore (Js.or_int (Api.user_ratings_total place') 0)) in *.
  assert (Hb : (if Qle_bool (43 # 10) (Js.or_num (Api.rating place) (3 # 1))
                then 1 else 0)
               <= (if Qle_bool (43 # 10) (Js.or_num (Api.rating place') (3 # 1))
                   then 1 else 0)).
  { destruct (Qle_bool (43 # 10) (Js.or_num (Api.rating place) (3 # 1))) eqn:E,
             (Qle_bool (43 # 10) (Js.or_num (Api.rating place') (3 # 1))) eqn:E';
      try (cbv; discriminate).
    exfalso. apply Qle_bool_iff in E.
    assert (E2 : Qle_bool (43 # 10) (Js.or_num (Api.rating place') (3 # 1)) = true).
    { apply Qle_bool_iff. eapply Qle_trans; eassumption. }
    congruence. }
  set (b := if Qle_bool _ (Js.or_num (Api.rating place) _) then 1 else 0) in *.
  set (b' := if Qle_bool _ (Js.or_num (Api.rating place') _) then 1 else 0) in *.
  destruct (Z.leb_spec 6 (t + (s + b))), (Z.leb_spec 4 (t + (s + b))),
           (Z.leb_spec 2 (t + (s + b))), (Z.leb_spec 6 (t + (s' + b'))),
           (Z.leb_spec 4 (t + (s' + b'))), (Z.leb_spec 2 (t + (s' + b'))); lia.
Qed.

Lemma congestion_monotone_witness :
  Derived.severity
    (fst (PlacesService.estimateCongestion (Reference.venue None (Some 50))
            (frozen (mkDate 2 12 0) 0)))
  <= Derived.severity
       (fst (PlacesService.estimateCongestion (Reference.venue (Some (45 # 10)) (Some 700))
               (frozen (mkDate 2 12 0) 0))).
Proof.
  apply congestion_monotone.
  - simpl. lia.
  - vm_compute. discriminate.
Defined.

(* ------------------------------------------------------------------ *)
(** ** Sorting a sorted array, and sorting before or after filtering *)

Section SortMore.

Context {A : Type} (comparefn : A -> A -> Q).

Local Abbreviation before := (Reference.notAfter comparefn).

Hypothesis before_total : forall x y, before x y = true \/ before y x = true.
Hypothesis before_trans :
  forall x y z, before x y = true -> before y z = true -> before x z = true.

Lemma insert_head (x : A) (l : list A) :
  Forall (fun z => before x z = true) l -> Js.insert comparefn x l = x :: l.
Proof.
  intros H. destruct l as [|y rest]; [reflexivity|].
  inversion H as [|? ? Hxy _]; subst. cbn [Js.insert].
  unfold Reference.notAfter in Hxy. now rewrite Hxy.
Qed.

Lemma sort_sorted_id (l : list A) :
  StronglySorted (fun a b => before a b = true) l -> Js.sort comparefn l = l.
Proof.
  induction 1 as [|x rest Hsorted IH Hall]; [reflexivity|].
  cbn [Js.sort]. rewrite IH. now apply insert_head.
Qed.

Lemma sort_idempotent (l : list A) :
  Js.sort comparefn (Js.sort comparefn l) = Js.sort comparefn l.
Proof. apply sort_sorted_id. now apply sort_sorted. Qed.

Lemma filter_insert (p : A -> bool) (x : A) (l : list A) :
  StronglySorted (fun a b => before a b = true) l ->
  filter p (Js.insert comparefn x l)
  = if p x then Js.insert comparefn x (filter p l) else filter p l.
Proof.
  induction 1 as [|y rest Hsorted IH Hall].
  - cbn. destruct (p x); reflexivity.
  - cbn [Js.insert]. fold (before x y). destruct (before x y) eqn:Hxy.
    + assert (Hall' : Forall (fun z => before x z = true) (y :: rest)).
      { constructor; [assumption|].
        eapply Forall_impl; [|exact Hall]. intros z Hyz.
        now apply before_trans with y. }
      remember (y :: rest) as l' eqn:El'.
      cbn [filter]. destruct (p x); [|reflexivity].
      symmetry. apply insert_head.
      rewrite Forall_forall in *. intros z Hz.
      apply Hall'. apply filter_In in Hz. tauto.
    + cbn [filter]. rewrite IH.
      destruct (p x), (p y); try reflexivity.
      cbn [Js.insert]. fold (before x y). now rewrite Hxy.
Qed.

Lemma filter_sort (p : A -> bool) (l : list A) :
  filter p (Js.sort comparefn l) = Js.sort comparefn (filter p l).
Proof.
  induction l as [|x rest IH]; [reflexivity|].
  cbn [Js.sort filter].
  rewrite filter_insert by (now apply sort_sorted).
  rewrite IH. destruct (p x); reflexivity.
Qed.

End SortMore.

Lemma byRating_total (x y : PlacesService.Place) :
  Reference.notAfter PlacesService.byRating x y = true
  \/ Reference.notAfter PlacesService.byRating y x = true.
Proof. rewrite !byRating_notAfter. apply ranksBefore_total. Qed.

Lemma byRating_trans (x y z : PlacesService.Place) :
  Reference.notAfter PlacesService.byRating x y = true ->
  Reference.notAfter PlacesService.byRating y z = true ->
  Reference.notAfter PlacesService.byRating x z = true.
Proof. rewrite !byRating_notAfter. apply ranksBefore_trans. Qed.

Lemma filterStage_filter (filters : PlacesService.Filters)
    (places : list PlacesService.Place) :
  PlacesService.filterStage filters places = filter (Reference.keeps filters) places.
Proof.
  unfold PlacesService.filterStage, Reference.keeps.
  destruct (PlacesService.budgetRange filters) as [range|].
  - rewrite !filter_twice. apply filter_ext. intros p.
    unfold PlacesService.withinPrice. rewrite ?andb_assoc.
    destruct (PlacesService.priceLevel p) as [tier|]; [|reflexivity].
    now rewrite Z.geb_leb.
  - rewrite filter_twice. apply filter_ext. intros p. now rewrite andb_true_r.
Qed.

(** X9. Sorting an already sorted list changes nothing, and the pipeline gives
    the same list whether the candidates are filtered before they are sorted
    (as the code does) or after. *)
Theorem sort_and_filter_commute :
  forall (filters : PlacesService.Filters) (places : list PlacesService.Place),
    PlacesService.sortStage (PlacesService.sortStage places)
    = PlacesService.sortStage places
    /\ PlacesService.sortStage (PlacesService.filterStage filters places)
       = PlacesService.filterStage filters (PlacesService.sortStage places)
    /\ PlacesService.filterStage filters (PlacesService.filterStage filters places)
       = PlacesService.filterStage filters places.
Proof.
  intros filters places. unfold PlacesService.sortStage.
  split; [|split].
  - apply sort_idempotent; [apply byRating_total | apply byRating_trans].
  - rewrite !filterStage_filter. symmetry.
    apply filter_sort; [apply byRating_total | apply byRating_trans].
  - rewrite !filterStage_filter, filter_twice. apply filter_ext.
    intros p. now destruct (Reference.keeps filters p).
Qed.

(* ------------------------------------------------------------------ *)
(** ** What a search returns *)

Section SearchResults.

Variable calculateDistance : Q -> Q -> Q -> Q -> Q.
Variable location : PlacesService.LatLng.
Variable filters : PlacesService.Filters.

Local Abbreviation format :=
  (fun place => PlacesService.formatPlace calculateDistance place location).

Lemma formatPlace_fields (raw : Api.place) (w : World) :
  let p := fst (format raw w) in
  PlacesService.id p = Api.place_id raw
  /\ PlacesService.isOpen p
     = match Api.opening_hours raw with
       | Some (Api.Returns v) => v
       | _ => None
       end
  /\ PlacesService.distance p
     = calculateDistance (PlacesService.lat_ location) (PlacesService.lng_ location)
         (Api.geometry_lat raw) (Api.geometry_lng raw)
  /\ PlacesService.priceLevel p = Api.price_level raw
  /\ snd (format raw w) = mkWorld (clock w) (S (ticks w)).
Proof.
  unfold PlacesService.formatPlace, bind, ret.
  rewrite estimateCongestion_eq. cbn.
  repeat split.
Qed.

Lemma mapM_format_world (results : list Api.place) (w : World) :
  snd (mapM format results w)
  = mkWorld (clock w) (List.length results + ticks w).
Proof.
  revert w. induction results as [|raw rest IH]; intros w.
  - destruct w; reflexivity.
  - cbn [mapM]. unfold bind at 1.
    destruct (format raw w) as [p w1] eqn:E.
    pose proof (formatPlace_fields raw w) as (_ & _ & _ & _ & Hw).
    rewrite E in Hw. cbn [snd] in Hw. subst w1.
    unfold bind. specialize (IH (mkWorld (clock w) (S (ticks w)))).
    destruct (mapM format rest _) as [ys w2]. cbn [snd ret] in *.
    unfold ret. cbn [snd]. rewrite IH. cbn [clock ticks List.length]. f_equal. lia.
Qed.

Lemma mapM_format_In (results : list Api.place) (w : World) (p : PlacesService.Place) :
  In p (fst (mapM format results w)) ->
  exists raw w0, In raw results /\ p = fst (format raw w0).
Proof.
  revert w. induction results as [|raw rest IH]; intros w; [contradiction|].
  cbn [mapM]. unfold bind at 1.
  destruct (format raw w) as [q w1] eqn:E. unfold bind.
  destruct (mapM format rest w1) as [ys w2] eqn:E2. unfold ret.
  cbn [fst]. intros [<- | Hin].
  - exists raw, w. rewrite E. split; [now left | reflexivity].
  - specialize (IH w1). rewrite E2 in IH. cbn [fst] in IH.
    destruct (IH Hin) as (raw' & w0 & Hraw & Hp).
    exists raw', w0. split; [now right | exact Hp].
Qed.

Lemma mapM_format_complete (results : list Api.place) (w : World) (raw : Api.place) :
  In raw results ->
  exists w0, In (fst (format raw w0)) (fst (mapM format results w)).
Proof.
  revert w. induction results as [|raw' rest IH]; intros w; [contradiction|].
  cbn [mapM]. unfold bind at 1.
  destruct (format raw' w) as [q w1] eqn:E. unfold bind.
  destruct (mapM format rest w1) as [ys w2] eqn:E2. unfold ret. cbn [fst].
  intros [<- | Hin].
  - exists w. rewrite E. now left.
  - destruct (IH w1 Hin) as [w0 H]. rewrite E2 in H. exists w0. now right.
Qed.

Lemma mapM_format_length (results : list Api.place) (w : World) :
  List.length (fst (mapM format results w)) = List.length results.
Proof.
  revert w. induction results as [|raw rest IH]; intros w; [reflexivity|].
  cbn [mapM]. unfold bind at 1.
  destruct (format raw w) as [q w1]. unfold bind.
  specialize (IH w1). destruct (mapM format rest w1) as [ys w2]. unfold ret.
  cbn [fst List.length] in *. now rewrite IH.
Qed.

Lemma keeps_raw (raw : Api.place) (w0 : World) :
  Reference.keeps filters (fst (format raw w0)) = true <->
  Api.opening_hours raw = Some (Api.Returns (Some true))
  /\ (calculateDistance (PlacesService.lat_ location) (PlacesService.lng_ location)
        (Api.geometry_lat raw) (Api.geometry_lng raw)
      <= inject_Z (PlacesService.radius filters))%Q
  /\ (forall range,
        PlacesService.budgetRange filters = Some range ->
        Api.price_level raw = None
        \/ exists tier,
            Api.price_level raw = Some tier
            /\ PlacesService.min range <= tier <= PlacesService.max range).
Proof.
  pose proof (formatPlace_fields raw w0) as (_ & Hopen & Hdist & Hprice & _).
  cbv zeta in *. unfold Reference.keeps.
  rewrite Hopen, Hdist, Hprice, !andb_true_iff, Qle_bool_iff.
  split.
  - intros ((Ho & Hd) & Hp). split; [|split; [exact Hd|]].
    + destruct (Api.opening_hours raw) as [[[[|]|]|]|]; congruence.
    + intros range Hrange. rewrite Hrange in Hp.
      destruct (Api.price_level raw) as [tier|]; [right | now left].
      exists tier. split; [reflexivity | lia].
  - intros (Ho & Hd & Hp). rewrite Ho. split; [split; [reflexivity | exact Hd]|].
    destruct (PlacesService.budgetRange filters) as [range|]; [|reflexivity].
    destruct (Hp range eq_refl) as [-> | (tier & -> & Htier)]; [reflexivity | lia].
Qed.

(** X10. Every place a search returns comes from a raw result whose [isOpen()]
    returned [true] (not one without opening hours, nor one whose call
    threw or returned [false] or [undefined]), lies within the radius and
    fits the budget; every raw result that does all this is returned; one
    clock reading is taken per raw result. *)
Theorem rank_sound_and_complete :
  forall (results : list Api.place) (w : World),
    let out := PlacesService.rank calculateDistance location filters results w in
    let fits raw :=
      Api.opening_hours raw = Some (Api.Returns (Some true))
      /\ (calculateDistance (PlacesService.lat_ location) (PlacesService.lng_ location)
            (Api.geometry_lat raw) (Api.geometry_lng raw)
          <= inject_Z (PlacesService.radius filters))%Q
      /\ (forall range,
            PlacesService.budgetRange filters = Some range ->
            Api.price_level raw = None
            \/ exists tier,
                Api.price_level raw = Some tier
                /\ PlacesService.min range <= tier <= PlacesService.max range) in
    (forall p, In p (fst out) ->
       exists raw, In raw results /\ PlacesService.id p = Api.place_id raw /\ fits raw)
    /\ (forall raw, In raw results -> fits raw ->
       exists p, In p (fst out) /\ PlacesService.id p = Api.place_id raw)
    /\ (List.length (fst out) <= List.length results)%nat
    /\ ticks (snd out) = (List.length results + ticks w)%nat.
Proof.
  intros results w out fits. subst out.
  unfold PlacesService.rank, bind, ret.
  destruct (mapM format results w) as [places w'] eqn:E. cbn [fst snd].
  assert (Hsort : forall p,
             In p (PlacesService.sortStage (PlacesService.filterStage filters places))
             <-> In p places /\ Reference.keeps filters p = true).
  { intros p. rewrite filterStage_filter, <- filter_In.
    unfold PlacesService.sortStage. split; apply Permutation_in.
    - apply sort_perm.
    - apply Permutation_sym, sort_perm. }
  split; [|split; [|split]].
  - intros p Hin. apply Hsort in Hin. destruct Hin as [Hin Hkeep].
    assert (Hin' : In p (fst (mapM format results w))) by now rewrite E.
    apply mapM_format_In in Hin'. destruct Hin' as (raw & w0 & Hraw & ->).
    exists raw. split; [exact Hraw|]. split.
    + apply (formatPlace_fields raw w0).
    + now apply keeps_raw in Hkeep.
  - intros raw Hraw Hfits.
    destruct (mapM_format_complete results w raw Hraw) as [w0 Hin].
    rewrite E in Hin. cbn [fst] in Hin.
    exists (fst (format raw w0)). split.
    + apply Hsort. split; [exact Hin|]. now apply keeps_raw.
    + apply (formatPlace_fields raw w0).
  - pose proof (mapM_format_length results w) as Hlen. rewrite E in Hlen.
    cbn [fst] in Hlen. rewrite <- Hlen.
    unfold PlacesService.sortStage.
    rewrite (Permutation_length (sort_perm _ _)), filterStage_filter.
    apply filter_length_le.
  - pose proof (mapM_format_world results w) as Hw. rewrite E in Hw.
    cbn [snd] in Hw. now rewrite Hw.
Qed.

End SearchResults.

Lemma rank_sound_and_complete_witness :
  exists p,
    In p (fst (PlacesService.rank Reference.flatEarth Reference.here
                 Reference.initialFilters
                 [Reference.venue (Some (4 # 1)) (Some 50);
                  Reference.openVenue (Some (4 # 1)) (Some 50)]
                 (frozen (mkDate 2 12 0) 0)))
    /\ PlacesService.id p = "id"%string.
Proof.
  refine (proj1 (proj2 (rank_sound_and_complete Reference.flatEarth Reference.here
                          Reference.initialFilters
                          [Reference.venue (Some (4 # 1)) (Some 50);
                           Reference.openVenue (Some (4 # 1)) (Some 50)]
                          (frozen (mkDate 2 12 0) 0)))
            (Reference.openVenue (Some (4 # 1)) (Some 50)) _ _).
  - simpl. tauto.
  - split; [reflexivity|]. split; [vm_compute; discriminate|].
    intros range H. vm_compute in H. discriminate.
Defined.

(** X11. A search resolves exactly when the service answers OK with a result
    array or answers ZERO_RESULTS (then with no place); an OK answer without
    results is rejected with the general message; without an initialised
    service the search is rejected before any request and any clock reading;
    the messages for a denied request and for an exceeded quota differ from
    each other and from the general one. *)
Theorem searchNearby_settles :
  forall calculateDistance
         (service : option (PlacesService.Request -> option (list Api.place) * string))
         (location : PlacesService.LatLng) (filters : PlacesService.Filters) (w : World),
    let run := PlacesService.searchNearby calculateDistance service location filters w in
    (service = None ->
     run = (PlacesService.Reject
              "Places APIが初期化されていません。ページを再読み込みしてください。", w))
    /\ (forall nearbySearch results status,
          service = Some nearbySearch ->
          nearbySearch (PlacesService.buildRequest location filters) = (results, status) ->
          ((exists places, fst run = PlacesService.Resolve places) <->
           (status = "OK"%string /\ results <> None) \/ status = "ZERO_RESULTS"%string)
          /\ (status = "ZERO_RESULTS"%string -> run = (PlacesService.Resolve [], w))
          /\ (status = "OK"%string -> results = None ->
              run = (PlacesService.Reject "お店の検索に失敗しました。", w)))
    /\ PlacesService.errorMessage "REQUEST_DENIED" <> PlacesService.errorMessage "OVER_QUERY_LIMIT"
    /\ PlacesService.errorMessage "REQUEST_DENIED" <> PlacesService.errorMessage "UNKNOWN_ERROR"
    /\ PlacesService.errorMessage "OVER_QUERY_LIMIT" <> PlacesService.errorMessage "UNKNOWN_ERROR".
Proof.
  intros calc service location filters w run. subst run.
  split; [|split; [|repeat split; vm_compute; discriminate]].
  - intros ->. reflexivity.
  - intros nearbySearch results status -> Hcall.
    unfold PlacesService.searchNearby. rewrite Hcall.
    unfold PlacesService.onResults.
    destruct (String.eqb_spec status "OK") as [-> | Hok].
    + destruct results as [results|].
      * unfold bind, ret.
        destruct (PlacesService.rank calc location filters results w) as [places w'].
        cbn [fst]. split; [|split].
        -- split; [intros _; left; split; [reflexivity | discriminate]
                  | intros _; now exists places].
        -- discriminate.
        -- discriminate.
      * cbn. split; [|split].
        -- split; [intros [places H]; discriminate
                  | intros [[_ H] | H]; [contradiction | discriminate]].
        -- discriminate.
        -- reflexivity.
    + destruct (String.eqb_spec status "ZERO_RESULTS") as [-> | Hzero].
      * cbn. split; [|split].
        -- split; [intros _; now right | intros _; now exists []].
        -- reflexivity.
        -- discriminate.
      * cbn. split; [|split].
        -- split; [intros [places H]; discriminate
                  | intros [[H _] | H]; contradiction].
        -- intros H; contradiction.
        -- intros H; contradiction.
Qed.

Lemma searchNearby_settles_witness :
  PlacesService.searchNearby Reference.flatEarth None Reference.here
    Reference.initialFilters (frozen (mkDate 2 12 0) 0)
  = (PlacesService.Reject
       "Places APIが初期化されていません。ページを再読み込みしてください。",
     frozen (mkDate 2 12 0) 0)
  /\ PlacesService.searchNearby Reference.flatEarth
       (Some (fun _ => (None, "OK"%string))) Reference.here
       Reference.initialFilters (frozen (mkDate 2 12 0) 0)
     = (PlacesService.Reject "お店の検索に失敗しました。", frozen (mkDate 2 12 0) 0).
Proof.
  split.
  - exact (proj1 (searchNearby_settles Reference.flatEarth None Reference.here
                    Reference.initialFilters (frozen (mkDate 2 12 0) 0)) eq_refl).
  - exact (proj2 (proj2 (proj1 (proj2
             (searchNearby_settles Reference.flatEarth
                (Some (fun _ => (None, "OK"%string))) Reference.here
                Reference.initialFilters (frozen (mkDate 2 12 0) 0)))
             (fun _ => (None, "OK"%string)) None "OK"%string eq_refl eq_refl))
             eq_refl eq_refl).
Defined.

(* ------------------------------------------------------------------ *)
(** ** Further properties of the review scans *)

Lemma addCapped_extends (tags found : list string) :
  exists more, fold_left Reference.addCapped tags found = (found ++ more)%list.
Proof.
  revert found. induction tags as [|t rest IH]; intros found.
  - exists []. now rewrite app_nil_r.
  - cbn [fold_left]. destruct (IH (Reference.addCapped found t)) as [more ->].
    unfold Reference.addCapped, PlacesService.set_add.
    destruct (_ <? 4); [|now exists more].
    destruct (PlacesService.set_has found t); [now exists more|].
    exists (t :: more). now rewrite <- app_assoc.
Qed.

(** X13. Tags only accumulate: the tags of a list of reviews open the tags of
    any longer list that starts with it, and reviews that match no rule
    (those without text among them) can be dropped anywhere without changing
    the result. *)
Theorem extractAtmosphere_accumulates :
  forall (reviews later : list Api.review) (r : Api.review),
    (exists more,
        PlacesService.extractAtmosphereFromReviews (reviews ++ later)
        = (PlacesService.extractAtmosphereFromReviews reviews ++ more)%list)
    /\ (Reference.matchedTags r = [] ->
        PlacesService.extractAtmosphereFromReviews (reviews ++ r :: later)
        = PlacesService.extractAtmosphereFromReviews (reviews ++ later))
    /\ Reference.matchedTags (Api.mkReview None) = []
    /\ Reference.matchedTags (Api.mkReview (Some EmptyString)) = [].
Proof.
  intros reviews later r. split; [|split; [|split; vm_compute; reflexivity]].
  - unfold PlacesService.extractAtmosphereFromReviews.
    rewrite fold_left_app, (reviews_fold later). apply addCapped_extends.
  - intros Hr. rewrite !extract_eq, !flat_map_app. cbn [flat_map].
    now rewrite Hr.
Qed.

Lemma extractAtmosphere_accumulates_witness :
  PlacesService.extractAtmosphereFromReviews
    ([Api.mkReview (Some "個室あり"%string)]
       ++ Api.mkReview (Some "おいしい"%string) :: [Api.mkReview (Some "夜景"%string)])
  = PlacesService.extractAtmosphereFromReviews
      ([Api.mkReview (Some "個室あり"%string)] ++ [Api.mkReview (Some "夜景"%string)]).
Proof.
  apply (proj1 (proj2 (extractAtmosphere_accumulates
                         [Api.mkReview (Some "個室あり"%string)]
                         [Api.mkReview (Some "夜景"%string)]
                         (Api.mkReview (Some "おいしい"%string)))));
    vm_compute; reflexivity.
Defined.

Lemma filter_length_perm {A : Type} (f : A -> bool) (l l' : list A) :
  Permutation l l' -> List.length (filter f l) = List.length (filter f l').
Proof.
  induction 1 as [|x l l' _ IH|x y l|l l' l'' _ IH1 _ IH2]; cbn [filter].
  - reflexivity.
  - destruct (f x); cbn [List.length]; now rewrite IH.
  - destruct (f x), (f y); reflexivity.
  - now rewrite IH1.
Qed.

(** X14. The review-based estimate is unknown when fewer than two reviews are
    given, and it does not depend on the order of the first five reviews. *)
Theorem reviewEstimate_needs_two_and_ignores_order :
  forall reviews reviews' : list Api.review,
    ((List.length reviews < 2)%nat ->
     HoursParser.estimateCongestionFromReviews (Some reviews) = None)
    /\ (Permutation (firstn 5 reviews) (firstn 5 reviews') ->
        HoursParser.estimateCongestionFromReviews (Some reviews)
        = HoursParser.estimateCongestionFromReviews (Some reviews')).
Proof.
  intros reviews reviews'. split.
  - intros Hlen. unfold HoursParser.estimateCongestionFromReviews.
    rewrite reviewCounts_mentionCount.
    destruct (_ =? 0)%nat; [reflexivity|].
    assert (Hb : forall keywords, Reference.mentionCount keywords reviews < 2).
    { intros keywords. unfold Reference.mentionCount.
      pose proof (filter_length_le (Reference.mentions keywords) (firstn 5 reviews)).
      pose proof (length_firstn 5 reviews). lia. }
    pose proof (Hb HoursParser.crowded_keywords).
    pose proof (Hb HoursParser.empty_keywords).
    destruct (Z.geb_spec (Reference.mentionCount HoursParser.crowded_keywords reviews) 2);
      [lia|].
    destruct (Z.geb_spec (Reference.mentionCount HoursParser.empty_keywords reviews) 2);
      [lia|].
    now rewrite !andb_false_r.
  - intros Hperm. unfold HoursParser.estimateCongestionFromReviews.
    rewrite !reviewCounts_mentionCount. unfold Reference.mentionCount.
    rewrite !(filter_length_perm _ _ _ Hperm).
    destruct reviews as [|r rest], reviews' as [|r' rest']; try reflexivity.
    cbn [firstn] in Hperm. apply Permutation_nil in Hperm. discriminate.
Qed.

Lemma reviewEstimate_needs_two_and_ignores_order_witness :
  HoursParser.estimateCongestionFromReviews
    (Some [Api.mkReview (Some "行列と混雑")%string]) = None
  /\ HoursParser.estimateCongestionFromReviews
       (Some [Api.mkReview (Some "行列"%string); Api.mkReview None;
              Api.mkReview (Some "満席"%string)])
     = HoursParser.estimateCongestionFromReviews
         (Some [Api.mkReview None; Api.mkReview (Some "満席"%string);
                Api.mkReview (Some "行列"%string)]).
Proof.
  split.
  - apply (proj1 (reviewEstimate_needs_two_and_ignores_order
                    [Api.mkReview (Some "行列と混雑")%string] [])).
    simpl. lia.
  - apply (proj2 (reviewEstimate_needs_two_and_ignores_order
                    [Api.mkReview (Some "行列"%string); Api.mkReview None;
                     Api.mkReview (Some "満席"%string)]
                    [Api.mkReview None; Api.mkReview (Some "満席"%string);
                     Api.mkReview (Some "行列"%string)])).
    cbn [firstn].
    eapply perm_trans; [apply perm_swap|]. apply perm_skip. apply perm_swap.
Defined.

(* ------------------------------------------------------------------ *)
(** ** The detail view: smoking information *)






(* ------------------------------------------------------------------ *)
(** ** The detail view: type tags and appeal tags *)

Lemma lookup_In {V : Type} (table : list (string * V)) (key : string) (v : V) :
  PlacesService.lookup table key = Some v -> In v (map snd table).
Proof.
  induction table as [|[k x] rest IH]; [discriminate|].
  cbn [PlacesService.lookup map snd]. destruct (String.eqb k key).
  - intros H. inversion H. now left.
  - intros H. right. now apply IH.
Qed.

Lemma typeTag_truthy (type tag : string) :
  PlacesService.lookup Places.ATMOSPHERE_TAGS type = Some tag ->
  Js.truthy_string (Some tag) = true.
Proof.
  intros H. apply lookup_In in H.
  assert (Hall : forallb (fun t => Js.truthy_string (Some t))
                   (map snd Places.ATMOSPHERE_TAGS) = true) by (vm_compute; reflexivity).
  rewrite forallb_forall in Hall. now apply Hall.
Qed.

Lemma typeTags_fold (types tags : list string) :
  fold_left
    (fun tags type =>
       let tag := PlacesService.lookup Places.ATMOSPHERE_TAGS type in
       if Js.truthy_string tag
       then match tag with Some t => (tags ++ [t])%list | None => tags end
       else tags)
    types tags
  = (tags ++ flat_map Derived.typeTag types)%list.
Proof.
  revert tags. induction types as [|type rest IH]; intros tags.
  - cbn. now rewrite app_nil_r.
  - cbn [fold_left flat_map]. rewrite IH. unfold Derived.typeTag at 2.
    destruct (PlacesService.lookup Places.ATMOSPHERE_TAGS type) as [tag|] eqn:E.
    + cbv zeta. rewrite (typeTag_truthy _ _ E). now rewrite <- app_assoc.
    + reflexivity.
Qed.

Lemma getAtmosphereTags_flat (types : list string) :
  Places.getAtmosphereTags (Some types) = flat_map Derived.typeTag types.
Proof.
  unfold Places.getAtmosphereTags. destruct types as [|type rest]; [reflexivity|].
  change (Z.of_nat (List.length (type :: rest)) >? 0) with true. cbn iota.
  now rewrite typeTags_fold.
Qed.

Lemma typeTags_length (types : list string) :
  (List.length (flat_map Derived.typeTag types) <= List.length types)%nat.
Proof.
  induction types as [|type rest IH]; [apply Nat.le_refl|].
  cbn [flat_map]. rewrite length_app. unfold Derived.typeTag at 1.
  destruct (PlacesService.lookup _ type); cbn [List.length]; lia.
Qed.

Lemma lookup_of_entry (type tag : string) :
  In (type, tag) Places.ATMOSPHERE_TAGS ->
  PlacesService.lookup Places.ATMOSPHERE_TAGS type = Some tag.
Proof.
  assert (Hall : forallb
            (fun entry =>
               match PlacesService.lookup Places.ATMOSPHERE_TAGS (fst entry) with
               | Some t => String.eqb t (snd entry)
               | None => false
               end) Places.ATMOSPHERE_TAGS = true) by (vm_compute; reflexivity).
  rewrite forallb_forall in Hall. intros Hin. specialize (Hall _ Hin).
  cbn [fst snd] in Hall.
  destruct (PlacesService.lookup _ type) as [t|]; [|discriminate].
  apply String.eqb_eq in Hall. now subst.
Qed.

(** X16. On place types that are not names of members of [Object.prototype],
    getAtmosphereTags returns, in the order of the types, the tag of each
    type the table knows, once for each time the type is listed: unknown
    types give nothing, so there are never more tags than types, every tag
    is one of the table, every type of the table that is listed gives its
    tag, and an absent or empty list of types gives no tag.  The types
    fine_dining_restaurant, point_of_interest, coffee_shop,
    fine_dining_restaurant give the tags of the first entry, of the last
    and of the first again. *)
Theorem getAtmosphereTags_known_types :
  forall types : list string,
    Domain.plainTypes types = true ->
    Places.getAtmosphereTags (Some types) = flat_map Derived.typeTag types
    /\ (List.length (Places.getAtmosphereTags (Some types)) <= List.length types)%nat
    /\ (forall tag, In tag (Places.getAtmosphereTags (Some types)) ->
          exists type, In type types
                       /\ PlacesService.lookup Places.ATMOSPHERE_TAGS type = Some tag)
    /\ (forall type tag,
          In type types -> In (type, tag) Places.ATMOSPHERE_TAGS ->
          In tag (Places.getAtmosphereTags (Some types)))
    /\ Places.getAtmosphereTags None = []
    /\ Places.getAtmosphereTags (Some []) = []
    /\ Places.getAtmosphereTags
         (Some ["fine_dining_restaurant"; "point_of_interest"; "coffee_shop";
                "fine_dining_restaurant"]%string)
       = ["🌟 高級ダイニング"; "☕ コーヒーショップ"; "🌟 高級ダイニング"]%string.
Proof.
  intros types _. rewrite getAtmosphereTags_flat.
  split; [reflexivity|]. split; [|split; [|split; [|split; [|split]]]];
    try (vm_compute; reflexivity).
  - apply typeTags_length.
  - intros tag Hin. apply in_flat_map in Hin. destruct Hin as (type & Htype & Hin).
    exists type. split; [exact Htype|]. unfold Derived.typeTag in Hin.
    destruct (PlacesService.lookup _ type) as [t|]; [|contradiction].
    destruct Hin as [<- | []]. reflexivity.
  - intros type tag Htype Hentry. apply in_flat_map. exists type.
    split; [exact Htype|]. unfold Derived.typeTag.
    rewrite (lookup_of_entry _ _ Hentry). now left.
Qed.

Lemma getAtmosphereTags_known_types_witness :
  Places.getAtmosphereTags (Some ["bar"; "establishment"; "cafe"; "bar"]%string)
  = ["🥂 バー"; "☕ カフェ"; "🥂 バー"]%string.
Proof.
  exact (proj1 (getAtmosphereTags_known_types
                  ["bar"; "establishment"; "cafe"; "bar"]%string eq_refl)).
Defined.

Lemma extract_in_ruleTags (reviews : list Api.review) (tag : string) :
  In tag (PlacesService.extractAtmosphereFromReviews reviews) -> In tag Reference.ruleTags.
Proof.
  rewrite extract_eq. intros H.
  apply firstn_In, distinct_In, in_flat_map in H. destruct H as (r & _ & H).
  unfold Reference.matchedTags in H. apply in_map_iff in H.
  destruct H as (rule & <- & H). apply filter_In in H.
  apply in_map. tauto.
Qed.

Lemma typeTags_not_ruleTags (types : list string) (tag : string) :
  In tag Reference.ruleTags ->
  existsb (String.eqb tag) (flat_map Derived.typeTag types) = false.
Proof.
  intros Hrule. apply not_true_is_false. intros H.
  apply existsb_exists in H. destruct H as (t & Hin & Heq).
  apply String.eqb_eq in Heq. subst t.
  apply in_flat_map in Hin. destruct Hin as (type & _ & Hin).
  unfold Derived.typeTag in Hin.
  destruct (PlacesService.lookup _ type) as [t|] eqn:E; [|contradiction].
  destruct Hin as [<- | []]. apply lookup_In in E.
  assert (Hall : forallb (fun t => negb (existsb (String.eqb t) Reference.ruleTags))
                   (map snd Places.ATMOSPHERE_TAGS) = true) by (vm_compute; reflexivity).
  rewrite forallb_forall in Hall. specialize (Hall t E).
  apply negb_true_iff in Hall.
  assert (Hex : existsb (String.eqb t) Reference.ruleTags = true).
  { apply existsb_exists. exists t. split; [exact Hrule | apply String.eqb_refl]. }
  congruence.
Qed.

Lemma pushNew_fresh (tags found : list string) :
  NoDup tags ->
  (forall t, In t tags -> existsb (String.eqb t) found = false) ->
  fold_left Modal.pushNew tags found = (found ++ tags)%list.
Proof.
  revert found. induction tags as [|t rest IH]; intros found Hnd Hfresh.
  - cbn. now rewrite app_nil_r.
  - inversion Hnd as [|? ? Hnotin Hrest]; subst.
    cbn [fold_left]. unfold Modal.pushNew at 2.
    rewrite (Hfresh t) by now left.
    rewrite IH; [now rewrite <- app_assoc | exact Hrest |].
    intros u Hu. rewrite existsb_app, (Hfresh u) by now right.
    cbn. rewrite orb_false_r.
    destruct (String.eqb_spec u t) as [-> | _]; [contradiction | reflexivity].
Qed.

(** X17. The appeal tags of the detail view are the line of the editorial
    summary (when there is one), then the tags of the place types, then the
    tags found in the reviews: no review tag is ever lost in the merge,
    since no type tag equals a review tag; there are at most one plus the
    number of types plus four of them. *)
Theorem appealTags_layout :
  forall details : Modal.Details,
    Modal.appealTags details
    = (Derived.summaryLine (Modal.editorialSummary details)
       ++ Places.getAtmosphereTags (Some (Modal.types details))
       ++ PlacesService.extractAtmosphereFromReviews (Modal.reviews details))%list
    /\ (List.length (Modal.appealTags details)
        <= 1 + List.length (Modal.types details) + 4)%nat.
Proof.
  intros details.
  assert (Heq : Modal.appealTags details
    = (Derived.summaryLine (Modal.editorialSummary details)
       ++ Places.getAtmosphereTags (Some (Modal.types details))
       ++ PlacesService.extractAtmosphereFromReviews (Modal.reviews details))%list).
  { unfold Modal.appealTags.
    assert (Hmerge :
      (if Z.of_nat (List.length (Modal.reviews details)) >? 0
       then fold_left Modal.pushNew
              (PlacesService.extractAtmosphereFromReviews (Modal.reviews details))
              (Places.getAtmosphereTags (Some (Modal.types details)))
       else Places.getAtmosphereTags (Some (Modal.types details)))
      = (Places.getAtmosphereTags (Some (Modal.types details))
         ++ PlacesService.extractAtmosphereFromReviews (Modal.reviews details))%list).
    { destruct (Modal.reviews details) as [|r rest] eqn:E.
      - cbn. now rewrite app_nil_r.
      - change (Z.of_nat (List.length (r :: rest)) >? 0) with true. cbn iota.
        apply pushNew_fresh.
        + rewrite extract_eq. apply firstn_NoDup, distinct_NoDup.
        + intros t Ht. rewrite getAtmosphereTags_flat.
          apply typeTags_not_ruleTags. eapply extract_in_ruleTags; eassumption. }
    cbv zeta. rewrite Hmerge.
    destruct (Modal.editorialSummary details) as [[|c rest]|]; reflexivity. }
  split; [exact Heq|].
  rewrite Heq, !length_app, getAtmosphereTags_flat.
  pose proof (typeTags_length (Modal.types details)).
  assert (List.length (PlacesService.extractAtmosphereFromReviews (Modal.reviews details))
          <= 4)%nat.
  { rewrite extract_eq, length_firstn. lia. }
  assert (List.length (Derived.summaryLine (Modal.editorialSummary details)) <= 1)%nat.
  { destruct (Modal.editorialSummary details) as [[|c rest]|]; cbn; lia. }
  lia.
Qed.

(* ------------------------------------------------------------------ *)
(** ** Price labels *)

Lemma formatPriceLevel_nonempty (level : option Z) :
  Places.formatPriceLevel level <> EmptyString
  <-> exists n, level = Some n /\ 0 <= n <= 4.
Proof.
  destruct level as [n|]; cbn [Places.formatPriceLevel].
  2:{ split; [congruence | intros (n & H & _); discriminate]. }
  unfold Js.index. destruct (Z.ltb_spec n 0) as [Hneg | Hpos].
  { cbn. split; [congruence | intros (m & H & Hm); inversion H; lia]. }
  destruct (Z_le_gt_dec n 4) as [Hle | Hgt].
  - assert (n = 0 \/ n = 1 \/ n = 2 \/ n = 3 \/ n = 4) as Hcases by lia.
    split; [intros _; now exists n|]. intros _.
    destruct Hcases as [-> | [-> | [-> | [-> | ->]]]]; cbn; discriminate.
  - assert (Hnone : nth_error Places.labels (Z.to_nat n) = None).
    { apply nth_error_None. cbn. lia. }
    rewrite Hnone. cbn.
    split; [congruence | intros (m & H & Hm); inversion H; lia].
Qed.

Lemma budget_ranges_are_tiers (key : string) (range : PlacesService.priceRange) :
  PlacesService.lookup PlacesService.BUDGET_PRICE_MAP key = Some range ->
  0 <= PlacesService.min range /\ PlacesService.max range <= 4.
Proof.
  intros H. apply lookup_In in H.
  assert (Hall : forallb (fun r => (0 <=? PlacesService.min r) && (PlacesService.max r <=? 4))
                   (map snd PlacesService.BUDGET_PRICE_MAP) = true)
    by (vm_compute; reflexivity).
  rewrite forallb_forall in Hall. specialize (Hall range H).
  apply andb_prop in Hall. lia.
Qed.

(** X18. formatPriceLevel gives a label exactly for the price levels 0 to 4 (an
    absent level, a negative one and one above 4 give the empty string); every
    candidate with a price level that passes a budget filter has a label. *)
Theorem formatPriceLevel_labels :
  (forall level : option Z,
      Places.formatPriceLevel level <> EmptyString
      <-> exists n, level = Some n /\ 0 <= n <= 4)
  /\ (forall (filters : PlacesService.Filters) (places : list PlacesService.Place)
             (p : PlacesService.Place) (tier : Z),
        PlacesService.budgetRange filters <> None ->
        In p (PlacesService.filterStage filters places) ->
        PlacesService.priceLevel p = Some tier ->
        Places.formatPriceLevel (Some tier) <> EmptyString).
Proof.
  split; [apply formatPriceLevel_nonempty|].
  intros filters places p tier Hbudget Hin Htier.
  apply formatPriceLevel_nonempty. exists tier. split; [reflexivity|].
  rewrite filterStage_filter in Hin. apply filter_In in Hin. destruct Hin as [_ Hkeep].
  unfold Reference.keeps in Hkeep.
  destruct (PlacesService.budgetRange filters) as [range|] eqn:E; [|congruence].
  rewrite Htier in Hkeep. apply andb_prop in Hkeep. destruct Hkeep as [_ Hkeep].
  apply andb_prop in Hkeep.
  unfold PlacesService.budgetRange in E.
  destruct (Js.truthy_string _); [|discriminate].
  destruct (PlacesService.budget filters) as [key|]; [|discriminate].
  apply budget_ranges_are_tiers in E. lia.
Qed.

Lemma formatPriceLevel_labels_witness :
  Places.formatPriceLevel (Some 2) <> EmptyString.
Proof.
  refine (proj2 formatPriceLevel_labels
            (PlacesService.mkFilters "cafe" "800" (Some "3000"%string) "any" None)
            [Reference.offer "fits" (Some true) 100 (Some 2)]
            (Reference.offer "fits" (Some true) 100 (Some 2)) 2 _ _ eq_refl).
  - vm_compute. discriminate.
  - vm_compute. now left.
Defined.

(* ------------------------------------------------------------------ *)
(** ** Stars *)

Lemma Qfloor_unique (x : Q) (n : Z) :
  (inject_Z n <= x)%Q -> (x < inject_Z (n + 1))%Q -> Qfloor x = n.
Proof.
  intros Hle Hlt.
  assert (H1 : n <= Qfloor x).
  { rewrite <- (Qfloor_Z n). now apply Qfloor_resp_le. }
  assert (H2 : Qfloor x < n + 1).
  { rewrite Zlt_Qlt. eapply Qle_lt_trans; [apply Qfloor_le | exact Hlt]. }
  lia.
Qed.

Lemma renderStars_cases (f : Z) (half : bool) :
  0 <= f <= 5 -> (half = true -> f <= 4) ->
  let html := Modal.times "★" f in
  let html := if half then (html ++ "★")%string else html in
  (html ++ Modal.times "☆" (5 - (f + (if half then 1 else 0))))%string
  = Derived.stars (f + (if half then 1 else 0)).
Proof.
  intros Hf Hhalf.
  assert (f = 0 \/ f = 1 \/ f = 2 \/ f = 3 \/ f = 4 \/ f = 5) as Hcases by lia.
  destruct half.
  - specialize (Hhalf eq_refl).
    destruct Hcases as [-> | [-> | [-> | [-> | [-> | ->]]]]];
      try reflexivity; lia.
  - destruct Hcases as [-> | [-> | [-> | [-> | [-> | ->]]]]]; reflexivity.
Qed.

(** X19. For a rating from 0 to 5, renderStars draws exactly five stars, of
    which the rating rounded to the nearest integer (halves up) are full: a
    half star is drawn as a full one. *)
Theorem renderStars_rounds :
  forall rating : Q,
    (0 <= rating)%Q -> (rating <= 5)%Q ->
    Modal.renderStars rating = Derived.stars (Qfloor (rating + (1 # 2)))
    /\ 0 <= Qfloor (rating + (1 # 2)) <= 5.
Proof.
  intros rating H0 H5.
  pose proof (Qfloor_le rating) as Hfl. pose proof (Qlt_floor rating) as Hfu.
  set (f := Qfloor rating) in *.
  assert (Hf : 0 <= f <= 5).
  { split.
    - subst f. rewrite <- (Qfloor_Z 0). now apply Qfloor_resp_le.
    - subst f. rewrite <- (Qfloor_Z 5). now apply Qfloor_resp_le. }
  assert (Hrem : Modal.rem1 rating = (rating - inject_Z f)%Q).
  { unfold Modal.rem1. apply Qle_bool_iff in H0. now rewrite H0. }
  assert (Hinj : (inject_Z (f + 1) == inject_Z f + 1)%Q)
    by (rewrite inject_Z_plus; reflexivity).
  unfold Modal.renderStars. fold f. rewrite Hrem.
  destruct (Qle_bool (1 # 2) (rating - inject_Z f)) eqn:Hhalf.
  - apply Qle_bool_iff in Hhalf.
    assert (Hround : Qfloor (rating + (1 # 2)) = f + 1).
    { apply Qfloor_unique.
      - rewrite Hinj. lra.
      - rewrite inject_Z_plus, Hinj. change (inject_Z 1) with 1%Q. lra. }
    assert (Hf4 : f <= 4).
    { assert (Hlt : (inject_Z f < inject_Z 5)%Q).
      { change (inject_Z 5) with 5%Q. lra. }
      rewrite <- Zlt_Qlt in Hlt. lia. }
    rewrite Hround. split; [|lia].
    apply (renderStars_cases f true); [exact Hf | intros _; exact Hf4].
  - assert (Hlt : (rating - inject_Z f < 1 # 2)%Q).
    { apply Qnot_le_lt. intros Hle. apply Qle_bool_iff in Hle. congruence. }
    assert (Hround : Qfloor (rating + (1 # 2)) = f).
    { apply Qfloor_unique; [lra|]. rewrite Hinj. lra. }
    rewrite Hround. split; [|exact Hf].
    pose proof (renderStars_cases f false Hf) as H. cbv zeta in H.
    rewrite Z.add_0_r in *. apply H. discriminate.
Qed.

Lemma renderStars_rounds_witness :
  Modal.renderStars (45 # 10) = "★★★★★"%string
  /\ Modal.renderStars (44 # 10) = "★★★★☆"%string.
Proof.
  split.
  - refine (eq_trans (proj1 (renderStars_rounds (45 # 10) _ _)) _);
      [vm_compute; discriminate | vm_compute; discriminate | reflexivity].
  - refine (eq_trans (proj1 (renderStars_rounds (44 # 10) _ _)) _);
      [vm_compute; discriminate | vm_compute; discriminate | reflexivity].
Defined.

(* ------------------------------------------------------------------ *)
(** ** The filter buttons *)

Lemma activeValues_remove_same (type : string) (bs : list App.button) :
  Derived.activeValues type (App.removeActive type bs) = [].
Proof.
  unfold Derived.activeValues, App.removeActive.
  induction bs as [|b rest IH]; [reflexivity|].
  cbn [map filter]. destruct (String.eqb_spec (App.dataType b) type) as [E | E].
  - cbn [App.dataType App.active]. rewrite andb_false_r. exact IH.
  - destruct (String.eqb_spec (App.dataType b) type); [contradiction|]. exact IH.
Qed.

Lemma activeValues_remove_other (type other : string) (bs : list App.button) :
  type <> other ->
  Derived.activeValues type (App.removeActive other bs) = Derived.activeValues type bs.
Proof.
  intros Hne. unfold Derived.activeValues, App.removeActive.
  induction bs as [|b rest IH]; [reflexivity|].
  cbn [map filter]. destruct (String.eqb_spec (App.dataType b) other) as [E | E].
  - cbn [App.dataType App.active].
    destruct (String.eqb_spec (App.dataType b) type) as [E' | E']; [congruence|].
    exact IH.
  - destruct (String.eqb (App.dataType b) type && App.active b);
      cbn [map]; now rewrite IH.
Qed.

Lemma nth_error_removeActive (type : string) (bs : list App.button) (i : nat)
    (b : App.button) :
  nth_error bs i = Some b ->
  exists b', nth_error (App.removeActive type bs) i = Some b'
             /\ App.dataType b' = App.dataType b
             /\ App.dataValue b' = App.dataValue b.
Proof.
  intros H. unfold App.removeActive. rewrite nth_error_map, H. cbn [option_map].
  destruct (String.eqb (App.dataType b) type); eexists; repeat split.
Qed.

Lemma nth_error_addActive (bs : list App.button) (i : nat) (b : App.button) :
  nth_error bs i = Some b ->
  nth_error (App.addActive i bs) i
  = Some (App.mkButton (App.dataType b) (App.dataValue b) true).
Proof.
  revert i. induction bs as [|c rest IH]; intros i H.
  - destruct i; discriminate.
  - destruct i as [|j]; cbn in *; [now inversion H | now apply IH].
Qed.

Lemma activeValues_add_other (type : string) (bs : list App.button) (i : nat)
    (b : App.button) :
  nth_error bs i = Some b -> App.dataType b <> type ->
  Derived.activeValues type (App.addActive i bs) = Derived.activeValues type bs.
Proof.
  unfold Derived.activeValues.
  revert i. induction bs as [|c rest IH]; intros i H Hne.
  - destruct i; discriminate.
  - destruct i as [|j]; cbn [App.addActive nth_error] in *.
    + inversion H; subst. cbn [filter App.dataType].
      destruct (String.eqb_spec (App.dataType b) type); [contradiction | reflexivity].
    + cbn [filter]. destruct (String.eqb (App.dataType c) type && App.active c);
        cbn [map]; now rewrite (IH j).
Qed.

Lemma activeValues_add_same (type : string) (bs : list App.button) (i : nat)
    (b : App.button) :
  nth_error bs i = Some b -> App.dataType b = type ->
  Derived.activeValues type bs = [] ->
  Derived.activeValues type (App.addActive i bs) = [App.dataValue b].
Proof.
  unfold Derived.activeValues.
  revert i. induction bs as [|c rest IH]; intros i H Htype Hnone.
  - destruct i; discriminate.
  - destruct i as [|j]; cbn [App.addActive nth_error] in *.
    + inversion H; subst. cbn [filter App.dataType App.active] in *.
      rewrite String.eqb_refl in *. cbn [andb] in *.
      destruct (App.active b); [discriminate|]. cbn [map]. now rewrite Hnone.
    + cbn [filter] in *.
      destruct (String.eqb (App.dataType c) type && App.active c); [discriminate|].
      now apply IH.
Qed.

Lemma select_same (type : string) (bs : list App.button) (i : nat) (b : App.button) :
  nth_error bs i = Some b -> App.dataType b = type ->
  Derived.activeValues type (App.addActive i (App.removeActive type bs))
  = [App.dataValue b].
Proof.
  intros H Htype.
  destruct (nth_error_removeActive type bs i b H) as (b' & Hb' & Ht & Hv).
  rewrite <- Hv. apply activeValues_add_same; [exact Hb' | congruence |].
  apply activeValues_remove_same.
Qed.

Lemma select_other (type clicked : string) (bs : list App.button) (i : nat)
    (b : App.button) :
  nth_error bs i = Some b -> App.dataType b = clicked -> type <> clicked ->
  Derived.activeValues type (App.addActive i (App.removeActive clicked bs))
  = Derived.activeValues type bs.
Proof.
  intros H Htype Hne.
  destruct (nth_error_removeActive clicked bs i b H) as (b' & Hb' & Ht & Hv).
  rewrite (activeValues_add_other type _ i b' Hb') by congruence.
  now apply activeValues_remove_other.
Qed.

Ltac other_type Hn Ht :=
  rewrite ?activeValues_remove_other by discriminate;
  rewrite ?(select_other _ _ _ _ _ Hn Ht) by discriminate;
  assumption.

Ltac same_type Hn Ht :=
  rewrite ?activeValues_remove_other by discriminate;
  first [ now rewrite (select_same _ _ _ _ Hn Ht) | apply activeValues_remove_same ].

(** X20. Clicks keep filters and buttons in agreement: when, for each kind of
    filter, the active buttons show exactly the selected value (or none for
    an unset budget or cuisine), they still do after any click. *)
Theorem onClick_keeps_consistent :
  forall (s : App.State) (i : nat),
    Derived.consistent s -> Derived.consistent (App.onClick i s).
Proof.
  intros s i (Hcat & Hdist & Hbud & Hsmoke & Hcui).
  unfold App.onClick. destruct (nth_error (App.buttons s) i) as [btn|] eqn:Hn.
  2:{ repeat split; assumption. }
  unfold Derived.consistent, Derived.shows in *.
  destruct (String.eqb_spec (App.dataType btn) "category") as [Ht | _].
  { destruct (String.eqb_spec (App.dataValue btn) "restaurant") as [Hv | _];
      cbn [App.filters App.buttons App.setCategory App.setCuisine
           PlacesService.category PlacesService.distance_ PlacesService.budget
           PlacesService.smoking PlacesService.cuisine];
      repeat split; first [ other_type Hn Ht | same_type Hn Ht ]. }
  destruct (String.eqb_spec (App.dataType btn) "distance") as [Ht | _].
  { cbn [App.filters App.buttons App.setDistance
         PlacesService.category PlacesService.distance_ PlacesService.budget
         PlacesService.smoking PlacesService.cuisine].
    repeat split; first [ other_type Hn Ht | same_type Hn Ht ]. }
  destruct (String.eqb_spec (App.dataType btn) "budget") as [Ht | _].
  { destruct (App.active btn);
      cbn [negb App.filters App.buttons App.setBudget
           PlacesService.category PlacesService.distance_ PlacesService.budget
           PlacesService.smoking PlacesService.cuisine];
      repeat split; first [ other_type Hn Ht | same_type Hn Ht ]. }
  destruct (String.eqb_spec (App.dataType btn) "smoking") as [Ht | _].
  { cbn [App.filters App.buttons App.setSmoking
         PlacesService.category PlacesService.distance_ PlacesService.budget
         PlacesService.smoking PlacesService.cuisine].
    repeat split; first [ other_type Hn Ht | same_type Hn Ht ]. }
  destruct (String.eqb_spec (App.dataType btn) "cuisine") as [Ht | _].
  { destruct (App.active btn);
      cbn [negb App.filters App.buttons App.setCuisine
           PlacesService.category PlacesService.distance_ PlacesService.budget
           PlacesService.smoking PlacesService.cuisine];
      repeat split; first [ other_type Hn Ht | same_type Hn Ht ]. }
  repeat split; assumption.
Qed.

Lemma onClick_keeps_consistent_witness :
  Derived.consistent (App.onClick 5 Derived.startState)
  /\ Derived.consistent (App.onClick 1 (App.onClick 8 Derived.startState)).
Proof.
  assert (H0 : Derived.consistent Derived.startState) by (repeat split; reflexivity).
  split.
  - exact (onClick_keeps_consistent Derived.startState 5 H0).
  - exact (onClick_keeps_consistent _ 1 (onClick_keeps_consistent _ 8 H0)).
Defined.

(** X21. A budget button is a toggle: clicking an inactive one selects its value
    and leaves it the only active budget button; clicking it again clears
    the budget and leaves no budget button active, so that the next search
    applies no price filter; clicking an active one clears the budget at
    once.  The other filters are not touched. *)
Theorem budget_button_toggles :
  forall (s : App.State) (i : nat) (btn : App.button),
    nth_error (App.buttons s) i = Some btn ->
    App.dataType btn = "budget"%string ->
    let s1 := App.onClick i s in
    let s2 := App.onClick i s1 in
    (App.active btn = false ->
       PlacesService.budget (App.filters s1) = Some (App.dataValue btn)
       /\ Derived.activeValues "budget" (App.buttons s1) = [App.dataValue btn]
       /\ PlacesService.budget (App.filters s2) = None
       /\ Derived.activeValues "budget" (App.buttons s2) = []
       /\ PlacesService.budgetRange (App.filters s2) = None)
    /\ (App.active btn = true ->
       PlacesService.budget (App.filters s1) = None
       /\ Derived.activeValues "budget" (App.buttons s1) = [])
    /\ PlacesService.category (App.filters s1) = PlacesService.category (App.filters s)
    /\ PlacesService.distance_ (App.filters s1) = PlacesService.distance_ (App.filters s)
    /\ PlacesService.smoking (App.filters s1) = PlacesService.smoking (App.filters s)
    /\ PlacesService.cuisine (App.filters s1) = PlacesService.cuisine (App.filters s).
Proof.
  intros s i btn Hn Ht s1 s2.
  assert (Hs1 : s1 = if negb (App.active btn)
                     then App.mkState
                            (App.setBudget (App.filters s) (Some (App.dataValue btn)))
                            (App.addActive i (App.removeActive "budget" (App.buttons s)))
                            (App.cuisineGroupDisplay s)
                     else App.mkState (App.setBudget (App.filters s) None)
                            (App.removeActive "budget" (App.buttons s))
                            (App.cuisineGroupDisplay s)).
  { subst s1. unfold App.onClick. rewrite Hn, Ht. reflexivity. }
  split; [|split].
  - intros Hoff. rewrite Hoff in Hs1. cbn [negb] in Hs1.
    assert (Hn1 : nth_error (App.buttons s1) i
                  = Some (App.mkButton "budget" (App.dataValue btn) true)).
    { rewrite Hs1. cbn [App.buttons].
      destruct (nth_error_removeActive "budget" _ i btn Hn) as (b' & Hb' & Htb & Hvb).
      rewrite (nth_error_addActive _ _ _ Hb'). now rewrite Htb, Hvb, Ht. }
    assert (Hs2 : s2 = App.mkState (App.setBudget (App.filters s1) None)
                         (App.removeActive "budget" (App.buttons s1))
                         (App.cuisineGroupDisplay s1)).
    { subst s2. unfold App.onClick. rewrite Hn1. reflexivity. }
    rewrite Hs2. cbn [App.filters App.buttons App.setBudget PlacesService.budget].
    rewrite activeValues_remove_same.
    rewrite Hs1. cbn [App.filters App.buttons App.setBudget PlacesService.budget].
    rewrite (select_same _ _ _ _ Hn Ht). repeat split.
  - intros Hon. rewrite Hon in Hs1. cbn [negb] in Hs1. rewrite Hs1.
    cbn [App.filters App.buttons App.setBudget PlacesService.budget].
    now rewrite activeValues_remove_same.
  - rewrite Hs1. destruct (negb (App.active btn)); repeat split.
Qed.

Lemma budget_button_toggles_witness :
  PlacesService.budget (App.filters (App.onClick 5 Derived.startState))
  = Some "3000"%string
  /\ PlacesService.budget
       (App.filters (App.onClick 5 (App.onClick 5 Derived.startState))) = None.
Proof.
  pose proof (proj1 (budget_button_toggles Derived.startState 5
                       (App.mkButton "budget" "3000" false) eq_refl eq_refl)
                eq_refl) as H.
  cbv zeta in H. split; [apply H | apply H].
Defined.

(** X22. A category button selects its value; any category but "restaurant"
    also clears the cuisine, deactivates every cuisine button and hides the
    cuisine group, so that the request of the next search carries no
    cuisine keyword; "restaurant" shows the group and keeps the cuisine. *)
Theorem category_button_resets_cuisine :
  forall (s : App.State) (i : nat) (btn : App.button),
    nth_error (App.buttons s) i = Some btn ->
    App.dataType btn = "category"%string ->
    let s1 := App.onClick i s in
    PlacesService.category (App.filters s1) = App.dataValue btn
    /\ Derived.activeValues "category" (App.buttons s1) = [App.dataValue btn]
    /\ (App.dataValue btn <> "restaurant"%string ->
        PlacesService.cuisine (App.filters s1) = None
        /\ Derived.activeValues "cuisine" (App.buttons s1) = []
        /\ App.cuisineGroupDisplay s1 = "none"%string
        /\ forall location,
             PlacesService.keyword (PlacesService.buildRequest location (App.filters s1))
             = if String.eqb (PlacesService.smoking (App.filters s)) "allowed"
               then Some "喫煙可"%string
               else if String.eqb (PlacesService.smoking (App.filters s)) "no-smoking"
                    then Some "禁煙"%string
                    else None)
    /\ (App.dataValue btn = "restaurant"%string ->
        PlacesService.cuisine (App.filters s1) = PlacesService.cuisine (App.filters s)
        /\ App.cuisineGroupDisplay s1 = EmptyString).
Proof.
  intros s i btn Hn Ht s1. subst s1. unfold App.onClick. rewrite Hn, Ht.
  cbn [String.eqb Ascii.eqb Bool.eqb].
  destruct (String.eqb_spec (App.dataValue btn) "restaurant") as [Hv | Hv];
    cbn [App.filters App.buttons App.cuisineGroupDisplay App.setCategory App.setCuisine
         PlacesService.category PlacesService.cuisine].
  - split; [reflexivity|]. split; [now rewrite (select_same _ _ _ _ Hn Ht)|].
    split; [contradiction | intros _; split; reflexivity].
  - split; [reflexivity|]. split.
    { rewrite activeValues_remove_other by discriminate.
      now rewrite (select_same _ _ _ _ Hn Ht). }
    split; [|contradiction]. intros _.
    split; [reflexivity|]. split; [apply activeValues_remove_same|].
    split; [reflexivity|]. intros location.
    unfold PlacesService.buildRequest.
    cbn [PlacesService.keyword PlacesService.cuisine PlacesService.smoking
         App.setCuisine App.setCategory Js.truthy_string app].
    destruct (String.eqb (PlacesService.smoking (App.filters s)) "allowed");
      [reflexivity|].
    destruct (String.eqb (PlacesService.smoking (App.filters s)) "no-smoking");
      reflexivity.
Qed.

Lemma category_button_resets_cuisine_witness :
  PlacesService.cuisine
    (App.filters (App.onClick 1 (App.onClick 8 Derived.startState))) = None
  /\ PlacesService.cuisine (App.filters (App.onClick 8 Derived.startState))
     = Some "ラーメン"%string.
Proof.
  split; [|reflexivity].
  refine (proj1 (proj1 (proj2 (proj2
            (category_button_resets_cuisine (App.onClick 8 Derived.startState) 1
               (App.mkButton "category" "cafe" false) eq_refl eq_refl))) _)).
  discriminate.
Defined.

(* ------------------------------------------------------------------ *)
(** ** Ranges within one day, and wider filters *)

Lemma closeMinute_nonneg (text : string) (m : HoursParser.captures) :
  Regex.exec HoursParser.timeRangePattern text = Some m ->
  0 <= Reference.openMinute m /\ 0 <= Reference.closeMinute m.
Proof.
  intros Hexec. apply exec_In in Hexec. destruct Hexec as (s' & r & Hin).
  apply timeRangePattern_In in Hin. destruct Hin as (H1 & H2 & H3 & H4).
  apply parsesBelow100_value in H1, H2, H3, H4.
  destruct H1 as (oh & _ & Goh & Hoh), H2 as (om & _ & Gom & Hom),
           H3 as (ch & _ & Gch & Hch), H4 as (cm & _ & Gcm & Hcm).
  unfold Reference.openMinute, Reference.closeMinute.
  rewrite Goh, Gom, Gch, Gcm. lia.
Qed.

(** X6. At a minute of the day (0 to 1439), a matched overnight range (close
    before open) is open exactly from the open minute on and up to the close
    minute: the comparison with the close shifted by a day never decides.
    A range whose close equals its open is open at that one minute only. *)
Theorem overnight_range_within_a_day :
  forall (text : string) (m : HoursParser.captures) (t : Z),
    Regex.exec HoursParser.timeRangePattern text = Some m ->
    0 <= t <= 1439 ->
    (Reference.closeMinute m < Reference.openMinute m ->
     (HoursParser.rangeVerdict m t = true <->
      Reference.openMinute m <= t \/ t <= Reference.closeMinute m))
    /\ (Reference.closeMinute m = Reference.openMinute m ->
        (HoursParser.rangeVerdict m t = true <-> t = Reference.openMinute m)).
Proof.
  intros text m t Hexec Ht.
  destruct (closeMinute_nonneg text m Hexec) as [Ho Hc].
  rewrite rangeVerdict_decision. unfold Reference.rangeDecision.
  set (o := Reference.openMinute m) in *. set (c := Reference.closeMinute m) in *.
  rewrite Z.geb_leb. split; intros Hoc.
  - destruct (Z.leb_spec o c); [lia|].
    destruct (Z.ltb_spec t o).
    + rewrite Z.leb_le. lia.
    + rewrite andb_true_iff, !Z.leb_le. lia.
  - destruct (Z.leb_spec o c); [|lia].
    rewrite andb_true_iff, !Z.leb_le. lia.
Qed.

Lemma overnight_range_within_a_day_witness :
  (HoursParser.rangeVerdict (HoursParser.mkCaptures "18" "00" "2" "00") (23 * 60) = true
   <-> Reference.openMinute (HoursParser.mkCaptures "18" "00" "2" "00") <= 23 * 60
       \/ 23 * 60 <= Reference.closeMinute (HoursParser.mkCaptures "18" "00" "2" "00"))
  /\ (HoursParser.rangeVerdict (HoursParser.mkCaptures "0" "00" "0" "00") 720 = true
      <-> 720 = Reference.openMinute (HoursParser.mkCaptures "0" "00" "0" "00")).
Proof.
  split.
  - refine (proj1 (overnight_range_within_a_day "18時00分〜2時00分"
                     (HoursParser.mkCaptures "18" "00" "2" "00") (23 * 60) eq_refl _) _).
    + lia.
    + reflexivity.
  - refine (proj2 (overnight_range_within_a_day "0時00分〜0時00分"
                     (HoursParser.mkCaptures "0" "00" "0" "00") 720 eq_refl _) _).
    + lia.
    + reflexivity.
Defined.

(** X12. Widening a search never loses a candidate: with a larger radius and
    the same budget, or with the budget removed, every candidate that was kept
    is still kept. *)
Theorem wider_filters_keep_more :
  forall (filters filters' : PlacesService.Filters)
         (places : list PlacesService.Place) (p : PlacesService.Place),
    PlacesService.radius filters <= PlacesService.radius filters' ->
    PlacesService.budgetRange filters' = PlacesService.budgetRange filters
    \/ PlacesService.budgetRange filters' = None ->
    In p (PlacesService.filterStage filters places) ->
    In p (PlacesService.filterStage filters' places).
Proof.
  intros filters filters' places p Hradius Hbudget.
  rewrite !filterStage_filter, !filter_In. intros [Hin Hkeep].
  split; [exact Hin|]. unfold Reference.keeps in *.
  apply andb_prop in Hkeep. destruct Hkeep as [Hkeep Hprice].
  apply andb_prop in Hkeep. destruct Hkeep as [Hopen Hdist].
  rewrite Hopen. cbn [andb]. apply andb_true_intro. split.
  - apply Qle_bool_iff. apply Qle_bool_iff in Hdist.
    eapply Qle_trans; [exact Hdist|]. now rewrite <- Zle_Qle.
  - destruct Hbudget as [-> | ->]; [exact Hprice | reflexivity].
Qed.

Lemma wider_filters_keep_more_witness :
  In (Reference.offer "near" (Some true) 300 (Some 4))
    (PlacesService.filterStage
       (PlacesService.mkFilters "restaurant" "800" None "any" None)
       [Reference.offer "far" (Some true) 900 None;
        Reference.offer "near" (Some true) 300 (Some 4)]).
Proof.
  apply (wider_filters_keep_more
           (PlacesService.mkFilters "restaurant" "400" (Some "10000"%string) "any" None)).
  - vm_compute. discriminate.
  - now right.
  - vm_compute. tauto.
Defined.
